(** * GoKoala: the features pipeline, its cursor codec and the engine's
      response handling, embedded in Rocq.

    The definitions below follow the Go sources function by function:

    - [ogc/features/domain/cursor.go]   ([Cursor])
    - [ogc/features/domain/mapper.go]   ([Mapper])
    - [ogc/features/datasources/geopackage] ([GeoPackage])
    - [ogc/features/main.go]            ([Features])
    - [engine/engine.go]                ([Engine])

    together with the fragments of the Go standard library they call
    ([encoding/base64], [math/big], [bytes], [strconv], [net/http]).

    Go values are represented as follows: [int], [int64] and [uint] are [Z]
    (wrap-around written out where a conversion can overflow), a [byte] is
    [Byte.byte], a [[]byte] is [list byte], a Go [string] is [string], a Go
    [map] is a [gmap].  A function that can panic returns a [result]. *)

From Stdlib Require Import ZArith Lia List String Ascii.
From Stdlib Require Strings.Byte.
From coqutil Require Import Byte.
From stdpp Require Import base option list gmap strings sorting pretty.

Local Open Scope Z_scope.

(* ===================================================================== *)
(** * Go runtime: normal return or panic *)
(* ===================================================================== *)

Module Go.

(** The outcome of a call that may panic (failed type assertion, index out
    of range).  A Go [error] is an ordinary return value and lives inside
    [Ok]. *)
Inductive result (A : Type) : Type :=
| Ok (a : A)
| Panic (msg : string).
Global Arguments Ok {A} a.
Global Arguments Panic {A} msg.

Definition bind {A B} (r : result A) (k : A -> result B) : result B :=
  match r with
  | Ok a => k a
  | Panic m => Panic m
  end.

(** [s[i]] on a slice: a run-time panic when [i] is out of range. *)
Definition index {A} (s : list A) (i : nat) : result A :=
  match s !! i with
  | Some a => Ok a
  | None => Panic "index out of range"
  end.

(** A Go [error]: nil or a message. *)
Definition error := option string.

(** Two's-complement wrap of an integer into [int64]. *)
Definition wrap_int64 (z : Z) : Z :=
  let m := z mod 2 ^ 64 in
  if m <? 2 ^ 63 then m else m - 2 ^ 64.

Definition MaxInt64 : Z := 2 ^ 63 - 1.
Definition MinInt64 : Z := - 2 ^ 63.

Definition byte_eqb (a b : byte) : bool := Byte.eqb a b.

End Go.

#[global] Instance byte_eq_dec : EqDecision byte := Byte.byte_eq_dec.
#[global] Instance result_bind : MBind Go.result := fun A B k r => Go.bind r k.
#[global] Instance result_ret : MRet Go.result := fun A a => Go.Ok a.

(* ===================================================================== *)
(** * encoding/base64, the [URLEncoding] instance *)
(* ===================================================================== *)

Module Base64.

(** [const encodeURL]. *)
Definition encodeURL : string :=
  "ABCDEFGHIJKLMNOPQRSTUVWXYZabcdefghijklmnopqrstuvwxyz0123456789-_".

(** [StdPadding = '=']. *)
Definition StdPadding : byte := Byte.x3d.

Definition newline (c : byte) : bool :=
  Go.byte_eqb c Byte.x0a || Go.byte_eqb c Byte.x0d.

(** [enc.encode[i]]: the 64-entry table copied from the alphabet. *)
Definition encode_tab (i : Z) : byte :=
  nth (Z.to_nat i) (list_byte_of_string encodeURL) Byte.x00.

(** [enc.decodeMap[c]]: initialised to [0xff] everywhere, then
    [decodeMap[encoder[i]] = i] for [i = 0..63]. *)
Fixpoint decodeMap_from (alphabet : list byte) (i : Z) (c : byte) : Z :=
  match alphabet with
  | [] => 255
  | a :: rest =>
      (* later entries overwrite earlier ones; the alphabet has no repeats *)
      let r := decodeMap_from rest (i + 1) c in
      if Z.eqb r 255 then (if Go.byte_eqb a c then i else 255) else r
  end.

Definition decodeMap (c : byte) : Z :=
  decodeMap_from (list_byte_of_string encodeURL) 0 c.

Definition sextet (val : Z) (shift : Z) : byte :=
  encode_tab (Z.land (Z.shiftr val shift) 63).

(** [Encoding.Encode]: three source bytes per four output characters, the
    remainder padded with [=]. *)
Fixpoint Encode (src : list byte) : list byte :=
  match src with
  | [] => []
  | [b0] =>
      let val := Z.shiftl (byte.unsigned b0) 16 in
      [sextet val 18; sextet val 12; StdPadding; StdPadding]
  | [b0; b1] =>
      let val := Z.lor (Z.shiftl (byte.unsigned b0) 16)
                       (Z.shiftl (byte.unsigned b1) 8) in
      [sextet val 18; sextet val 12; sextet val 6; StdPadding]
  | b0 :: b1 :: b2 :: rest =>
      let val := Z.lor (Z.lor (Z.shiftl (byte.unsigned b0) 16)
                              (Z.shiftl (byte.unsigned b1) 8))
                       (byte.unsigned b2) in
      sextet val 18 :: sextet val 12 :: sextet val 6 :: sextet val 0
        :: Encode rest
  end.

Definition EncodeToString (src : list byte) : string :=
  string_of_list_byte (Encode src).

(** [CorruptInputError]; the offset it carries is dropped, no caller in
    this repository reads it. *)
Inductive CorruptInputError : Type := corruptInput.

(** The tail of [decodeQuantum]: [dlen] six-bit values in [dbuf] (missing
    ones are zero) are packed into a 24-bit value and [dlen - 1] bytes are
    written out. *)
Definition quantum_bytes (dbuf : list Z) : list byte :=
  let d i := nth i dbuf 0 in
  let val := Z.lor (Z.lor (Z.lor (Z.shiftl (d 0%nat) 18) (Z.shiftl (d 1%nat) 12))
                          (Z.shiftl (d 2%nat) 6)) (d 3%nat) in
  take (length dbuf - 1)
       [byte.of_Z (Z.shiftr val 16); byte.of_Z (Z.shiftr val 8);
        byte.of_Z (Z.shiftr val 0)].

Fixpoint skip_newlines (src : list byte) : list byte :=
  match src with
  | c :: rest => if newline c then skip_newlines rest else src
  | [] => []
  end.

(** [Encoding.Decode]: the loop over [decodeQuantum].  [dbuf] holds the
    six-bit values of the quantum being read, so [j = length dbuf].  The
    result is the bytes written and the error.  (The 8- and 4-character
    fast paths of the Go code decode exactly the quanta made of alphabet
    characters only and fall back to [decodeQuantum] otherwise.) *)
Fixpoint Decode (src : list byte) (dbuf : list Z)
  : list byte * option CorruptInputError :=
  match src with
  | [] =>
      match dbuf with
      | [] => ([], None)                       (* j == 0: clean end *)
      | _ => ([], Some corruptInput)           (* padChar != NoPadding *)
      end
  | c :: rest =>
      let out := decodeMap c in
      if negb (Z.eqb out 255) then
        let dbuf' := dbuf ++ [out] in
        if Nat.eqb (length dbuf') 4 then
          let '(bs, err) := Decode rest [] in
          (quantum_bytes dbuf' ++ bs, err)
        else Decode rest dbuf'
      else if newline c then Decode rest dbuf
      else if negb (Go.byte_eqb c StdPadding) then ([], Some corruptInput)
      else
        (* padding reached *)
        match length dbuf with
        | 0%nat | 1%nat => ([], Some corruptInput)
        | 2%nat =>
            (* "==" is expected, the first "=" is already consumed *)
            match skip_newlines rest with
            | [] => ([], Some corruptInput)     (* not enough padding *)
            | c2 :: rest2 =>
                if negb (Go.byte_eqb c2 StdPadding)
                then ([], Some corruptInput)    (* incorrect padding *)
                else
                  match skip_newlines rest2 with
                  | [] => (quantum_bytes dbuf, None)
                  | _ => (quantum_bytes dbuf, Some corruptInput) (* trailing garbage *)
                  end
            end
        | _ =>
            match skip_newlines rest with
            | [] => (quantum_bytes dbuf, None)
            | _ => (quantum_bytes dbuf, Some corruptInput)   (* trailing garbage *)
            end
        end
  end.

Definition DecodeString (s : string) : list byte * option CorruptInputError :=
  Decode (list_byte_of_string s) [].

(** The strings [DecodeString] rejects. *)
Definition corrupt (s : string) : Prop := (DecodeString s).2 <> None.

End Base64.

(* ===================================================================== *)
(** * math/big: the three [Int] methods the cursor codec uses *)
(* ===================================================================== *)

Module Big.

(** [nat.bytes] on a one-word magnitude: the eight bytes of the word,
    most significant first. *)
Definition word_bytes (w : Z) : list byte :=
  map (fun k => byte.of_Z (Z.shiftr w (8 * k))) [7; 6; 5; 4; 3; 2; 1; 0].

Fixpoint strip_zeros (bs : list byte) : list byte :=
  match bs with
  | b :: rest => if Go.byte_eqb b Byte.x00 then strip_zeros rest else bs
  | [] => []
  end.

(** [big.NewInt(x).Bytes()] for an [int64] [x]: the absolute value,
    big-endian, without leading zero bytes (empty for zero). *)
Definition NewInt_Bytes (x : Z) : list byte :=
  strip_zeros (word_bytes (Z.abs x)).

(** [new(big.Int).SetBytes(buf)]: [buf] read as a big-endian unsigned
    integer of any length. *)
Definition SetBytes (buf : list byte) : Z :=
  fold_left (fun acc b => Z.lor (Z.shiftl acc 8) (byte.unsigned b)) buf 0.

(** [Int.Int64]: the low 64 bits of the magnitude, reinterpreted as
    [int64] (the value here is never negative). *)
Definition Int64 (x : Z) : Z := Go.wrap_int64 x.

End Big.

(* ===================================================================== *)
(** * bytes.Split with a one-byte separator *)
(* ===================================================================== *)

Module Bytes.

(** [bytes.Split(s, []byte{sep})]: all the subslices between separators;
    one (empty) element for an empty [s]. *)
Fixpoint Split (s : list byte) (sep : byte) : list (list byte) :=
  match s with
  | [] => [[]]
  | b :: rest =>
      if Go.byte_eqb b sep then [] :: Split rest sep
      else match Split rest sep with
           | p :: ps => (b :: p) :: ps
           | [] => [[b]]
           end
  end.

(** [bytes.Compare(a, b) != 0]. *)
Definition differ (a b : list byte) : bool :=
  negb (bool_decide (a = b)).

End Bytes.

(* ===================================================================== *)
(** * ogc/features/domain/cursor.go *)
(* ===================================================================== *)

Module Cursor.

Definition separator : byte := Byte.x7c.   (* '|' *)

Definition EncodedCursor := string.

Record DecodedCursor := mkDecodedCursor {
  FID : Z;
  FiltersChecksum : list byte
}.

Record PrevNextFID := mkPrevNextFID {
  Prev : Z;
  Next : Z
}.

Record Cursors := mkCursors {
  CPrev : EncodedCursor;
  CNext : EncodedCursor;
  HasPrev : bool;
  HasNext : bool
}.

Definition encodeCursor (fid : Z) (filtersChecksum : list byte) : EncodedCursor :=
  let fidAsBytes := Big.NewInt_Bytes fid in
  let cursor := fidAsBytes ++ [separator] in
  let cursor := cursor ++ filtersChecksum in
  Base64.EncodeToString cursor.

Definition NewCursors (fid : PrevNextFID) (filtersChecksum : list byte) : Cursors :=
  {| CPrev := encodeCursor (Prev fid) filtersChecksum;
     CNext := encodeCursor (Next fid) filtersChecksum;
     HasPrev := 0 <? Prev fid;
     HasNext := 0 <? Next fid |}.

(** [EncodedCursor.Decode].  The two tests the Go code makes on values that
    cannot have changed ([len(decoded) < 1] after the empty case has
    returned, and the second [err != nil]) are kept as they are written. *)
Definition Decode (c : EncodedCursor) (filtersChecksum : list byte)
  : Go.result DecodedCursor :=
  let value := c in
  if bool_decide (value = ""%string) then
    Go.Ok (mkDecodedCursor 0 filtersChecksum)
  else
    let '(decoded, err) := Base64.DecodeString value in
    if bool_decide (err <> None) || Nat.eqb (length decoded) 0 then
      Go.Ok (mkDecodedCursor 0 filtersChecksum)
    else
      let decodedParts := Bytes.Split decoded separator in
      if Nat.ltb (length decoded) 1 then
        Go.Ok (mkDecodedCursor 0 filtersChecksum)
      else
        part0 ← Go.index decodedParts 0;
        let fid := Big.Int64 (Big.SetBytes part0) in
        if bool_decide (err <> None) then
          Go.Ok (mkDecodedCursor 0 filtersChecksum)
        else
          let fid := if fid <? 0 then 0 else fid in
          if Nat.ltb 1 (length decodedParts) then
            part1 ← Go.index decodedParts 1;
            if Bytes.differ part1 filtersChecksum then
              Go.Ok (mkDecodedCursor 0 filtersChecksum)
            else Go.Ok (mkDecodedCursor fid filtersChecksum)
          else Go.Ok (mkDecodedCursor fid filtersChecksum).

End Cursor.

(* ===================================================================== *)
(** * strconv.Atoi (64-bit [int]) *)
(* ===================================================================== *)

Module Strconv.

Inductive NumError : Type := ErrSyntax | ErrRange.

Definition is_digit (c : byte) : bool :=
  (48 <=? byte.unsigned c) && (byte.unsigned c <=? 57).

(** The digit loop of the fast path: [n = n*10 + int(ch - '0')], a syntax
    error on any other character. *)
Fixpoint fast_digits (s : list byte) (n : Z) : option Z :=
  match s with
  | [] => Some n
  | ch :: rest =>
      if is_digit ch then fast_digits rest (n * 10 + (byte.unsigned ch - 48))
      else None
  end.

Definition maxUint64 : Z := 2 ^ 64 - 1.

(** The digit loop of [ParseUint(s, 10, 64)]: [cutoff = maxUint64/10 + 1];
    the loop stops at the first overflow, before looking at the rest. *)
Fixpoint ParseUint_loop (s : list byte) (n : Z) : Z * option NumError :=
  match s with
  | [] => (n, None)
  | c :: rest =>
      if negb (is_digit c) then (0, Some ErrSyntax)
      else
        let d := byte.unsigned c - 48 in
        if n >=? maxUint64 / 10 + 1 then (maxUint64, Some ErrRange)
        else
          let n := n * 10 in
          let n1 := (n + d) mod 2 ^ 64 in
          if (n1 <? n) || (n1 >? maxUint64) then (maxUint64, Some ErrRange)
          else ParseUint_loop rest n1
  end.

Definition ParseUint (s : list byte) : Z * option NumError :=
  match s with
  | [] => (0, Some ErrSyntax)
  | _ => ParseUint_loop s 0
  end.

(** [ParseInt(s, 10, 0)]. *)
Definition ParseInt (s : list byte) : Z * option NumError :=
  match s with
  | [] => (0, Some ErrSyntax)
  | c0 :: rest =>
      let neg := Go.byte_eqb c0 Byte.x2d in
      let s' := if Go.byte_eqb c0 Byte.x2b || neg then rest else s in
      let '(un, err) := ParseUint s' in
      match err with
      | Some ErrSyntax => (0, Some ErrSyntax)
      | _ =>
          let cutoff := 2 ^ 63 in
          if negb neg && (un >=? cutoff) then (cutoff - 1, Some ErrRange)
          else if neg && (un >? cutoff) then (- cutoff, Some ErrRange)
          else ((if neg then - un else un), None)
      end
  end.

Definition Atoi (str : string) : Z * option NumError :=
  let s := list_byte_of_string str in
  let sLen := length s in
  if Nat.ltb 0 sLen && Nat.ltb sLen 19 then
    (* fast path for small integers that fit the int type *)
    match s with
    | [] => (0, Some ErrSyntax)
    | c0 :: rest =>
        let signed := Go.byte_eqb c0 Byte.x2d || Go.byte_eqb c0 Byte.x2b in
        let digits := if signed then rest else s in
        if signed && Nat.ltb (length digits) 1 then (0, Some ErrSyntax)
        else
          match fast_digits digits 0 with
          | None => (0, Some ErrSyntax)
          | Some n => ((if Go.byte_eqb c0 Byte.x2d then - n else n), None)
          end
    end
  else
    (* slow path for invalid, big, or underscored integers *)
    ParseInt s.

End Strconv.

(* ===================================================================== *)
(** * net/url.Values and net/http.Header *)
(* ===================================================================== *)

Module Url.

(** [url.Values.Get]: the first value of the key, [""] when there is none. *)
Definition Get (v : gmap string (list string)) (key : string) : string :=
  match v !! key with
  | Some (x :: _) => x
  | _ => ""%string
  end.

End Url.

Module Http.

Definition StatusNoContent : Z := 204.
Definition StatusBadRequest : Z := 400.
Definition StatusNotFound : Z := 404.
Definition StatusInternalServerError : Z := 500.

(** [validHeaderFieldByte]: the [token] characters of RFC 7230. *)
Definition validHeaderFieldByte (c : byte) : bool :=
  let n := byte.unsigned c in
  ((48 <=? n) && (n <=? 57)) || ((65 <=? n) && (n <=? 90))
  || ((97 <=? n) && (n <=? 122))
  || bool_decide (n ∈ [33; 35; 36; 37; 38; 39; 42; 43; 45; 46; 94; 95; 96; 124; 126]).

(** The second loop of [canonicalMIMEHeaderKey]: upper case at the start
    and after a dash, lower case elsewhere. *)
Fixpoint canon_loop (a : list byte) (upper : bool) : list byte :=
  match a with
  | [] => []
  | c :: rest =>
      let n := byte.unsigned c in
      let c' :=
        if upper && (97 <=? n) && (n <=? 122) then byte.of_Z (n - 32)
        else if negb upper && (65 <=? n) && (n <=? 90) then byte.of_Z (n + 32)
        else c in
      c' :: canon_loop rest (Go.byte_eqb c' Byte.x2d)
  end.

(** [textproto.CanonicalMIMEHeaderKey]: a key holding a space or an
    invalid byte is returned unchanged. *)
Definition CanonicalMIMEHeaderKey (s : string) : string :=
  let a := list_byte_of_string s in
  if forallb validHeaderFieldByte a
  then string_of_list_byte (canon_loop a true)
  else s.

Record Response := mkResponse {
  StatusCode : Z;
  Header : gmap string (list string);
  Body : list byte
}.

(** [Header.Set(key, value)]. *)
Definition Header_Set (h : gmap string (list string)) (key value : string)
  : gmap string (list string) :=
  <[CanonicalMIMEHeaderKey key := [value]]> h.

(** [Header.Values(key)]: the values stored under the key, none when the
    key is missing. *)
Definition Header_Values (h : gmap string (list string)) (key : string)
  : list string :=
  default [] (h !! CanonicalMIMEHeaderKey key).

(** [Header.Get(key)]. *)
Definition Header_Get (h : gmap string (list string)) (key : string) : string :=
  match Header_Values h key with
  | x :: _ => x
  | [] => ""%string
  end.

End Http.

(* ===================================================================== *)
(** * database/sql values and result sets *)
(* ===================================================================== *)

Module Sql.

(** A scanned column value, an [interface{}] in Go: nil, one of the types
    the driver documents, or a value of some other dynamic type. *)
Inductive value : Type :=
| VNil
| VInt64 (z : Z)
| VFloat64 (bits : Z)
| VBytes (b : list byte)
| VString (s : string)
| VBool (b : bool)
| VTime (unixNano : Z)
| VOther (typeName : string).

(** What a [*sqlx.Rows] yields: the column names (or the error of
    [rows.Columns]) and, for every [rows.Next], the result of
    [rows.SliceScan]. *)
Record Rows := mkRows {
  ColumnsErr : Go.error;
  Columns : list string;
  Scans : list (list value * Go.error)
}.

End Sql.

(* ===================================================================== *)
(** * ogc/features/domain: the feature mapper *)
(* ===================================================================== *)

Module Mapper.
Import Sql.

Section WithGeometry.

(** [geom.Geometry] is left abstract. *)
Context {Geometry : Type}.

Record Feature := mkFeature {
  ID : Z;
  FGeometry : option Geometry;
  Properties : gmap string value
}.

Definition newFeature : Feature :=
  {| ID := 0; FGeometry := None; Properties := ∅ |}.

Record FeatureCollection := mkFeatureCollection {
  NumberReturned : Z;
  Features : list Feature
}.

Variable fidColumn geomColumn : string.
Variable geomMapper : list byte -> Geometry * Go.error.

Definition reserved : list string :=
  ["minx"; "miny"; "maxx"; "maxy"; "min_zoom"; "max_zoom"]%string.

(** One iteration of the loop of [mapColumnsToFeature], for a non-nil
    [columnValue]: the feature as updated, and [Some err] when the function
    returns [err] at this column. *)
Definition mapColumn (feature : Feature) (columnName : string) (columnValue : value)
  : Go.result (Feature * Go.error) :=
  if bool_decide (columnName = fidColumn) then
    (* feature.ID = columnValue.(int64) *)
    match columnValue with
    | VInt64 z =>
        Go.Ok ({| ID := z; FGeometry := FGeometry feature;
                  Properties := Properties feature |}, None)
    | _ => Go.Panic "interface conversion: interface {} is not int64"
    end
  else if bool_decide (columnName = geomColumn) then
    match columnValue with
    | VBytes rawGeom =>
        match geomMapper rawGeom with
        | (_, Some err) =>
            Go.Ok (feature, Some ("failed to map/decode geometry from datastore: " ++ err)%string)
        | (mappedGeom, None) =>
            Go.Ok ({| ID := ID feature; FGeometry := Some mappedGeom;
                      Properties := Properties feature |}, None)
        end
    | _ =>
        Go.Ok (feature,
               Some ("failed to read geometry from " ++ geomColumn ++ " column in datastore")%string)
    end
  else if bool_decide (columnName ∈ reserved) then
    (* skip these columns used for bounding box and zoom filtering *)
    Go.Ok (feature, None)
  else
    let set v := Go.Ok ({| ID := ID feature; FGeometry := FGeometry feature;
                           Properties := <[columnName := v]> (Properties feature) |}, None) in
    match columnValue with
    | VBytes v => set (VString (string_of_list_byte v))
    | VInt64 _ | VFloat64 _ | VTime _ | VString _ | VBool _ => set columnValue
    | VNil | VOther _ =>
        Go.Ok (feature, Some ("unexpected type for sqlite column data: " ++ columnName)%string)
    end.

(** The dynamic types a property value can have. *)
Definition scalar (v : value) : Prop :=
  match v with
  | VInt64 _ | VFloat64 _ | VString _ | VBool _ | VTime _ => True
  | VNil | VBytes _ | VOther _ => False
  end.

(** A property bag that holds only scalar values, under names of data
    columns. *)
Definition clean_properties (columns : list string) (feature : Feature) : Prop :=
  forall k v, Properties feature !! k = Some v ->
    k ∈ columns /\ k <> fidColumn /\ k <> geomColumn /\ (k ∉ reserved) /\ scalar v.

(** [mapColumnsToFeature]: [for i, columnName := range columns], reading
    [values[i]]; the loop is entered at index [i]. *)
Fixpoint mapColumnsFrom (i : nat) (feature : Feature) (columns : list string)
  (values : list value) : Go.result (Feature * Go.error) :=
  match columns with
  | [] => Go.Ok (feature, None)
  | columnName :: rest =>
      columnValue ← Go.index values i;
      match columnValue with
      | VNil => mapColumnsFrom (S i) feature rest values
      | _ =>
          r ← mapColumn feature columnName columnValue;
          match r with
          | (feature', None) => mapColumnsFrom (S i) feature' rest values
          | (feature', Some err) => Go.Ok (feature', Some err)
          end
      end
  end.

Definition mapColumnsToFeature (feature : Feature) (columns : list string)
  (values : list value) : Go.result (Feature * Go.error) :=
  mapColumnsFrom 0 feature columns values.

(** The loop [for rows.Next()] of [MapRowsToFeatures]. *)
Fixpoint mapRowsLoop (columns : list string) (scans : list (list value * Go.error))
  (result : list Feature) : Go.result (list Feature * Go.error) :=
  match scans with
  | [] => Go.Ok (result, None)
  | (_, Some err) :: _ => Go.Ok (result, Some err)
  | (values, None) :: more =>
      r ← mapColumnsToFeature newFeature columns values;
      match r with
      | (_, Some err) => Go.Ok (result, Some err)
      | (feature, None) => mapRowsLoop columns more (result ++ [feature])
      end
  end.

(** [MapRowsToFeatures], as in the mapper source: features and error. *)
Definition MapRowsToFeatures (rows : Rows) : Go.result (list Feature * Go.error) :=
  match ColumnsErr rows with
  | Some err => Go.Ok ([], Some err)
  | None => mapRowsLoop (Columns rows) (Scans rows) []
  end.

(** The integer held by the column called [name], zero when the column is
    missing or null. *)
Definition columnInt64 (columns : list string) (values : list value) (name : string) : Z :=
  match list_find (fun c => c = name) columns with
  | Some (i, _) => match values !! i with Some (VInt64 z) => z | _ => 0 end
  | None => 0
  end.

(** Modelled from the spec: the datasource calls a three-result
    [MapRowsToFeatures] whose source is not available; compared with the
    two-result function above it also returns the prev/next pair, "derived
    from the two extra synthetic columns [prevfid] and [nextfid] emitted by
    the SQL", taken from "any one row" (here the first).  A null column
    leaves the field at zero; without a row no pair is returned (the
    datasource tests the pair for nil). *)
Definition prevNextOf (rows : Rows) : option Cursor.PrevNextFID :=
  match Scans rows with
  | (values, _) :: _ =>
      Some {| Cursor.Prev := columnInt64 (Columns rows) values "prevfid";
              Cursor.Next := columnInt64 (Columns rows) values "nextfid" |}
  | [] => None
  end.

(** Modelled from the spec: the three-result [MapRowsToFeatures]; features
    and error are those of the two-result function. *)
Definition MapRowsToFeatures3 (rows : Rows)
  : Go.result (list Feature * option Cursor.PrevNextFID * Go.error) :=
  r ← MapRowsToFeatures rows;
  match r with
  | (features, Some err) => Go.Ok (features, None, Some err)
  | (features, None) => Go.Ok (features, prevNextOf rows, None)
  end.

End WithGeometry.

Global Arguments Feature : clear implicits.
Global Arguments FeatureCollection : clear implicits.

End Mapper.

(* ===================================================================== *)
(** * ogc/features/datasources/geopackage *)
(* ===================================================================== *)

Module GeoPackage.
Import Sql.

(** ** The SQLite side: tables, and what the three queries return *)

Record TableRow := mkTableRow {
  row_fid : Z;                 (* the integer primary key *)
  row_rest : list value        (* the other columns, geometry included *)
}.

Record Table := mkTable {
  fid_column : string;
  rest_columns : list string;
  table_rows : list TableRow
}.

(** The text of a query is kept in structured form: which of the three
    statements of the datasource it is, and the names spliced into it by
    [fmt.Sprintf]. *)
Inductive Query : Type :=
| QDefault (tableName fidColumn : string)
| QBbox (tableName fidColumn geometryColumn : string)
| QFeature (tableName fidColumn : string).

Definition fid_le (a b : TableRow) : Prop := row_fid a <= row_fid b.
Definition fid_ge (a b : TableRow) : Prop := row_fid b <= row_fid a.
#[global] Instance fid_le_dec : RelDecision fid_le.
Proof. intros a b; unfold fid_le; apply _. Defined.
#[global] Instance fid_ge_dec : RelDecision fid_ge.
Proof. intros a b; unfold fid_ge; apply _. Defined.

(** [order by fid asc] and [order by fid desc]. *)
Definition order_asc (rows : list TableRow) : list TableRow := merge_sort fid_le rows.
Definition order_desc (rows : list TableRow) : list TableRow := merge_sort fid_ge rows.

(** [limit n]: SQLite reads a negative limit as "no limit". *)
Definition sql_limit {A} (n : Z) (l : list A) : list A :=
  if n <? 0 then l else take (Z.to_nat n) l.

(** [lag(fid, off) over (order by fid)] and [lead(fid, off) over ...] at
    position [i] of the ordered partition: the fid [off] rows before
    (after), null when there is no such row.  SQLite documents the offset
    as non-negative and does not reject a negative one: [lead] then looks
    backwards, and [lag] looks one row ahead for the offset -1 and is null
    for every lower offset. *)
Definition fid_at (sorted : list TableRow) (j : Z) : value :=
  if j <? 0 then VNil
  else match sorted !! Z.to_nat j with
       | Some r => VInt64 (row_fid r)
       | None => VNil
       end.

Definition lag (sorted : list TableRow) (off : Z) (i : nat) : value :=
  if off <? -1 then VNil else fid_at sorted (Z.of_nat i - off).

Definition lead (sorted : list TableRow) (off : Z) (i : nat) : value :=
  fid_at sorted (Z.of_nat i + off).

(** The rows of [nextprevfeat]: every row of [nextprev] with its
    [prevfid] and [nextfid]. *)
Definition nextprevfeat (limit : Z) (nextprev : list TableRow)
  : list (TableRow * value * value) :=
  let sorted := order_asc nextprev in
  imap (fun i r => (r, lag sorted limit i, lead sorted limit i)) sorted.

(** The statement built by [makeDefaultQuery], run with [:fid] and
    [:limit]:
<<
  with next as (select * from T where fid >= :fid order by fid asc limit :limit + 1),
       prev as (select * from T where fid < :fid order by fid desc limit :limit),
       nextprev as (select * from next union all select * from prev),
       nextprevfeat as (select *, lag(fid, :limit) over (order by fid) as prevfid,
                                  lead(fid, :limit) over (order by fid) as nextfid
                        from nextprev)
  select * from nextprevfeat where fid >= :fid limit :limit
>>
    The arguments are int64 values and [:limit + 1] is taken as the exact
    sum, which it is for every limit below [MaxInt64]. *)
Definition run_default (t : Table) (fid limit : Z) : list (TableRow * value * value) :=
  let next := sql_limit (limit + 1)
                (order_asc (filter (fun r => fid <= row_fid r) (table_rows t))) in
  let prev := sql_limit limit
                (order_desc (filter (fun r => row_fid r < fid) (table_rows t))) in
  let nextprev := next ++ prev in
  sql_limit limit
    (filter (fun x => fid <= row_fid x.1.1) (nextprevfeat limit nextprev)).

(** The rows at or after a feature id, in ascending order of fid: what
    remains to be paged through from a cursor. *)
Definition rows_from (t : Table) (fid : Z) : list TableRow :=
  order_asc (filter (fun r => fid <= row_fid r) (table_rows t)).

(** [select * from T f where f.fid = :fid limit 1]. *)
Definition run_feature (t : Table) (fid : Z) : list TableRow :=
  sql_limit 1 (filter (fun r => row_fid r = fid) (table_rows t)).

Definition rows_of_default (t : Table) (res : list (TableRow * value * value)) : Rows :=
  {| ColumnsErr := None;
     Columns := fid_column t :: rest_columns t ++ ["prevfid"; "nextfid"]%string;
     Scans := map (fun x => (VInt64 (row_fid x.1.1) :: row_rest x.1.1 ++ [x.1.2; x.2],
                             None)) res |}.

Definition rows_of_table (t : Table) (res : list TableRow) : Rows :=
  {| ColumnsErr := None;
     Columns := fid_column t :: rest_columns t;
     Scans := map (fun r => (VInt64 (row_fid r) :: row_rest r, None)) res |}.

(** What the datasource needs from [geoPackageBackend.getDB()]: preparing
    a named statement and running it with its arguments.  Cancellation and
    the query timeout show up as errors of these two calls. *)
Record Backend := mkBackend {
  PrepareNamed : Query -> Go.error;
  Queryx : Query -> gmap string value -> Rows * Go.error
}.

Definition int_arg (args : gmap string value) (name : string) : option Z :=
  match args !! name with
  | Some (VInt64 z) => Some z
  | _ => None
  end.

(** A GeoPackage file holding the given tables.  The bounding-box
    statement needs SpatiaLite and the R-tree tables; its result is left to
    [bbox_rows]. *)
Definition sqlite (db : gmap string Table)
  (bbox_rows : Query -> gmap string value -> Rows * Go.error) : Backend :=
  let lookup tableName fidColumn :=
    match db !! tableName with
    | None => inr ("no such table: " ++ tableName)%string
    | Some t =>
        if bool_decide (fid_column t = fidColumn) then inl t
        else inr ("no such column: " ++ fidColumn)%string
    end in
  {| PrepareNamed q :=
       match q with
       | QDefault tn fc | QFeature tn fc | QBbox tn fc _ =>
           match lookup tn fc with inl _ => None | inr e => Some e end
       end;
     Queryx q args :=
       match q with
       | QDefault tn fc =>
           match lookup tn fc, int_arg args "fid", int_arg args "limit" with
           | inl t, Some fid, Some limit =>
               (rows_of_default t (run_default t fid limit), None)
           | inr e, _, _ => (mkRows None [] [], Some e)
           | _, _, _ => (mkRows None [] [], Some "missing named argument"%string)
           end
       | QFeature tn fc =>
           match lookup tn fc, int_arg args "fid" with
           | inl t, Some fid => (rows_of_table t (run_feature t fid), None)
           | inr e, _ => (mkRows None [] [], Some e)
           | _, _ => (mkRows None [] [], Some "missing named argument"%string)
           end
       | QBbox _ _ _ => bbox_rows q args
       end |}.

(** ** The datasource *)

Record featureTable := mkFeatureTable {
  TableName : string;
  DataType : string;
  Identifier : string;
  Description : string;
  GeometryColumnName : string;
  GeometryType : string;
  SRS : Z
  (* LastChange and the four bounds are not read by the queries *)
}.

Section Datasource.

Context {Geometry Extent : Type}.

(** [readGpkgGeometry], [wkt.EncodeString] and the accessors of
    [geom.Extent] (coordinates as their IEEE-754 bit patterns). *)
Variable readGpkgGeometry : list byte -> Geometry * Go.error.
Variable wktEncodeString : Extent -> string * Go.error.
Variable MinX MinY MaxX MaxY : Extent -> Z.

Record GeoPackage := mkGeoPackage {
  backend : Backend;
  fidColumn : string;
  featureTableByCollectionID : gmap string featureTable
  (* queryTimeout: see [Backend] *)
}.

(** [datasources.FeatureOptions], the fields in use. *)
Record FeatureOptions := mkFeatureOptions {
  OCursor : Cursor.DecodedCursor;
  Limit : Z;
  Bbox : option Extent;
  BboxCrs : Z
}.

Definition noCursors : Cursor.Cursors :=
  {| Cursor.CPrev := ""; Cursor.CNext := "";
     Cursor.HasPrev := false; Cursor.HasNext := false |}.

Definition makeDefaultQuery (g : GeoPackage) (table : featureTable) (opt : FeatureOptions)
  : Query * gmap string value * Go.error :=
  (QDefault (TableName table) (fidColumn g),
   {[ "fid"%string := VInt64 (Cursor.FID (OCursor opt));
      "limit"%string := VInt64 (Limit opt) ]},
   None).

Definition makeBboxQuery (g : GeoPackage) (table : featureTable) (opt : FeatureOptions)
  (bbox : Extent) : Query * gmap string value * Go.error :=
  match wktEncodeString bbox with
  | (_, Some err) => (QBbox "" "" "", ∅, Some err)
  | (bboxAsWKT, None) =>
      (QBbox (TableName table) (fidColumn g) (GeometryColumnName table),
       {[ "fid"%string := VInt64 (Cursor.FID (OCursor opt));
          "limit"%string := VInt64 (Limit opt);
          "bboxWkt"%string := VString bboxAsWKT;
          "maxx"%string := VFloat64 (MaxX bbox);
          "minx"%string := VFloat64 (MinX bbox);
          "maxy"%string := VFloat64 (MaxY bbox);
          "miny"%string := VFloat64 (MinY bbox);
          "bboxCrs"%string := VInt64 (BboxCrs opt) ]},
       None)
  end.

Definition makeFeaturesQuery (g : GeoPackage) (table : featureTable) (opt : FeatureOptions)
  : Query * gmap string value * Go.error :=
  match Bbox opt with
  | Some bbox => makeBboxQuery g table opt bbox
  | None => makeDefaultQuery g table opt
  end.

Definition GetFeatures (g : GeoPackage) (collection : string) (options : FeatureOptions)
  : Go.result (option (Mapper.FeatureCollection Geometry) * Cursor.Cursors * Go.error) :=
  match featureTableByCollectionID g !! collection with
  | None =>
      Go.Ok (None, noCursors,
             Some ("can't query collection '" ++ collection
                   ++ "' since it doesn't exist in geopackage")%string)
  | Some table =>
      match makeFeaturesQuery g table options with
      | (_, _, Some err) =>
          Go.Ok (None, noCursors, Some ("failed to make features query, error: " ++ err)%string)
      | (query, queryArgs, None) =>
          match PrepareNamed (backend g) query with
          | Some err =>
              Go.Ok (None, noCursors, Some ("failed to prepare query, error: " ++ err)%string)
          | None =>
              match Queryx (backend g) query queryArgs with
              | (_, Some err) =>
                  Go.Ok (None, noCursors, Some ("failed to execute query, error: " ++ err)%string)
              | (rows, None) =>
                  r ← Mapper.MapRowsToFeatures3 (fidColumn g) (GeometryColumnName table)
                        readGpkgGeometry rows;
                  match r with
                  | (_, _, Some err) => Go.Ok (None, noCursors, Some err)
                  | (_, None, None) => Go.Ok (None, noCursors, None)
                  | (features, Some nextPrev, None) =>
                      Go.Ok (Some {| Mapper.NumberReturned := Z.of_nat (length features);
                                     Mapper.Features := features |},
                             Cursor.NewCursors nextPrev
                               (Cursor.FiltersChecksum (OCursor options)),
                             None)
                  end
              end
          end
      end
  end.

Definition GetFeature (g : GeoPackage) (collection : string) (featureID : Z)
  : Go.result (option (Mapper.Feature Geometry) * Go.error) :=
  match featureTableByCollectionID g !! collection with
  | None =>
      Go.Ok (None, Some ("can't query collection '" ++ collection
                         ++ "' since it doesn't exist in geopackage")%string)
  | Some table =>
      let query := QFeature (TableName table) (fidColumn g) in
      match PrepareNamed (backend g) query with
      | Some err => Go.Ok (None, Some err)
      | None =>
          match Queryx (backend g) query {[ "fid"%string := VInt64 featureID ]} with
          | (_, Some err) => Go.Ok (None, Some ("query failed: " ++ err)%string)
          | (rows, None) =>
              r ← Mapper.MapRowsToFeatures3 (fidColumn g) (GeometryColumnName table)
                    readGpkgGeometry rows;
              match r with
              | (_, _, Some err) => Go.Ok (None, Some err)
              | (features, _, None) =>
                  if negb (Nat.eqb (length features) 1) then Go.Ok (None, None)
                  else
                    f ← Go.index features 0;
                    Go.Ok (Some f, None)
              end
          end
      end
  end.

End Datasource.

Global Arguments GeoPackage : clear implicits.
Global Arguments FeatureOptions : clear implicits.

(** ** Reading [gpkg_contents] at startup *)

(** [engine.GeoSpatialCollection], the fields read here: the id and the
    optional [Features.DatasourceID] (both pointers may be nil). *)
Record CollectionEntryFeatures := mkCollectionEntryFeatures {
  DatasourceID : option string
}.

Record GeoSpatialCollection := mkGeoSpatialCollection {
  ID : string;
  CFeatures : option CollectionEntryFeatures
}.

Definition hasMatchingDatasourceID (collection : GeoSpatialCollection) (row : featureTable)
  : bool :=
  match CFeatures collection with
  | Some features =>
      match DatasourceID features with
      | Some datasourceID => bool_decide (Identifier row = datasourceID)
      | None => false
      end
  | None => false
  end.

(** The inner loop of [readGpkgContents]: the row is stored under the id of
    the first collection it matches, by identifier or by datasource id. *)
Fixpoint matchCollections (collections : list GeoSpatialCollection) (row : featureTable)
  (result : gmap string featureTable) : gmap string featureTable :=
  match collections with
  | [] => result
  | collection :: rest =>
      if bool_decide (Identifier row = ID collection)
      then <[ID collection := row]> result
      else if hasMatchingDatasourceID collection row
      then <[ID collection := row]> result
      else matchCollections rest row result
  end.

(** The loop [for rows.Next()]; every element of [scans] is the outcome of
    one [rows.StructScan]. *)
Fixpoint readRows (collections : list GeoSpatialCollection)
  (scans : list (featureTable * Go.error)) (result : gmap string featureTable)
  : option (gmap string featureTable) * Go.error :=
  match scans with
  | [] => (Some result, None)
  | (_, Some err) :: _ =>
      (None, Some ("failed to read gpkg_contents record, error: " ++ err)%string)
  | (row, None) :: more =>
      if bool_decide (TableName row = ""%string)
      then (None, Some "feature table name is blank"%string)
      else
        let result :=
          if Nat.eqb (length collections) 0
          then <[Identifier row := row]> result
          else matchCollections collections row result in
        readRows collections more result
  end.

(** What makes a row the feature table of the collection called [id]. *)
Definition resolves (collections : list GeoSpatialCollection) (id : string)
  (row : featureTable) : Prop :=
  TableName row <> ""%string /\
  (collections = [] -> id = Identifier row) /\
  (collections <> [] ->
   exists collection, collection ∈ collections /\ ID collection = id /\
     (Identifier row = id \/ hasMatchingDatasourceID collection row = true)).

(** [readGpkgContents]; [queryErr] is the error of [db.Queryx], [rowsErr]
    that of [rows.Err()]. *)
Definition readGpkgContents (collections : list GeoSpatialCollection)
  (queryErr : Go.error) (scans : list (featureTable * Go.error)) (rowsErr : Go.error)
  : option (gmap string featureTable) * Go.error :=
  match queryErr with
  | Some err => (None, Some ("failed to retrieve gpkg_contents, error: " ++ err)%string)
  | None =>
      match readRows collections scans ∅ with
      | (None, err) => (None, err)
      | (Some result, _) =>
          match rowsErr with
          | Some err => (None, Some err)
          | None =>
              if Nat.eqb (size result) 0
              then (None, Some "no records found in gpkg_contents, can't serve features"%string)
              else (Some result, None)
          end
      end
  end.

End GeoPackage.

(* ===================================================================== *)
(** * ogc/features/main.go: the features handler *)
(* ===================================================================== *)

Module Features.

(** Modelled from the spec: the names of the query parameters are declared
    in the URL helper of the features package, which is not among the
    sources; the route is
    [/collections/{id}/items?f=&limit=&bbox=&cursor=&lang=] and [datetime]
    is the unsupported parameter. *)
Definition limitParam : string := "limit".
Definition bboxParam : string := "bbox".
Definition dateTimeParam : string := "datetime".
Definition cursorParam : string := "cursor".

(** Modelled from the spec: the format names of the content negotiator
    ("values: html, json, jsonfg"), declared in the engine outside the
    sources. *)
Definition FormatHTML : string := "html".
Definition FormatJSON : string := "json".
Definition FormatJSONFG : string := "jsonfg".

(** [engine.Config.OgcAPI.Features.Limit]. *)
Record LimitConfig := mkLimit {
  Default : Z;
  Max : Z
}.

Record Request := mkRequest {
  collectionId : string;                  (* chi.URLParam(r, "collectionId") *)
  Query : gmap string (list string)       (* r.URL.Query() *)
}.

(** [errors.Join]: nil when every error is nil. *)
Definition errors_Join (errs : list Go.error) : Go.error :=
  match omap id errs with
  | [] => None
  | e :: es => Some (fold_left (fun acc x => acc ++ String "010" x)%string es e)
  end.

(** [strings.Split(s, ",")]. *)
Definition split_commas (s : string) : list string :=
  map string_of_list_byte (Bytes.Split (list_byte_of_string s) Byte.x2c).

Definition parseLimit (cfg : LimitConfig) (params : gmap string (list string))
  : Z * Go.error :=
  let limit := Default cfg in
  let err : Go.error := None in
  let '(limit, err) :=
    if negb (bool_decide (Url.Get params limitParam = ""%string)) then
      let '(limit, aerr) := Strconv.Atoi (Url.Get params limitParam) in
      let err : Go.error :=
        match aerr with
        | Some _ => Some "limit must be numeric"%string
        | None => None
        end in
      (* OpenAPI validation already guards against exceeding max limit,
         this is just a defense in-depth measure. *)
      let limit := if Max cfg <? limit then Max cfg else limit in
      (limit, err)
    else (limit, err) in
  let err := if limit <? 0 then Some "limit can't be negative"%string else err in
  (limit, err).

Definition parseDateTime (params : gmap string (list string)) : Go.error :=
  if negb (bool_decide (Url.Get params dateTimeParam = ""%string))
  then Some "datetime param is currently not supported"%string
  else None.

(** The responses the handler can produce.  The three renderers
    ([htmlFeatures.features], [jsonFeatures.featuresAsGeoJSON],
    [jsonFeatures.featuresAsJSONFG]) are outside the sources; a call to one
    of them is recorded with its arguments. *)
Inductive Response {Geometry : Type} : Type :=
| Error (msg : string) (code : Z)                         (* http.Error *)
| NotFound                                                (* http.NotFound *)
| HTMLFeatures (collectionID : string) (cursor : Cursor.Cursors) (limit : Z)
    (fc : Mapper.FeatureCollection Geometry)
| GeoJSONFeatures (collectionID : string) (cursor : Cursor.Cursors)
    (fc : Mapper.FeatureCollection Geometry)
| JSONFGFeatures.
Global Arguments Response : clear implicits.

Section Handler.

Context {Geometry Extent Metadata : Type}.

Variable cfg : LimitConfig.
Variable collectionsMetadata : gmap string Metadata.

(** Outside the sources: [featureCollectionURL.checksum],
    [featureCollectionURL.validateNoUnknownParams], the content negotiator
    and [strconv.ParseFloat] (a float is its bit pattern). *)
Variable checksum : gmap string (list string) -> list byte.
Variable validateNoUnknownParams : gmap string (list string) -> Go.error.
Variable NegotiateFormat : Request -> string.
Variable ParseFloat : string -> Z * Go.error.
Variable mkExtent : Z -> Z -> Z -> Z -> Extent.

(** The datasource behind the [datasources.Datasource] interface. *)
Variable datasource_GetFeatures :
  string -> GeoPackage.FeatureOptions Extent ->
  Go.result (option (Mapper.FeatureCollection Geometry) * Cursor.Cursors * Go.error).

Fixpoint parseFloats (vs : list string) : list Z * Go.error :=
  match vs with
  | [] => ([], None)
  | v :: rest =>
      match ParseFloat v with
      | (_, Some err) =>
          ([], Some ("failed to parse value " ++ v ++ " in bbox, error: " ++ err)%string)
      | (x, None) =>
          match parseFloats rest with
          | (xs, None) => (x :: xs, None)
          | (_, Some err) => ([], Some err)
          end
      end
  end.

Definition parseBbox (params : gmap string (list string)) : option Extent * Go.error :=
  if bool_decide (Url.Get params bboxParam = ""%string) then (None, None)
  else
    let bboxValues := split_commas (Url.Get params bboxParam) in
    if negb (Nat.eqb (length bboxValues) 4) then
      (None, Some ("bbox should contain exactly 4 values "
                   ++ "seperated by commas: minx,miny,maxx,maxy")%string)
    else
      match parseFloats bboxValues with
      | ([a; b; c; d], None) => (Some (mkExtent a b c d), None)
      | (_, Some err) => (None, Some err)
      | (_, None) => (None, None)
      end.

Definition parseFeatureCollectionRequest (r : Request)
  : string * Cursor.EncodedCursor * Z * option Extent * Go.error :=
  let collectionID := collectionId r in
  let encodedCursor := Url.Get (Query r) cursorParam in
  let '(limit, limitErr) := parseLimit cfg (Query r) in
  let '(bbox, bboxErr) := parseBbox (Query r) in
  let dateTimeErr := parseDateTime (Query r) in
  (collectionID, encodedCursor, limit, bbox, errors_Join [limitErr; bboxErr; dateTimeErr]).

(** [Features.CollectionContent]. *)
Definition CollectionContent (r : Request) : Go.result (Response Geometry) :=
  let '(collectionID, encodedCursor, limit, bbox, err) := parseFeatureCollectionRequest r in
  match err with
  | Some e => Go.Ok (Error e Http.StatusBadRequest)
  | None =>
      match validateNoUnknownParams (Query r) with
      | Some e => Go.Ok (Error e Http.StatusBadRequest)
      | None =>
          match collectionsMetadata !! collectionID with
          | None => Go.Ok NotFound
          | Some _ =>
              cursor ← Cursor.Decode encodedCursor (checksum (Query r));
              res ← datasource_GetFeatures collectionID
                      {| GeoPackage.OCursor := cursor;
                         GeoPackage.Limit := limit;
                         GeoPackage.Bbox := bbox;
                         GeoPackage.BboxCrs := 28992 |};
              match res with
              | (_, _, Some _) =>
                  Go.Ok (Error ("failed to retrieve feature collection " ++ collectionID)%string
                               Http.StatusInternalServerError)
              | (None, _, None) => Go.Ok NotFound
              | (Some fc, newCursor, None) =>
                  let format := NegotiateFormat r in
                  if bool_decide (format = FormatHTML)
                  then Go.Ok (HTMLFeatures collectionID newCursor limit fc)
                  else if bool_decide (format = FormatJSON)
                  then Go.Ok (GeoJSONFeatures collectionID newCursor fc)
                  else if bool_decide (format = FormatJSONFG)
                  then Go.Ok JSONFGFeatures
                  else Go.Ok NotFound
              end
          end
      end
  end.

End Handler.

(** The responses of the single-feature handler; [htmlFeatures.feature],
    [jsonFeatures.featureAsGeoJSON] and [jsonFeatures.featureAsJSONFG] are
    outside the sources. *)
Inductive ItemResponse {Geometry : Type} : Type :=
| ItemError (msg : string) (code : Z)                     (* http.Error *)
| ItemNotFound                                            (* http.NotFound *)
| HTMLFeature (collectionID : string) (feat : Mapper.Feature Geometry)
| GeoJSONFeature (collectionID : string) (feat : Mapper.Feature Geometry)
| JSONFGFeature.
Global Arguments ItemResponse : clear implicits.

Section ItemHandler.

Context {Geometry : Type}.

(** Outside the sources: [featureURL.validateNoUnknownParams] and the
    content negotiator. *)
Variable validateNoUnknownParams : gmap string (list string) -> Go.error.
Variable NegotiateFormat : Request -> string.

Variable datasource_GetFeature :
  string -> Z -> Go.result (option (Mapper.Feature Geometry) * Go.error).

(** [Features.Feature]; [featureId] is [chi.URLParam(r, "featureId")]. *)
Definition Feature (r : Request) (featureId : string)
  : Go.result (ItemResponse Geometry) :=
  let collectionID := collectionId r in
  let '(featureID, err) := Strconv.Atoi featureId in
  match err with
  | Some _ => Go.Ok (ItemError "feature ID must be a number" Http.StatusBadRequest)
  | None =>
      match validateNoUnknownParams (Query r) with
      | Some e => Go.Ok (ItemError e Http.StatusBadRequest)
      | None =>
          res ← datasource_GetFeature collectionID featureID;
          match res with
          | (_, Some _) =>
              Go.Ok (ItemError ("failed to retrieve feature " ++ pretty featureID
                                ++ " in collection " ++ collectionID)%string
                               Http.StatusInternalServerError)
          | (None, None) => Go.Ok ItemNotFound
          | (Some feat, None) =>
              let format := NegotiateFormat r in
              if bool_decide (format = FormatHTML)
              then Go.Ok (HTMLFeature collectionID feat)
              else if bool_decide (format = FormatJSON)
              then Go.Ok (GeoJSONFeature collectionID feat)
              else if bool_decide (format = FormatJSONFG)
              then Go.Ok JSONFGFeature
              else Go.Ok ItemNotFound
          end
      end
  end.

End ItemHandler.

End Features.

(* ===================================================================== *)
(** * engine/engine.go *)
(* ===================================================================== *)

Module Engine.
Import Http.

(** ** The reverse proxy's response hook *)

Definition removeBody (proxyRes : Response) : Response :=
  {| StatusCode := StatusCode proxyRes;
     Header := <["Content-Type"%string := []]>
                 (<["Content-Length"%string := ["0"%string]]> (Header proxyRes));
     Body := [] |}.

(** The [modifyResponse] closure of [Engine.ReverseProxy]; it never returns
    an error. *)
Definition modifyResponse (prefer204 : bool) (contentTypeOverwrite : string)
  (proxyRes : Response) : Response :=
  if prefer204 then
    let proxyRes :=
      if StatusCode proxyRes =? StatusNotFound
      then removeBody {| StatusCode := StatusNoContent;
                         Header := Header proxyRes; Body := Body proxyRes |}
      else proxyRes in
    if negb (bool_decide (contentTypeOverwrite = ""%string))
    then {| StatusCode := StatusCode proxyRes;
            Header := Header_Set (Header proxyRes) "Content-Type" contentTypeOverwrite;
            Body := Body proxyRes |}
    else proxyRes
  else proxyRes.

(** ** Rendering a page on the fly *)

Record TemplateKey := mkTemplateKey {
  Name : string;
  Directory : string;
  Format : string;
  InstanceName : string;
  Language : string
}.

(** What the handler does to the [http.ResponseWriter] and the log, in
    order. *)
Inductive event : Type :=
| LogPrintf (msg : string)
| HttpError (msg : string) (code : Z)
| SetHeader (key value : string)
| Write (body : list byte).

Section Render.

Context {Request Template Params Breadcrumbs : Type}.

(** The dynamic type of a parsed template held in an [interface{}]:
    [*html/template.Template] or [*text/template.Template]; [None] is the
    nil interface. *)
Inductive parsed : Type :=
| HTMLTemplate (t : Template)
| TextTemplate (t : Template).

(** The methods of [OpenAPI], [Templates] and [ContentNegotiation], whose
    sources are not available. *)
Variable validateRequest : Request -> Go.error.
Variable getParsedTemplate : TemplateKey -> option parsed * Go.error.
Variable renderHTMLTemplate : Template -> Params -> Breadcrumbs -> list byte.
Variable renderNonHTMLTemplate : Template -> Params -> TemplateKey -> list byte.
Variable formatToMediaType : string -> string.
Variable validateResponse : string -> list byte -> Request -> Go.error.

(** [Engine.RenderAndServePage]: the events emitted and how the call ends. *)
Definition RenderAndServePage (r : Request) (key : TemplateKey) (params : Params)
  (breadcrumbs : Breadcrumbs) : list event * Go.result unit :=
  (* validate request *)
  match validateRequest r with
  | Some err => ([LogPrintf err; HttpError err StatusBadRequest], Go.Ok tt)
  | None =>
      (* get template *)
      let '(parsedTemplate, err) := getParsedTemplate key in
      let emitted :=
        match err with
        | Some e => [LogPrintf e; HttpError e StatusInternalServerError]
        | None => []
        end in
      (* render output *)
      let output : Go.result (list byte) :=
        if bool_decide (Format key = Features.FormatHTML) then
          match parsedTemplate with
          | Some (HTMLTemplate htmlTmpl) =>
              Go.Ok (renderHTMLTemplate htmlTmpl params breadcrumbs)
          | _ => Go.Panic "interface conversion: interface {} is not *template.Template"
          end
        else
          match parsedTemplate with
          | Some (TextTemplate jsonTmpl) =>
              Go.Ok (renderNonHTMLTemplate jsonTmpl params key)
          | _ => Go.Panic "interface conversion: interface {} is not *template.Template"
          end in
      match output with
      | Go.Panic msg => (emitted, Go.Panic msg)
      | Go.Ok output =>
          let contentType := formatToMediaType (Format key) in
          (* validate response *)
          match validateResponse contentType output r with
          | Some e =>
              (emitted ++ [LogPrintf e; HttpError e StatusInternalServerError], Go.Ok tt)
          | None =>
              (* return response output to client *)
              (emitted
                 ++ (if negb (bool_decide (contentType = ""%string))
                     then [SetHeader "Content-Type" contentType] else [])
                 ++ [Write output],
               Go.Ok tt)
          end
      end
  end.

(** [Engine.ServePage]: serves a pre-rendered template;
    [getRenderedTemplate] is a method of [Templates]. *)
Variable getRenderedTemplate : TemplateKey -> list byte * Go.error.

Definition ServePage (r : Request) (templateKey : TemplateKey)
  : list event * Go.result unit :=
  (* validate request *)
  match validateRequest r with
  | Some err => ([LogPrintf err; HttpError err StatusBadRequest], Go.Ok tt)
  | None =>
      (* render output *)
      match getRenderedTemplate templateKey with
      | (_, Some _) =>
          ([HttpError "404 page not found" StatusNotFound], Go.Ok tt)  (* http.NotFound *)
      | (output, None) =>
          let contentType := formatToMediaType (Format templateKey) in
          (* validate response *)
          match validateResponse contentType output r with
          | Some e => ([LogPrintf e; HttpError e StatusInternalServerError], Go.Ok tt)
          | None =>
              ((if negb (bool_decide (contentType = ""%string))
                then [SetHeader "Content-Type" contentType] else [])
                 ++ [Write output],
               Go.Ok tt)
          end
      end
  end.

(** Whether the parsed template has the dynamic type the format of the key
    asks for. *)
Definition template_matches (key : TemplateKey) (parsedTemplate : option parsed) : bool :=
  match parsedTemplate with
  | Some (HTMLTemplate _) => bool_decide (Format key = Features.FormatHTML)
  | Some (TextTemplate _) => negb (bool_decide (Format key = Features.FormatHTML))
  | None => false
  end.

End Render.

(** The events that send something to the client. *)
Definition is_response (ev : event) : bool :=
  match ev with
  | HttpError _ _ | Write _ => true
  | LogPrintf _ | SetHeader _ _ => false
  end.

End Engine.

(* ===================================================================== *)
(** * A small GeoPackage used to run the definitions *)
(* ===================================================================== *)

Module Fixtures.
Import Sql GeoPackage.

(** A table of ten addresses, fids 1 to 10, stored out of order. *)
Definition addresses : Table :=
  {| fid_column := "fid";
     rest_columns := ["geom"; "street"]%string;
     table_rows :=
       map (fun i => mkTableRow i [VBytes [Byte.x01]; VString "Dam"])
           [3; 1; 2; 5; 4; 7; 6; 10; 9; 8] |}.

Definition db : gmap string Table := {[ "addresses_tbl"%string := addresses ]}.

Definition no_spatialite (q : Query) (args : gmap string value) : Rows * Go.error :=
  (mkRows None [] [], Some "no such function: st_intersects"%string).

(** Geometries are kept as their raw bytes; bounding boxes are four bit
    patterns. *)
Definition readGpkgGeometry (rawGeom : list byte) : list byte * Go.error :=
  (rawGeom, None).

Definition wktEncodeString (e : Z * Z * Z * Z) : string * Go.error :=
  ("POLYGON"%string, None).

Definition gpkg : GeoPackage.GeoPackage :=
  {| backend := sqlite db no_spatialite;
     fidColumn := "fid";
     featureTableByCollectionID :=
       {[ "addresses"%string :=
            mkFeatureTable "addresses_tbl" "features" "addresses" "" "geom" "POINT" 28992 ]} |}.

Definition GetFeatures :=
  GeoPackage.GetFeatures readGpkgGeometry wktEncodeString
    (fun e => e.1.1.1) (fun e => e.1.1.2) (fun e => e.1.2) (fun e => e.2).

Definition GetFeature := GeoPackage.GetFeature readGpkgGeometry.

Definition limits : Features.LimitConfig := {| Features.Default := 10; Features.Max := 1000 |}.

Definition metadata : gmap string unit := {[ "addresses"%string := tt ]}.

(** The checksum of the query parameters is taken to be the bytes of the
    [limit] value; every parameter is known; the format is JSON; no string
    parses as a float. *)
Definition CollectionContent (r : Features.Request)
  : Go.result (Features.Response (list byte)) :=
  Features.CollectionContent limits metadata
    (fun q => list_byte_of_string (Url.Get q Features.limitParam))
    (fun _ => None)
    (fun _ => Features.FormatJSON)
    (fun _ => (0, Some "strconv.ParseFloat: invalid syntax"%string))
    (fun a b c d => (a, b, c, d))
    (GetFeatures gpkg)
    r.

(** A datasource whose backend prepares every statement and answers every
    query with the given rows, as a view or a table without integer
    primary key can; and the handler on it. *)
Definition gpkg_answering (rows : Rows) : GeoPackage.GeoPackage :=
  {| backend := {| PrepareNamed := fun _ => None;
                   Queryx := fun _ _ => (rows, None) |};
     fidColumn := "fid";
     featureTableByCollectionID := featureTableByCollectionID gpkg |}.

Definition CollectionContent_on (g : GeoPackage.GeoPackage) (r : Features.Request)
  : Go.result (Features.Response (list byte)) :=
  Features.CollectionContent limits metadata
    (fun q => list_byte_of_string (Url.Get q Features.limitParam))
    (fun _ => None)
    (fun _ => Features.FormatJSON)
    (fun _ => (0, Some "strconv.ParseFloat: invalid syntax"%string))
    (fun a b c d => (a, b, c, d))
    (GetFeatures g)
    r.

Definition items (query : gmap string (list string)) : Features.Request :=
  {| Features.collectionId := "addresses"; Features.Query := query |}.

(** What a client sees of a page: the ids of the features, and the fids
    the prev and next cursors decode to under the checksum [cs] (when the
    cursors say there is a previous or next page). *)
Definition page_of (cs : list byte) (r : Go.result (Features.Response (list byte)))
  : option (list Z * option Z * option Z) :=
  match r with
  | Go.Ok (Features.GeoJSONFeatures _ cursors fc) =>
      let target has c :=
        if has : bool then
          match Cursor.Decode c cs with
          | Go.Ok d => Some (Cursor.FID d)
          | Go.Panic _ => None
          end
        else None in
      Some (Mapper.ID <$> Mapper.Features fc,
            target (Cursor.HasPrev cursors) (Cursor.CPrev cursors),
            target (Cursor.HasNext cursors) (Cursor.CNext cursors))
  | _ => None
  end.

End Fixtures.

(* ===================================================================== *)
(** * Properties of the library fragments *)
(* ===================================================================== *)

Module Base64Props.
Import Base64.

Lemma lor_disjoint (a b k : Z) :
  0 <= k -> 0 <= b < 2 ^ k -> a mod 2 ^ k = 0 -> Z.lor a b = a + b.
Proof.
  intros Hk Hb Ha.
  rewrite <- Z.lxor_lor, Z.add_nocarry_lxor; try reflexivity.
  all: apply Z.bits_inj'; intros i Hi; rewrite Z.land_spec, Z.bits_0.
  all: destruct (Z.lt_ge_cases i k) as [Hlt|Hge].
  all: try (rewrite <- (Z.mod_pow2_bits_low a k i), Ha, Z.bits_0 by lia; reflexivity).
  all: rewrite <- (Z.mod_small b (2 ^ k)), Z.mod_pow2_bits_high by lia.
  all: apply andb_false_r.
Qed.

Lemma of_Z_mod (x : Z) (b : byte) : x mod 2 ^ 8 = byte.unsigned b -> byte.of_Z x = b.
Proof.
  intros H. apply byte.unsigned_inj. rewrite byte.unsigned_of_Z. exact H.
Qed.

Lemma decodeMap_encode_tab (i : Z) : 0 <= i < 64 -> decodeMap (encode_tab i) = i.
Proof.
  intros Hi.
  assert (Hall : forallb (fun n => decodeMap (encode_tab (Z.of_nat n)) =? Z.of_nat n)
                   (seq 0 64) = true) by (vm_compute; reflexivity).
  rewrite forallb_forall in Hall.
  specialize (Hall (Z.to_nat i)). rewrite Z2Nat.id in Hall by lia.
  apply Z.eqb_eq, Hall, in_seq. lia.
Qed.

Lemma decodeMap_sextet (val shift : Z) :
  0 <= shift ->
  decodeMap (sextet val shift) = (val / 2 ^ shift) mod 64 /\
  decodeMap (sextet val shift) <> 255.
Proof.
  intros Hs. unfold sextet.
  change 63 with (Z.ones 6). rewrite Z.land_ones, Z.shiftr_div_pow2 by lia.
  change (2 ^ 6) with 64.
  pose proof (Z.mod_pos_bound (val / 2 ^ shift) 64 ltac:(lia)) as Hb.
  rewrite decodeMap_encode_tab by lia. split; [reflexivity|lia].
Qed.

(** One step of [Decode] on a character of the alphabet. *)
Lemma Decode_alphabet (c : byte) (rest : list byte) (dbuf : list Z) :
  decodeMap c <> 255 ->
  Decode (c :: rest) dbuf =
    if Nat.eqb (length (dbuf ++ [decodeMap c])) 4
    then let '(bs, err) := Decode rest [] in
         (quantum_bytes (dbuf ++ [decodeMap c]) ++ bs, err)
    else Decode rest (dbuf ++ [decodeMap c]).
Proof.
  intros H. cbn [Decode]. apply Z.eqb_neq in H. rewrite H. reflexivity.
Qed.

Lemma Decode_pad2 (d0 d1 : Z) :
  Decode [StdPadding; StdPadding] [d0; d1] = (quantum_bytes [d0; d1], None).
Proof. reflexivity. Qed.

Lemma Decode_pad1 (d0 d1 d2 : Z) :
  Decode [StdPadding] [d0; d1; d2] = (quantum_bytes [d0; d1; d2], None).
Proof. reflexivity. Qed.

Lemma pack3 (B0 B1 B2 : Z) :
  0 <= B0 < 2 ^ 8 -> 0 <= B1 < 2 ^ 8 -> 0 <= B2 < 2 ^ 8 ->
  Z.lor (Z.lor (Z.shiftl B0 16) (Z.shiftl B1 8)) B2 = B0 * 65536 + B1 * 256 + B2.
Proof.
  intros H0 H1 H2.
  rewrite !Z.shiftl_mul_pow2 by lia.
  rewrite (lor_disjoint _ (B1 * 2 ^ 8) 16) by (Z.div_mod_to_equations; lia).
  rewrite (lor_disjoint _ B2 8) by (Z.div_mod_to_equations; lia).
  lia.
Qed.

(** Packing four six-bit values that were cut from a 24-bit value gives
    the value back. *)
Lemma unpack (d0 d1 d2 d3 v : Z) :
  0 <= v < 2 ^ 24 ->
  d0 = (v / 2 ^ 18) mod 64 -> d1 = (v / 2 ^ 12) mod 64 ->
  d2 = (v / 2 ^ 6) mod 64 -> d3 = (v / 2 ^ 0) mod 64 ->
  Z.lor (Z.lor (Z.lor (Z.shiftl d0 18) (Z.shiftl d1 12)) (Z.shiftl d2 6)) d3 = v.
Proof.
  intros Hv -> -> -> ->.
  rewrite !Z.shiftl_mul_pow2 by lia.
  rewrite (lor_disjoint _ (_ * 2 ^ 12) 18) by (Z.div_mod_to_equations; lia).
  rewrite (lor_disjoint _ (_ * 2 ^ 6) 12) by (Z.div_mod_to_equations; lia).
  rewrite (lor_disjoint _ _ 6) by (Z.div_mod_to_equations; lia).
  Z.div_mod_to_equations; lia.
Qed.

(** The bytes written for a quantum whose six-bit values were cut from
    the 24-bit value [v = B0 * 2^16 + B1 * 2^8 + B2]. *)
Lemma quantum_of_value (b0 b1 b2 : byte) (v : Z) (n : nat) :
  v = byte.unsigned b0 * 65536 + byte.unsigned b1 * 256 + byte.unsigned b2 ->
  (2 <= n <= 4)%nat ->
  ((n < 4)%nat -> byte.unsigned b2 = 0) ->
  ((n < 3)%nat -> byte.unsigned b1 = 0) ->
  quantum_bytes (take n [decodeMap (sextet v 18); decodeMap (sextet v 12);
                         decodeMap (sextet v 6); decodeMap (sextet v 0)])
  = take (n - 1) [b0; b1; b2].
Proof.
  intros Hv Hn Hz2 Hz1.
  pose proof (byte.unsigned_range b0). pose proof (byte.unsigned_range b1).
  pose proof (byte.unsigned_range b2).
  assert (Hval : forall d2 d3,
    d2 = (v / 2 ^ 6) mod 64 -> d3 = (v / 2 ^ 0) mod 64 ->
    Z.lor (Z.lor (Z.lor (Z.shiftl (decodeMap (sextet v 18)) 18)
                        (Z.shiftl (decodeMap (sextet v 12)) 12))
                 (Z.shiftl d2 6)) d3 = v).
  { intros d2 d3 H2 H3.
    apply unpack; try assumption; try (apply decodeMap_sextet; lia). lia. }
  assert (Hb0 : byte.of_Z (Z.shiftr v 16) = b0).
  { apply of_Z_mod. rewrite Z.shiftr_div_pow2, Hv by lia. Z.div_mod_to_equations; lia. }
  assert (Hb1 : byte.of_Z (Z.shiftr v 8) = b1).
  { apply of_Z_mod. rewrite Z.shiftr_div_pow2, Hv by lia. Z.div_mod_to_equations; lia. }
  assert (Hb2 : byte.of_Z (Z.shiftr v 0) = b2).
  { apply of_Z_mod. rewrite Z.shiftr_div_pow2, Hv by lia. Z.div_mod_to_equations; lia. }
  destruct n as [|[|[|[|[|n]]]]]; try lia; unfold quantum_bytes;
    cbn [take nth length Nat.sub].
  - rewrite Hval, Hb0; [done| |].
    all: rewrite Hv, Hz2, Hz1 by lia; Z.div_mod_to_equations; lia.
  - rewrite Hval, Hb0, Hb1; [done|apply decodeMap_sextet; lia|].
    rewrite Hv, Hz2 by lia. Z.div_mod_to_equations; lia.
  - rewrite Hval, Hb0, Hb1, Hb2; [done|apply decodeMap_sextet; lia..].
Qed.


Lemma list_ind3 {A} (P : list A -> Prop) :
  P [] -> (forall a, P [a]) -> (forall a b, P [a; b]) ->
  (forall a b c l, P l -> P (a :: b :: c :: l)) ->
  forall l, P l.
Proof.
  intros H0 H1 H2 H3 l.
  enough (P l /\ (forall a, P (a :: l)) /\ (forall a b, P (a :: b :: l))) by tauto.
  induction l as [|x l (IH0 & IH1 & IH2)]; [by auto|].
  repeat split; by auto.
Qed.

Ltac decode_sextet :=
  rewrite (Decode_alphabet (sextet _ _)) by (apply decodeMap_sextet; lia);
  cbn [length app Nat.eqb].

(** Decoding an encoding gives the bytes back, without error. *)
Lemma Decode_Encode (src : list byte) : Decode (Encode src) [] = (src, None).
Proof.
  induction src as [|b0|b0 b1|b0 b1 b2 rest IH] using list_ind3.
  - reflexivity.
  - cbn [Encode]. do 2 decode_sextet. rewrite Decode_pad2. f_equal.
    pose proof (byte.unsigned_range b0).
    apply (quantum_of_value b0 Byte.x00 Byte.x00 _ 2); try done; try lia.
    rewrite Z.shiftl_mul_pow2 by lia. change (byte.unsigned Byte.x00) with 0. lia.
  - cbn [Encode]. do 3 decode_sextet. rewrite Decode_pad1. f_equal.
    pose proof (byte.unsigned_range b0). pose proof (byte.unsigned_range b1).
    apply (quantum_of_value b0 b1 Byte.x00 _ 3); try done; try lia.
    change (byte.unsigned Byte.x00) with 0.
    rewrite <- (pack3 (byte.unsigned b0) (byte.unsigned b1) 0) by lia.
    by rewrite Z.lor_0_r.
  - cbn [Encode]. do 4 decode_sextet. rewrite IH. f_equal.
    pose proof (byte.unsigned_range b0). pose proof (byte.unsigned_range b1).
    pose proof (byte.unsigned_range b2).
    change (b0 :: b1 :: b2 :: rest) with ([b0; b1; b2] ++ rest). f_equal.
    apply (quantum_of_value b0 b1 b2 _ 4); try done; try lia.
    by apply pack3.
Qed.

Lemma DecodeString_EncodeToString (src : list byte) :
  DecodeString (EncodeToString src) = (src, None).
Proof.
  unfold DecodeString, EncodeToString.
  rewrite list_byte_of_string_of_list_byte. apply Decode_Encode.
Qed.

Lemma EncodeToString_nonempty (src : list byte) :
  src <> [] -> EncodeToString src <> ""%string.
Proof.
  intros Hne He. apply (f_equal DecodeString) in He.
  rewrite DecodeString_EncodeToString in He. by inversion He.
Qed.

End Base64Props.

Module BigProps.
Import Big.

Lemma lor_shiftl_byte (acc : Z) (b : byte) :
  Z.lor (Z.shiftl acc 8) (byte.unsigned b) = acc * 256 + byte.unsigned b.
Proof.
  pose proof (byte.unsigned_range b).
  rewrite Z.shiftl_mul_pow2 by lia.
  rewrite (Base64Props.lor_disjoint _ _ 8); [lia|lia|lia|].
  apply Z.mod_mul. lia.
Qed.

Lemma SetBytes_strip_zeros (bs : list byte) : SetBytes (strip_zeros bs) = SetBytes bs.
Proof.
  induction bs as [|b bs IH]; [done|]. cbn [strip_zeros].
  destruct (Go.byte_eqb b Byte.x00) eqn:E; [|done].
  apply Byte.byte_dec_bl in E. subst b. rewrite IH. reflexivity.
Qed.

Lemma unsigned_of_Z_shiftr (w k : Z) :
  0 <= k -> byte.unsigned (byte.of_Z (Z.shiftr w k)) = (w / 2 ^ k) mod 256.
Proof. intros Hk. by rewrite byte.unsigned_of_Z, Z.shiftr_div_pow2. Qed.

Lemma SetBytes_word_bytes (w : Z) : 0 <= w < 2 ^ 64 -> SetBytes (word_bytes w) = w.
Proof.
  intros Hw. unfold SetBytes, word_bytes. cbn [map fold_left].
  rewrite !lor_shiftl_byte, !unsigned_of_Z_shiftr by lia.
  cbn [Z.mul Pos.mul]. Z.div_mod_to_equations. lia.
Qed.

Lemma Int64_small (x : Z) : 0 <= x <= Go.MaxInt64 -> Int64 x = x.
Proof.
  unfold Int64, Go.wrap_int64, Go.MaxInt64. intros Hx.
  rewrite Z.mod_small by lia.
  destruct (Z.ltb_spec x (2 ^ 63)); lia.
Qed.

(** A non-negative [int64] survives [Bytes] followed by [SetBytes] and
    [Int64]. *)
Lemma Int64_SetBytes_NewInt_Bytes (fid : Z) :
  0 <= fid <= Go.MaxInt64 -> Int64 (SetBytes (NewInt_Bytes fid)) = fid.
Proof.
  intros H. unfold NewInt_Bytes. rewrite SetBytes_strip_zeros, Z.abs_eq by lia.
  rewrite SetBytes_word_bytes by (unfold Go.MaxInt64 in H; lia).
  by apply Int64_small.
Qed.

End BigProps.

Module BytesProps.
Import Bytes.

Lemma byte_eqb_neq (a b : byte) : a <> b -> Go.byte_eqb a b = false.
Proof.
  intros Hne. unfold Go.byte_eqb. destruct (Byte.eqb a b) eqn:E; [|done].
  by apply Byte.byte_dec_bl in E.
Qed.

Lemma byte_eqb_refl (a : byte) : Go.byte_eqb a a = true.
Proof. by apply Byte.byte_dec_lb. Qed.

Lemma Split_cons (s : list byte) (sep : byte) :
  exists p ps, Split s sep = p :: ps.
Proof.
  induction s as [|b s IH]; simpl; [by eauto|].
  destruct (Go.byte_eqb b sep); [by eauto|].
  destruct IH as (p & ps & ->). by eauto.
Qed.

(** Without a separator in it, a slice is its own single part. *)
Lemma Split_no_sep (s : list byte) (sep : byte) : sep ∉ s -> Split s sep = [s].
Proof.
  induction s as [|b s IH]; [done|]. intros Hnot.
  apply not_elem_of_cons in Hnot as [Hne Hnot]. cbn [Split].
  rewrite byte_eqb_neq by done. by rewrite IH.
Qed.

(** The first part ends at the first separator. *)
Lemma Split_app_sep (a b : list byte) (sep : byte) :
  sep ∉ a -> Split (a ++ sep :: b) sep = a :: Split b sep.
Proof.
  induction a as [|x a IH]; intros Hnot.
  - cbn [app Split]. by rewrite byte_eqb_refl.
  - apply not_elem_of_cons in Hnot as [Hne Hnot]. cbn [app Split].
    rewrite byte_eqb_neq by done. by rewrite IH.
Qed.

Lemma differ_false (a b : list byte) : differ a b = false <-> a = b.
Proof.
  unfold differ. rewrite negb_false_iff. apply bool_decide_eq_true.
Qed.

Lemma differ_true (a b : list byte) : differ a b = true <-> a <> b.
Proof.
  unfold differ. rewrite negb_true_iff. apply bool_decide_eq_false.
Qed.

End BytesProps.

(* ===================================================================== *)
(** * Properties of the cursor codec *)
(* ===================================================================== *)

Module CursorProps.
Import Cursor.

Lemma index_0_Split (s : list byte) (sep : byte) :
  exists p, Go.index (Bytes.Split s sep) 0 = Go.Ok p.
Proof. destruct (BytesProps.Split_cons s sep) as (p & ps & ->). by exists p. Qed.

Lemma index_lt {A} (l : list A) (i : nat) :
  (i < length l)%nat -> exists a, Go.index l i = Go.Ok a.
Proof.
  intros Hi. unfold Go.index.
  destruct (lookup_lt_is_Some_2 l i Hi) as [a ->]. by exists a.
Qed.

Lemma wrap_int64_range (z : Z) : Go.MinInt64 <= Go.wrap_int64 z <= Go.MaxInt64.
Proof.
  unfold Go.wrap_int64, Go.MinInt64, Go.MaxInt64.
  pose proof (Z.mod_pos_bound z (2 ^ 64) ltac:(lia)) as Hm.
  destruct (Z.ltb_spec (z mod 2 ^ 64) (2 ^ 63)); lia.
Qed.

(** Every return of [Decode] is a normal return; it carries the checksum
    that was passed in and a feature id in [0, MaxInt64]. *)
Lemma Decode_shape (c : EncodedCursor) (cs : list byte) :
  exists fid, Decode c cs = Go.Ok (mkDecodedCursor fid cs) /\ 0 <= fid <= Go.MaxInt64.
Proof.
  assert (H0 : 0 <= 0 <= Go.MaxInt64) by (unfold Go.MaxInt64; lia).
  unfold Decode. case_bool_decide; [by eauto|].
  destruct (Base64.DecodeString c) as [decoded err].
  destruct (bool_decide (err <> None) || Nat.eqb (length decoded) 0); [by eauto|].
  destruct (Nat.ltb (length decoded) 1); [by eauto|].
  destruct (index_0_Split decoded separator) as [p0 Hp0].
  rewrite Hp0. simpl.
  destruct (bool_decide (err <> None)); [by eauto|].
  set (fid := if Big.Int64 (Big.SetBytes p0) <? 0 then 0 else Big.Int64 (Big.SetBytes p0)).
  assert (Hfid : 0 <= fid <= Go.MaxInt64).
  { subst fid. pose proof (wrap_int64_range (Big.SetBytes p0)) as Hr.
    unfold Big.Int64. destruct (Z.ltb_spec (Go.wrap_int64 (Big.SetBytes p0)) 0); lia. }
  destruct (Nat.ltb 1 (length (Bytes.Split decoded separator))) eqn:Hlen; [|by eauto].
  apply Nat.ltb_lt in Hlen.
  destruct (index_lt _ 1 Hlen) as [p1 Hp1]. rewrite Hp1. simpl.
  destruct (Bytes.differ p1 cs); by eauto.
Qed.

(** How [Decode] reads a cursor made by [encodeCursor]: the parts are those
    of [fid bytes ++ '|' ++ checksum], the second one is compared with the
    expected checksum, the first one gives the feature id. *)
Lemma Decode_encodeCursor (fid : Z) (cs cs' p0 p1 : list byte) (ps : list (list byte)) :
  Bytes.Split (Big.NewInt_Bytes fid ++ separator :: cs) separator = p0 :: p1 :: ps ->
  Decode (encodeCursor fid cs) cs' =
    Go.Ok (if Bytes.differ p1 cs' then mkDecodedCursor 0 cs'
           else mkDecodedCursor
                  (if Big.Int64 (Big.SetBytes p0) <? 0 then 0
                   else Big.Int64 (Big.SetBytes p0)) cs').
Proof.
  intros Hsplit. unfold Decode, encodeCursor.
  rewrite <- app_assoc. cbn [app].
  set (l := Big.NewInt_Bytes fid ++ separator :: cs) in *.
  assert (Hl : l <> []) by (subst l; by destruct (Big.NewInt_Bytes fid)).
  rewrite bool_decide_false by (by apply Base64Props.EncodeToString_nonempty).
  rewrite Base64Props.DecodeString_EncodeToString.
  rewrite bool_decide_false by (intros H; by apply H).
  destruct l as [|x l']; [done|]. cbn [length Nat.eqb Nat.ltb Nat.leb orb].
  rewrite Hsplit. cbn [length Nat.ltb Nat.leb].
  unfold Go.index. cbn.
  by destruct (Bytes.differ p1 cs').
Qed.

(** C8.  For every input string c and every checksum cs, Decode(c, cs)
    returns (it does not panic) a DecodedCursor whose FiltersChecksum is cs
    itself and whose FID is at least 0, whichever return is taken. *)
Theorem C8_decode_keeps_checksum_and_fid_nonneg (c : EncodedCursor) (cs : list byte) :
  exists d, Decode c cs = Go.Ok d /\ FiltersChecksum d = cs /\ 0 <= FID d.
Proof.
  destruct (Decode_shape c cs) as (fid & Hd & Hfid).
  exists (mkDecodedCursor fid cs). simpl. repeat split; [done|lia].
Qed.

(** C5.  Decode("", cs) is the first page (0, cs); an input that is not
    valid URL-safe base64 (DecodeString reports an error) also decodes to
    (0, cs); and Decode is total: on every input it returns a cursor, never
    an error and never a panic. *)
Theorem C5_decode_recovers_to_first_page :
  (forall cs, Decode "" cs = Go.Ok (mkDecodedCursor 0 cs)) /\
  (forall c cs, Base64.corrupt c -> Decode c cs = Go.Ok (mkDecodedCursor 0 cs)) /\
  (forall c cs, exists d, Decode c cs = Go.Ok d).
Proof.
  split; [done|]. split.
  - intros c cs Hinv. unfold Decode, Base64.corrupt in *.
    case_bool_decide; [done|].
    destruct (Base64.DecodeString c) as [decoded err]. simpl in Hinv.
    by rewrite bool_decide_true.
  - intros c cs. destruct (Decode_shape c cs) as (fid & Hd & _). by eauto.
Qed.

Lemma C5_witness :
  Base64.corrupt "a|b" /\
  Decode "a|b" [Byte.x63; Byte.x73] = Go.Ok (mkDecodedCursor 0 [Byte.x63; Byte.x73]).
Proof.
  assert (H : Base64.corrupt "a|b") by (vm_compute; discriminate).
  split; [exact H|].
  exact (proj1 (proj2 C5_decode_recovers_to_first_page) "a|b"%string
           [Byte.x63; Byte.x73] H).
Defined.

(** C1, at the feature id the code loses.  The byte of fid 124 is the
    separator itself: whatever the checksum, decoding the cursor that
    encodeCursor(124, cs) produced, against the same cs, gives (0, cs) and
    not (124, cs). *)
Theorem C1_fid_124_decodes_to_first_page (cs : list byte) :
  Decode (encodeCursor 124 cs) cs = Go.Ok (mkDecodedCursor 0 cs) /\
  Decode (encodeCursor 124 cs) cs <> Go.Ok (mkDecodedCursor 124 cs).
Proof.
  assert (H : Decode (encodeCursor 124 cs) cs = Go.Ok (mkDecodedCursor 0 cs)).
  { destruct (BytesProps.Split_cons cs separator) as (q & qs & Hq).
    rewrite (Decode_encodeCursor 124 cs cs [] [] (q :: qs)).
    - by destruct (Bytes.differ [] cs).
    - change (Big.NewInt_Bytes 124) with [separator].
      cbn [app Bytes.Split]. rewrite !BytesProps.byte_eqb_refl. by rewrite Hq. }
  split; [exact H|]. rewrite H. intros Heq. by inversion Heq.
Qed.

(** C2, at a pair of checksums the code confuses.  The cursor made for
    fid 1 under the checksum "a|b" is accepted under the different checksum
    "a": it decodes to (1, "a"), not to (0, "a"). *)
Theorem C2_checksum_prefix_is_accepted :
  let cs1 := list_byte_of_string "a|b" in
  let cs2 := list_byte_of_string "a" in
  cs1 <> cs2 /\
  Decode (encodeCursor 1 cs1) cs2 = Go.Ok (mkDecodedCursor 1 cs2) /\
  Decode (encodeCursor 1 cs1) cs2 <> Go.Ok (mkDecodedCursor 0 cs2).
Proof. by vm_compute. Qed.

(** X1.  Where the round trip holds: for a feature id in [0, MaxInt64]
    whose bytes do not contain the separator, and a checksum that does not
    contain it either, decoding the encoded cursor against the same
    checksum gives the pair back. *)
Theorem Decode_encodeCursor_roundtrip (fid : Z) (cs : list byte) :
  0 <= fid <= Go.MaxInt64 ->
  separator ∉ Big.NewInt_Bytes fid ->
  separator ∉ cs ->
  Decode (encodeCursor fid cs) cs = Go.Ok (mkDecodedCursor fid cs).
Proof.
  intros Hfid Hb Hcs.
  rewrite (Decode_encodeCursor fid cs cs (Big.NewInt_Bytes fid) cs []).
  - rewrite (proj2 (BytesProps.differ_false cs cs)) by done.
    rewrite BigProps.Int64_SetBytes_NewInt_Bytes by done.
    by rewrite (proj2 (Z.ltb_ge fid 0)) by lia.
  - rewrite BytesProps.Split_app_sep by done. by rewrite BytesProps.Split_no_sep.
Qed.

Lemma Decode_encodeCursor_roundtrip_witness :
  Decode (encodeCursor 300 (list_byte_of_string "cs"))  (list_byte_of_string "cs")
  = Go.Ok (mkDecodedCursor 300 (list_byte_of_string "cs")).
Proof.
  apply Decode_encodeCursor_roundtrip.
  - unfold Go.MaxInt64. lia.
  - apply (bool_decide_unpack _). by vm_compute.
  - apply (bool_decide_unpack _). by vm_compute.
Defined.

(** X2.  Where the reset holds: when neither the fid bytes nor the checksum
    the cursor was made with contain the separator, decoding against a
    different checksum gives the first page under the expected checksum. *)
Theorem Decode_encodeCursor_mismatch (fid : Z) (cs1 cs2 : list byte) :
  separator ∉ Big.NewInt_Bytes fid ->
  separator ∉ cs1 ->
  cs1 <> cs2 ->
  Decode (encodeCursor fid cs1) cs2 = Go.Ok (mkDecodedCursor 0 cs2).
Proof.
  intros Hb Hcs Hne.
  rewrite (Decode_encodeCursor fid cs1 cs2 (Big.NewInt_Bytes fid) cs1 []).
  - by rewrite (proj2 (BytesProps.differ_true cs1 cs2)).
  - rewrite BytesProps.Split_app_sep by done. by rewrite BytesProps.Split_no_sep.
Qed.

Lemma Decode_encodeCursor_mismatch_witness :
  Decode (encodeCursor 300 (list_byte_of_string "limit=2"))  (list_byte_of_string "limit=5")
  = Go.Ok (mkDecodedCursor 0 (list_byte_of_string "limit=5")).
Proof.
  apply Decode_encodeCursor_mismatch.
  - apply (bool_decide_unpack _). by vm_compute.
  - apply (bool_decide_unpack _). by vm_compute.
  - discriminate.
Defined.

(** X3.  The checksum is only compared when the cursor has a second part:
    a cursor that holds nothing but the bytes of a feature id (no
    separator) is accepted under every expected checksum. *)
Theorem Decode_without_checksum_part (fid : Z) (cs : list byte) :
  0 < fid <= Go.MaxInt64 ->
  separator ∉ Big.NewInt_Bytes fid ->
  Decode (Base64.EncodeToString (Big.NewInt_Bytes fid)) cs
  = Go.Ok (mkDecodedCursor fid cs).
Proof.
  intros Hfid Hb. unfold Decode.
  assert (Hne : Big.NewInt_Bytes fid <> []).
  { intros He. pose proof (BigProps.Int64_SetBytes_NewInt_Bytes fid ltac:(lia)) as Hr.
    rewrite He in Hr. vm_compute in Hr. lia. }
  rewrite bool_decide_false by (by apply Base64Props.EncodeToString_nonempty).
  rewrite Base64Props.DecodeString_EncodeToString.
  rewrite bool_decide_false by (intros H; by apply H).
  rewrite BytesProps.Split_no_sep by done.
  destruct (length (Big.NewInt_Bytes fid)) as [|n] eqn:Hlen.
  { by destruct (Big.NewInt_Bytes fid). }
  cbn [length Nat.eqb Nat.ltb Nat.leb orb]. unfold Go.index.
  cbn -[Big.SetBytes Big.Int64 Big.NewInt_Bytes].
  rewrite BigProps.Int64_SetBytes_NewInt_Bytes by lia.
  by rewrite (proj2 (Z.ltb_ge fid 0)) by lia.
Qed.

Lemma Decode_without_checksum_part_witness :
  Decode (Base64.EncodeToString (Big.NewInt_Bytes 7)) (list_byte_of_string "any")
  = Go.Ok (mkDecodedCursor 7 (list_byte_of_string "any")).
Proof.
  apply Decode_without_checksum_part.
  - unfold Go.MaxInt64. lia.
  - apply (bool_decide_unpack _). by vm_compute.
Defined.

(** X4.  When the datasource reports no next (or previous) feature id, the
    cursors say so and the encoded cursor leads back to the first page:
    for a pair with Next = 0, HasNext is false and the Next cursor decodes
    to (0, cs') under every expected checksum cs'; likewise for Prev. *)
Theorem NewCursors_without_neighbour (fid : PrevNextFID) (cs cs' : list byte) :
  (Next fid = 0 ->
   HasNext (NewCursors fid cs) = false /\
   Decode (CNext (NewCursors fid cs)) cs' = Go.Ok (mkDecodedCursor 0 cs')) /\
  (Prev fid = 0 ->
   HasPrev (NewCursors fid cs) = false /\
   Decode (CPrev (NewCursors fid cs)) cs' = Go.Ok (mkDecodedCursor 0 cs')).
Proof.
  assert (H0 : Decode (encodeCursor 0 cs) cs' = Go.Ok (mkDecodedCursor 0 cs')).
  { destruct (BytesProps.Split_cons cs separator) as (q & qs & Hq).
    rewrite (Decode_encodeCursor 0 cs cs' [] q qs).
    - by destruct (Bytes.differ q cs').
    - change (Big.NewInt_Bytes 0) with (@nil byte).
      cbn [app Bytes.Split]. rewrite BytesProps.byte_eqb_refl. by rewrite Hq. }
  unfold NewCursors; cbn [HasNext HasPrev CNext CPrev].
  split; intros ->; by split.
Qed.

Lemma NewCursors_without_neighbour_witness :
  HasNext (NewCursors (mkPrevNextFID 7 0) (list_byte_of_string "cs")) = false /\
  Decode (CNext (NewCursors (mkPrevNextFID 7 0) (list_byte_of_string "cs")))
         (list_byte_of_string "other")
  = Go.Ok (mkDecodedCursor 0 (list_byte_of_string "other")).
Proof.
  exact (proj1 (NewCursors_without_neighbour (mkPrevNextFID 7 0)
                  (list_byte_of_string "cs") (list_byte_of_string "other")) eq_refl).
Defined.

End CursorProps.

(* ===================================================================== *)
(** * Properties of the features handler's parameter parsing *)
(* ===================================================================== *)

Module LimitProps.
Import Features.

Lemma Get_absent (params : gmap string (list string)) (key : string) :
  params !! key = None -> Url.Get params key = ""%string.
Proof. intros H. unfold Url.Get. by rewrite H. Qed.

Lemma Atoi_empty : Strconv.Atoi "" = (0, Some Strconv.ErrSyntax).
Proof. reflexivity. Qed.

(** [parseLimit] in terms of what [Atoi] returned, for a parameter that is
    present. *)
Lemma parseLimit_present (cfg : LimitConfig) (params : gmap string (list string))
  (n : Z) (aerr : option Strconv.NumError) :
  Url.Get params limitParam <> ""%string ->
  Strconv.Atoi (Url.Get params limitParam) = (n, aerr) ->
  parseLimit cfg params =
    let limit := if Max cfg <? n then Max cfg else n in
    (limit,
     if limit <? 0 then Some "limit can't be negative"%string
     else match aerr with
          | Some _ => Some "limit must be numeric"%string
          | None => None
          end).
Proof.
  intros Hne Ha. unfold parseLimit.
  rewrite bool_decide_false by done. cbn [negb]. by rewrite Ha.
Qed.

Lemma parseLimit_missing (cfg : LimitConfig) (params : gmap string (list string)) :
  Url.Get params limitParam = ""%string ->
  parseLimit cfg params =
    (Default cfg,
     if Default cfg <? 0 then Some "limit can't be negative"%string else None).
Proof.
  intros He. unfold parseLimit. by rewrite bool_decide_true.
Qed.

(** C6, as the code behaves.  parseLimit returns the configured default
    when the limit parameter is absent (or empty), without an error when
    the default is not negative and with "limit can't be negative" when it
    is; it returns an error for a non-empty value that Atoi does not accept
    as a number and for every negative value; and for a number above the
    configured maximum it returns the maximum, without an error when the
    maximum is not negative and with "limit can't be negative" when it
    is. *)
Theorem C6_parseLimit_cases (cfg : LimitConfig) (params : gmap string (list string)) :
  (params !! limitParam = None \/ Url.Get params limitParam = ""%string ->
   parseLimit cfg params
   = (Default cfg,
      if Default cfg <? 0 then Some "limit can't be negative"%string else None)) /\
  (Url.Get params limitParam <> ""%string ->
   (Strconv.Atoi (Url.Get params limitParam)).2 <> None ->
   (parseLimit cfg params).2 <> None) /\
  (forall n, Strconv.Atoi (Url.Get params limitParam) = (n, None) -> n < 0 ->
   (parseLimit cfg params).2 <> None) /\
  (forall n, Strconv.Atoi (Url.Get params limitParam) = (n, None) ->
   Max cfg < n ->
   parseLimit cfg params
   = (Max cfg,
      if Max cfg <? 0 then Some "limit can't be negative"%string else None)).
Proof.
  assert (Hpresent : forall n, Strconv.Atoi (Url.Get params limitParam) = (n, None) ->
                               Url.Get params limitParam <> ""%string).
  { intros n Ha He. rewrite He, Atoi_empty in Ha. discriminate. }
  repeat split.
  - intros [Habs|He]; apply parseLimit_missing; [by apply Get_absent|done].
  - intros Hne Herr.
    destruct (Strconv.Atoi (Url.Get params limitParam)) as [n aerr] eqn:Ha.
    rewrite (parseLimit_present cfg params n aerr) by done. cbn in *.
    destruct (_ <? 0); [done|]. by destruct aerr.
  - intros n Ha Hneg.
    rewrite (parseLimit_present cfg params n None) by eauto. cbn.
    destruct (Z.ltb_spec (Max cfg) n).
    + by rewrite (proj2 (Z.ltb_lt (Max cfg) 0)) by lia.
    + by rewrite (proj2 (Z.ltb_lt n 0)) by lia.
  - intros n Ha Hgt.
    rewrite (parseLimit_present cfg params n None) by eauto. cbn zeta.
    rewrite (proj2 (Z.ltb_lt (Max cfg) n)) by lia.
    by destruct (Max cfg <? 0).
Qed.

Lemma C6_witness :
  let cfg := {| Default := 10; Max := 1000 |} in
  let q (v : string) : gmap string (list string) := {[ limitParam := [v] ]} in
  parseLimit cfg ∅ = (10, None) /\
  (parseLimit cfg (q "ten")).2 <> None /\
  (parseLimit cfg (q "-5")).2 <> None /\
  parseLimit cfg (q "5000") = (1000, None).
Proof.
  intros cfg q. split; [|split; [|split]].
  - exact (proj1 (C6_parseLimit_cases cfg ∅) (or_introl eq_refl)).
  - apply (proj1 (proj2 (C6_parseLimit_cases cfg (q "ten")))); by vm_compute.
  - apply (proj1 (proj2 (proj2 (C6_parseLimit_cases cfg (q "-5")))) (-5)); by vm_compute.
  - apply (proj2 (proj2 (proj2 (C6_parseLimit_cases cfg (q "5000")))) 5000); by vm_compute.
Defined.

(** C6 as stated fails under a configured maximum that is negative: the
    number 5 is above the maximum -1, and parseLimit returns the maximum
    together with an error, not silently. *)
Lemma C6_counterexample :
  let cfg := {| Default := 10; Max := -1 |} in
  let params : gmap string (list string) := {[ limitParam := ["5"%string] ]} in
  Strconv.Atoi (Url.Get params limitParam) = (5, None) /\
  Max cfg < 5 /\
  parseLimit cfg params = (Max cfg, Some "limit can't be negative"%string) /\
  parseLimit cfg params <> (Max cfg, None).
Proof. by vm_compute. Qed.

(** X5.  Whatever the configuration and the parameters, a limit returned
    without error is not negative, and when the parameter is present it
    does not exceed the configured maximum. *)
Theorem parseLimit_bounds (cfg : LimitConfig) (params : gmap string (list string))
  (limit : Z) :
  parseLimit cfg params = (limit, None) ->
  0 <= limit /\ (Url.Get params limitParam <> ""%string -> limit <= Max cfg).
Proof.
  intros H.
  destruct (decide (Url.Get params limitParam = ""%string)) as [He|Hne].
  - rewrite parseLimit_missing in H by done.
    destruct (Z.ltb_spec (Default cfg) 0); [done|].
    injection H as <-. by split.
  - destruct (Strconv.Atoi (Url.Get params limitParam)) as [n aerr] eqn:Ha.
    rewrite (parseLimit_present cfg params n aerr) in H by done. cbn zeta in H.
    destruct (Z.ltb_spec (if Max cfg <? n then Max cfg else n) 0); [done|].
    injection H as <- _. split; [done|]. intros _.
    destruct (Z.ltb_spec (Max cfg) n); lia.
Qed.

Lemma parseLimit_bounds_witness :
  0 <= 1000 /\
  (Url.Get ({[ limitParam := ["5000"%string] ]} : gmap string (list string)) limitParam
   <> ""%string -> 1000 <= 1000).
Proof.
  exact (parseLimit_bounds {| Default := 10; Max := 1000 |}
           {[ limitParam := ["5000"%string] ]} 1000 eq_refl).
Defined.

End LimitProps.

(* ===================================================================== *)
(** * Properties of the feature mapper *)
(* ===================================================================== *)

Module MapperProps.
Import Sql Mapper.

Section WithGeometry.

Context {Geometry : Type}.
Variable fidColumn geomColumn : string.
Variable geomMapper : list byte -> Geometry * Go.error.

Local Abbreviation mapColumnsFrom := (mapColumnsFrom fidColumn geomColumn geomMapper).
Local Abbreviation mapColumnsToFeature := (mapColumnsToFeature fidColumn geomColumn geomMapper).
Local Abbreviation mapColumn := (mapColumn fidColumn geomColumn geomMapper).

(** The loop over [pre ++ rest] is the loop over [pre] followed, when that
    one ends without error, by the loop over [rest]. *)
Lemma mapColumnsFrom_app (pre rest : list string) (values : list value) :
  forall (i : nat) (feature : Feature Geometry),
  mapColumnsFrom i feature (pre ++ rest) values =
    match mapColumnsFrom i feature pre values with
    | Go.Ok (feature', None) => mapColumnsFrom (i + length pre) feature' rest values
    | other => other
    end.
Proof.
  induction pre as [|c pre IH]; intros i feature.
  - cbn. by rewrite Nat.add_0_r.
  - cbn [app mapColumnsFrom length]. unfold mbind, result_bind.
    destruct (Go.index values i) as [v|msg]; cbn [Go.bind]; [|done].
    replace (i + S (length pre))%nat with (S i + length pre)%nat by lia.
    destruct v; try (by rewrite IH);
      (destruct (mapColumn feature c _) as [[f' [e|]]|msg]; cbn [Go.bind];
       [done|by rewrite IH|done]).
Qed.

(** At the id column, a value that is neither nil nor an int64 stops the
    loop with a panic. *)
Lemma mapColumnsFrom_fid_panics (i : nat) (feature : Feature Geometry)
  (post : list string) (values : list value) (v : value) :
  values !! i = Some v -> v <> VNil -> (forall z, v <> VInt64 z) ->
  mapColumnsFrom i feature (fidColumn :: post) values
  = Go.Panic "interface conversion: interface {} is not int64".
Proof.
  intros Hv Hnil Hint. cbn [Mapper.mapColumnsFrom]. unfold Go.index. rewrite Hv.
  unfold mbind, result_bind. cbn [Go.bind]. unfold Mapper.mapColumn.
  rewrite bool_decide_true by done.
  destruct v; try done. by destruct (Hint z).
Qed.

(** When the columns before the id column are mapped without error the
    loop reaches the id column, and a value there that is neither nil nor
    an int64 makes [mapColumnsToFeature] panic. *)
Lemma mapColumnsToFeature_fid_panics (feature feature' : Feature Geometry)
  (pre post : list string) (values : list value) (v : value) :
  mapColumnsToFeature feature pre values = Go.Ok (feature', None) ->
  values !! length pre = Some v ->
  v <> VNil -> (forall z, v <> VInt64 z) ->
  mapColumnsToFeature feature (pre ++ fidColumn :: post) values
  = Go.Panic "interface conversion: interface {} is not int64".
Proof.
  unfold Mapper.mapColumnsToFeature. intros Hpre Hv Hnil Hint.
  rewrite mapColumnsFrom_app, Hpre. cbn [Nat.add].
  by apply mapColumnsFrom_fid_panics with v.
Qed.

(** When a column fails to map, the loop returns its error and the
    columns after it are not looked at. *)
Lemma mapColumnsToFeature_pre_error (feature feature' : Feature Geometry)
  (pre rest : list string) (values : list value) (err : string) :
  mapColumnsToFeature feature pre values = Go.Ok (feature', Some err) ->
  mapColumnsToFeature feature (pre ++ rest) values = Go.Ok (feature', Some err).
Proof.
  unfold Mapper.mapColumnsToFeature. intros Hpre. by rewrite mapColumnsFrom_app, Hpre.
Qed.

(** The loop over columns that do not include the id column leaves the id
    of the feature as it was. *)
Lemma mapColumnsFrom_keeps_ID (columns : list string) (values : list value) :
  forall (i : nat) (feature feature' : Feature Geometry) (e : Go.error),
  fidColumn ∉ columns ->
  mapColumnsFrom i feature columns values = Go.Ok (feature', e) ->
  ID feature' = ID feature.
Proof.
  induction columns as [|c columns IH]; intros i feature feature' e Hnot H.
  - cbn in H. by injection H as <- _.
  - apply not_elem_of_cons in Hnot as [Hne Hnot].
    cbn [Mapper.mapColumnsFrom] in H. unfold mbind, result_bind in H.
    destruct (Go.index values i) as [v|msg]; cbn [Go.bind] in H; [|done].
    assert (Hstep : forall v', v = v' ->
      match mapColumn feature c v' with
      | Go.Ok (f1, _) => ID f1 = ID feature
      | Go.Panic _ => True
      end).
    { intros v' _. unfold Mapper.mapColumn.
      rewrite bool_decide_false by done.
      case_bool_decide; [by destruct v' as [| | |b| | | |]; try destruct (geomMapper b) as [g [?|]]|].
      case_bool_decide; [done|]. by destruct v'. }
    destruct v; try (by apply IH in H);
      (match type of H with context [mapColumn feature c ?v'] =>
         specialize (Hstep v' eq_refl);
         destruct (mapColumn feature c v') as [[f1 [err|]]|msg]; cbn [Go.bind] in H;
         [injection H as <- _; done|apply IH in H; [congruence|done]|done]
       end).
Qed.

(** X13.  A row whose id column holds a value that is neither nil nor an
    int64 never yields a feature: whatever the other columns hold,
    mapColumnsToFeature does not return normally without error (it panics
    at the id column, or an earlier column has returned an error). *)
Theorem bad_fid_never_yields_a_feature (feature feature' : Feature Geometry)
  (columns : list string) (values : list value) (i : nat) (v : value) :
  columns !! i = Some fidColumn ->
  values !! i = Some v ->
  v <> VNil -> (forall z, v <> VInt64 z) ->
  mapColumnsToFeature feature columns values <> Go.Ok (feature', None).
Proof.
  intros Hc Hv Hnil Hint.
  rewrite <- (take_drop_middle columns i fidColumn Hc).
  unfold Mapper.mapColumnsToFeature. rewrite mapColumnsFrom_app.
  destruct (mapColumnsFrom 0 feature (take i columns) values) as [[f1 [e|]]|msg];
    [done| |done].
  rewrite length_take_le by (apply Nat.lt_le_incl; by eapply lookup_lt_Some).
  cbn [Nat.add]. by rewrite (mapColumnsFrom_fid_panics _ _ _ _ v).
Qed.

Lemma mapColumnsFrom_clean (all columns : list string) (values : list value) :
  forall (i : nat) (feature feature' : Feature Geometry) (e : Go.error),
  columns ⊆ all ->
  clean_properties fidColumn geomColumn all feature ->
  mapColumnsFrom i feature columns values = Go.Ok (feature', e) ->
  clean_properties fidColumn geomColumn all feature'.
Proof.
  induction columns as [|c columns IH]; intros i feature feature' e Hsub Hclean H.
  - cbn in H. by injection H as <- _.
  - assert (Hc : c ∈ all) by (apply Hsub; apply list_elem_of_here).
    assert (Hsub' : columns ⊆ all) by (intros x Hx; apply Hsub; by apply list_elem_of_further).
    cbn [Mapper.mapColumnsFrom] in H. unfold mbind, result_bind in H.
    destruct (Go.index values i) as [v|msg]; cbn [Go.bind] in H; [|done].
    assert (Hstep : forall v',
      match mapColumn feature c v' with
      | Go.Ok (f1, _) => clean_properties fidColumn geomColumn all f1
      | Go.Panic _ => True
      end).
    { intros v'. unfold Mapper.mapColumn.
      case_bool_decide as Hfid; [by destruct v'|].
      case_bool_decide as Hgeom;
        [by destruct v' as [| | |b| | | |]; try destruct (geomMapper b) as [g [?|]]|].
      case_bool_decide as Hres; [done|].
      destruct v'; try done;
        (intros k w; cbn [Properties]; rewrite lookup_insert;
         case_decide as Hk; [intros [= <-]; subst k; done|by apply Hclean]). }
    destruct v; try (by eapply IH in H);
      (match type of H with context [mapColumn feature c ?v'] =>
         specialize (Hstep v');
         destruct (mapColumn feature c v') as [[f1 [err|]]|msg]; cbn [Go.bind] in H;
         [injection H as <- _; done|by eapply IH in H|done]
       end).
Qed.

(** X14.  What ends up in the property bag: after mapping a row onto a
    fresh feature, every property is named after a column of the row that
    is neither the id column, nor the geometry column, nor one of the six
    reserved bounding-box and zoom columns, and its value is an int64, a
    float64, a string, a bool or a timestamp (a blob has become a string;
    nil never appears). *)
Theorem properties_are_clean (feature' : Feature Geometry) (columns : list string)
  (values : list value) (e : Go.error) (k : string) (v : value) :
  mapColumnsToFeature newFeature columns values = Go.Ok (feature', e) ->
  Properties feature' !! k = Some v ->
  k ∈ columns /\ k <> fidColumn /\ k <> geomColumn /\ (k ∉ reserved) /\ scalar v.
Proof.
  intros H. apply (mapColumnsFrom_clean columns columns values 0 newFeature feature' e);
    [done| |done].
  intros k' v'. cbn. by rewrite lookup_empty.
Qed.

(** The loop over [before ++ rest] is the loop over [before] followed,
    when that one ends without error, by the loop over [rest]. *)
Lemma mapRowsLoop_app (columns : list string)
  (before rest : list (list value * Go.error)) :
  forall (acc : list (Feature Geometry)),
  mapRowsLoop fidColumn geomColumn geomMapper columns (before ++ rest) acc =
    match mapRowsLoop fidColumn geomColumn geomMapper columns before acc with
    | Go.Ok (fs, None) => mapRowsLoop fidColumn geomColumn geomMapper columns rest fs
    | other => other
    end.
Proof.
  induction before as [|[values [err|]] before IH]; intros acc; [done|done|].
  cbn [app Mapper.mapRowsLoop]. unfold mbind, result_bind.
  destruct (mapColumnsToFeature newFeature columns values) as [[f [e|]]|msg];
    cbn [Go.bind]; [done|by rewrite IH|done].
Qed.

(** A row at which [mapColumnsToFeature] panics, reached because the rows
    before it were mapped without error, makes [MapRowsToFeatures] panic. *)
Lemma MapRowsToFeatures_row_panics (rows : Rows)
  (before more : list (list value * Go.error)) (values : list value)
  (fs : list (Feature Geometry)) (msg : string) :
  ColumnsErr rows = None ->
  Scans rows = before ++ (values, None) :: more ->
  mapRowsLoop fidColumn geomColumn geomMapper (Columns rows) before [] = Go.Ok (fs, None) ->
  mapColumnsToFeature newFeature (Columns rows) values = Go.Panic msg ->
  MapRowsToFeatures fidColumn geomColumn geomMapper rows = Go.Panic msg.
Proof.
  intros Hc Hs Hb Hm. unfold Mapper.MapRowsToFeatures. rewrite Hc, Hs.
  rewrite mapRowsLoop_app, Hb. cbn [Mapper.mapRowsLoop]. by rewrite Hm.
Qed.

(** A row at which [mapColumnsToFeature] returns an error, reached in the
    same way, makes [MapRowsToFeatures] return that error. *)
Lemma MapRowsToFeatures_row_error (rows : Rows)
  (before more : list (list value * Go.error)) (values : list value)
  (fs : list (Feature Geometry)) (feature' : Feature Geometry) (err : string) :
  ColumnsErr rows = None ->
  Scans rows = before ++ (values, None) :: more ->
  mapRowsLoop fidColumn geomColumn geomMapper (Columns rows) before [] = Go.Ok (fs, None) ->
  mapColumnsToFeature newFeature (Columns rows) values = Go.Ok (feature', Some err) ->
  MapRowsToFeatures fidColumn geomColumn geomMapper rows = Go.Ok (fs, Some err).
Proof.
  intros Hc Hs Hb Hm. unfold Mapper.MapRowsToFeatures. rewrite Hc, Hs.
  rewrite mapRowsLoop_app, Hb. cbn [Mapper.mapRowsLoop]. by rewrite Hm.
Qed.

(** What [mapRowsLoop] returns on success: the features it was given,
    followed by one feature for every row, each the image of its row. *)
Lemma mapRowsLoop_rows (columns : list string) (scans : list (list value * Go.error)) :
  forall (acc features : list (Feature Geometry)),
  mapRowsLoop fidColumn geomColumn geomMapper columns scans acc = Go.Ok (features, None) ->
  exists fs, features = acc ++ fs /\
    Forall2 (fun f s => s.2 = None /\
                        mapColumnsToFeature newFeature columns s.1 = Go.Ok (f, None))
            fs scans.
Proof.
  induction scans as [|[values [err|]] scans IH]; intros acc features H.
  - cbn in H. injection H as <-. exists []. by rewrite app_nil_r.
  - done.
  - cbn [Mapper.mapRowsLoop] in H. unfold mbind, result_bind in H.
    destruct (mapColumnsToFeature newFeature columns values) as [[f [e|]]|msg] eqn:Hm;
      cbn [Go.bind] in H; [done| |done].
    apply IH in H as (fs & -> & Hall). exists (f :: fs). split.
    + by rewrite <- app_assoc.
    + by constructor.
Qed.

(** The features of a successful call, row by row. *)
Lemma MapRowsToFeatures_rows (rows : Rows) (features : list (Feature Geometry)) :
  MapRowsToFeatures fidColumn geomColumn geomMapper rows = Go.Ok (features, None) ->
  length features = length (Scans rows) /\
  Forall2 (fun f s => mapColumnsToFeature newFeature (Columns rows) s.1 = Go.Ok (f, None))
          features (Scans rows).
Proof.
  unfold Mapper.MapRowsToFeatures. destruct (ColumnsErr rows); [done|].
  intros H. apply mapRowsLoop_rows in H as (fs & -> & Hall). cbn [app].
  split; [by eapply Forall2_length|].
  eapply Forall2_impl; [exact Hall|]. by intros f s [_ ?].
Qed.

(** X15.  MapRowsToFeatures maps every row or none: when it returns
    without error, there is exactly one feature per row, in the order of
    the rows, and each is the image of its row. *)
Theorem MapRowsToFeatures_one_per_row (rows : Rows) (features : list (Feature Geometry)) :
  MapRowsToFeatures fidColumn geomColumn geomMapper rows = Go.Ok (features, None) ->
  length features = length (Scans rows) /\
  Forall2 (fun f s => mapColumnsToFeature newFeature (Columns rows) s.1 = Go.Ok (f, None))
          features (Scans rows).
Proof. exact (MapRowsToFeatures_rows rows features). Qed.

(** The id of a mapped feature is the integer of the id column, when the
    row has one id column. *)
Lemma mapColumnsToFeature_ID (feature feature' : Feature Geometry)
  (columns : list string) (values : list value) (z : Z) :
  fidColumn ∉ columns ->
  mapColumnsToFeature feature (fidColumn :: columns) (VInt64 z :: values)
  = Go.Ok (feature', None) ->
  ID feature' = z.
Proof.
  intros Hnot H. unfold Mapper.mapColumnsToFeature in H.
  cbn [Mapper.mapColumnsFrom] in H. unfold Go.index in H. cbn [lookup list_lookup] in H.
  unfold mbind, result_bind in H. cbn [Go.bind] in H.
  unfold Mapper.mapColumn in H. rewrite bool_decide_true in H by done. cbn [Go.bind] in H.
  by apply mapColumnsFrom_keeps_ID in H.
Qed.

End WithGeometry.

Lemma bad_fid_never_yields_a_feature_witness :
  mapColumnsToFeature (Geometry := list byte) "fid" "geom" (fun b => (b, None))
    newFeature ["geom"; "fid"]%string [VString "POINT(1 2)"; VFloat64 7]
  <> Go.Ok ({| ID := 7; FGeometry := None; Properties := ∅ |}, None).
Proof.
  apply (bad_fid_never_yields_a_feature "fid" "geom" (fun b => (b, None)) newFeature
           {| ID := 7; FGeometry := None; Properties := ∅ |}
           ["geom"; "fid"]%string [VString "POINT(1 2)"; VFloat64 7] 1
           (VFloat64 7)); try done.
Defined.

Lemma properties_are_clean_witness :
  "street"%string ∈ ["fid"; "geom"; "minx"; "street"]%string /\
  "street"%string <> "fid"%string /\ "street"%string <> "geom"%string /\
  ("street"%string ∉ reserved) /\ scalar (VString "Dam").
Proof.
  eapply (properties_are_clean (Geometry := list byte) "fid" "geom" (fun b => (b, None))
            _ ["fid"; "geom"; "minx"; "street"]%string
            [VInt64 1; VBytes [Byte.x01]; VFloat64 0;
             VBytes (list_byte_of_string "Dam")] None "street" (VString "Dam")).
  - reflexivity.
  - reflexivity.
Defined.

Lemma MapRowsToFeatures_one_per_row_witness :
  exists features,
    MapRowsToFeatures (Geometry := list byte) "fid" "geom" (fun b => (b, None))
      (mkRows None ["fid"; "street"]%string
         [([VInt64 1; VString "Dam"], None); ([VInt64 2; VNil], None)])
    = Go.Ok (features, None) /\ length features = 2%nat.
Proof.
  eexists. split; [reflexivity|].
  refine (proj1 (MapRowsToFeatures_one_per_row (Geometry := list byte) "fid" "geom"
                   (fun b => (b, None))
                   (mkRows None ["fid"; "street"]%string
                      [([VInt64 1; VString "Dam"], None); ([VInt64 2; VNil], None)])
                   _ _)).
  reflexivity.
Defined.

End MapperProps.

(* ===================================================================== *)
(** * Properties of the GeoPackage datasource and of the handler on it *)
(* ===================================================================== *)

Module GeoPackageProps.
Import Sql GeoPackage.

Lemma sql_limit_0 {A} (l : list A) : sql_limit 0 l = [].
Proof. reflexivity. Qed.

(** With [:limit = 0] the final [select ... limit :limit] keeps no row. *)
Lemma run_default_limit_0 (t : Table) (fid : Z) : run_default t fid 0 = [].
Proof. unfold run_default. by rewrite sql_limit_0. Qed.

Section Datasource.

Context {Geometry Extent : Type}.
Variable readGpkgGeometry : list byte -> Geometry * Go.error.
Variable wktEncodeString : Extent -> string * Go.error.
Variable MinX MinY MaxX MaxY : Extent -> Z.

Local Abbreviation GetFeatures :=
  (GetFeatures readGpkgGeometry wktEncodeString MinX MinY MaxX MaxY).
Local Abbreviation GetFeature := (GetFeature readGpkgGeometry).

(** A result set without rows maps to no feature and no prev/next pair. *)
Lemma MapRowsToFeatures3_no_rows (fidColumn geomColumn : string) (rows : Rows) :
  ColumnsErr rows = None -> Scans rows = [] ->
  Mapper.MapRowsToFeatures3 fidColumn geomColumn readGpkgGeometry rows
  = Go.Ok ([], None, None).
Proof.
  intros Hc Hs. unfold Mapper.MapRowsToFeatures3, Mapper.MapRowsToFeatures, Mapper.prevNextOf.
  by rewrite Hc, Hs.
Qed.

(** C7.  For a collection known to the datasource and any feature id: when
    the single-feature statement is prepared and run without error and its
    result set has no row, GetFeature returns a nil feature and a nil
    error. *)
Theorem C7_GetFeature_no_row (g : GeoPackage.GeoPackage) (collection : string)
  (featureID : Z) (table : featureTable) (rows : Rows) :
  featureTableByCollectionID g !! collection = Some table ->
  PrepareNamed (backend g) (QFeature (TableName table) (fidColumn g)) = None ->
  Queryx (backend g) (QFeature (TableName table) (fidColumn g))
         {[ "fid"%string := VInt64 featureID ]} = (rows, None) ->
  ColumnsErr rows = None ->
  Scans rows = [] ->
  GetFeature g collection featureID = Go.Ok (None, None).
Proof.
  intros Ht Hp Hq Hc Hs. unfold GeoPackage.GetFeature.
  rewrite Ht, Hp, Hq. by rewrite MapRowsToFeatures3_no_rows.
Qed.

(** What [GetFeatures] makes of the mapper's bad endings, for a backend
    that prepares every statement and answers every query with [rows]: a
    panic of the mapper is a panic of [GetFeatures], an error of the mapper
    is returned as it is. *)
Lemma GetFeatures_mapper_endings (g : GeoPackage.GeoPackage) (collection : string)
  (options : FeatureOptions Extent) (table : featureTable) (rows : Rows) :
  featureTableByCollectionID g !! collection = Some table ->
  (forall bbox, (wktEncodeString bbox).2 = None) ->
  (forall q, PrepareNamed (backend g) q = None) ->
  (forall q args, Queryx (backend g) q args = (rows, None)) ->
  (forall msg,
     Mapper.MapRowsToFeatures (fidColumn g) (GeometryColumnName table) readGpkgGeometry rows
     = Go.Panic msg ->
     GetFeatures g collection options = Go.Panic msg) /\
  (forall fs err,
     Mapper.MapRowsToFeatures (fidColumn g) (GeometryColumnName table) readGpkgGeometry rows
     = Go.Ok (fs, Some err) ->
     GetFeatures g collection options = Go.Ok (None, noCursors, Some err)).
Proof.
  intros Ht Hwkt Hp Hq. unfold GeoPackage.GetFeatures. rewrite Ht.
  destruct (makeFeaturesQuery wktEncodeString MinX MinY MaxX MaxY g table options)
    as [[q args] e] eqn:Hmk.
  assert (e = None) as ->.
  { unfold makeFeaturesQuery, makeBboxQuery, makeDefaultQuery in Hmk.
    destruct (Bbox options) as [bbox|]; [|by injection Hmk as _ _ <-].
    specialize (Hwkt bbox). destruct (wktEncodeString bbox) as [w [e'|]]; [done|].
    by injection Hmk as _ _ <-. }
  rewrite Hp, Hq. unfold Mapper.MapRowsToFeatures3, mbind, result_bind.
  split.
  - by intros msg ->.
  - by intros fs err ->.
Qed.

(** On a SQLite backend, for a request without bounding box and with
    limit 0, [GetFeatures] never returns a collection: the table is missing
    (an error) or the statement yields no row (nil, no cursors, nil). *)
Lemma GetFeatures_limit_0 (db : gmap string Table)
  (bbox_rows : Query -> gmap string value -> Rows * Go.error)
  (fidCol : string) (tables : gmap string featureTable)
  (collection : string) (cursor : Cursor.DecodedCursor) (crs : Z) :
  let g := {| backend := sqlite db bbox_rows; fidColumn := fidCol;
              featureTableByCollectionID := tables |} in
  exists err,
    GetFeatures g collection
      {| OCursor := cursor; Limit := 0; Bbox := None; BboxCrs := crs |}
    = Go.Ok (None, noCursors, err) /\
    (forall table t, tables !! collection = Some table ->
       db !! TableName table = Some t -> fid_column t = fidCol -> err = None).
Proof.
  intros g. unfold GeoPackage.GetFeatures. cbn [featureTableByCollectionID g].
  destruct (tables !! collection) as [table|] eqn:Ht.
  2:{ eexists; split; [reflexivity|]. by intros ? ? [=]. }
  unfold makeFeaturesQuery, makeDefaultQuery. cbn [Bbox Limit OCursor backend fidColumn g].
  cbn [sqlite PrepareNamed Queryx].
  destruct (db !! TableName table) as [t|] eqn:Hdb.
  2:{ eexists; split; [reflexivity|]. intros table' t' [= <-] Hd. congruence. }
  case_bool_decide as Hfid.
  2:{ eexists; split; [reflexivity|]. intros table' t' [= <-] Hd Hf. congruence. }
  unfold int_arg. rewrite lookup_insert_eq.
  rewrite lookup_insert_ne by done. rewrite lookup_singleton_eq. cbn -[run_default].
  exists None. split; [|done].
  rewrite run_default_limit_0. reflexivity.
Qed.

(** On a SQLite backend, asking for an id that no row of the table carries
    gives a nil feature and a nil error. *)
Lemma GetFeature_absent (db : gmap string Table)
  (bbox_rows : Query -> gmap string value -> Rows * Go.error)
  (fidCol : string) (tables : gmap string featureTable)
  (collection : string) (featureID : Z) (table : featureTable) (t : Table) :
  tables !! collection = Some table ->
  db !! TableName table = Some t ->
  fid_column t = fidCol ->
  (forall row, row ∈ table_rows t -> row_fid row <> featureID) ->
  GetFeature {| backend := sqlite db bbox_rows; fidColumn := fidCol;
                featureTableByCollectionID := tables |} collection featureID
  = Go.Ok (None, None).
Proof.
  intros Ht Hdb Hfid Habs. unfold GeoPackage.GetFeature.
  cbn [featureTableByCollectionID backend fidColumn sqlite PrepareNamed Queryx].
  rewrite Ht, Hdb. rewrite bool_decide_true by done.
  unfold int_arg. rewrite lookup_singleton_eq.
  assert (run_feature t featureID = []) as ->.
  { unfold run_feature.
    assert (filter (fun r => row_fid r = featureID) (table_rows t) = []) as ->; [|done].
    induction (table_rows t) as [|row rows IH]; [done|].
    rewrite filter_cons_False by (apply Habs; apply list_elem_of_here).
    apply IH. intros row' Hin. apply Habs. by apply list_elem_of_further. }
  reflexivity.
Qed.

End Datasource.

Lemma C7_witness :
  Fixtures.GetFeature Fixtures.gpkg "addresses" 40 = Go.Ok (None, None).
Proof.
  apply (C7_GetFeature_no_row Fixtures.readGpkgGeometry Fixtures.gpkg "addresses" 40
           (mkFeatureTable "addresses_tbl" "features" "addresses" "" "geom" "POINT" 28992)
           (mkRows None ["fid"; "geom"; "street"]%string [])); by vm_compute.
Defined.

Lemma matchCollections_resolves (all collections : list GeoSpatialCollection)
  (row : featureTable) (result : gmap string featureTable) :
  collections ⊆ all -> all <> [] ->
  TableName row <> ""%string ->
  (forall id r, result !! id = Some r -> resolves all id r) ->
  forall id r, matchCollections collections row result !! id = Some r -> resolves all id r.
Proof.
  intros Hsub Hall Hname. induction collections as [|c collections IH]; intros Hinv; [done|].
  assert (Hc : c ∈ all) by (apply Hsub; apply list_elem_of_here).
  assert (Hstore : forall id r, <[ID c := row]> result !! id = Some r ->
            (Identifier row = ID c \/ hasMatchingDatasourceID c row = true) ->
            resolves all id r).
  { intros id r Hl Hwhy. rewrite lookup_insert in Hl. case_decide as Hid.
    - injection Hl as <-. subst id. split; [done|]. split; [done|]. intros _. by exists c.
    - by apply Hinv. }
  cbn [matchCollections]. case_bool_decide as Hid.
  - intros id r Hl. apply Hstore; [done|by left].
  - destruct (hasMatchingDatasourceID c row) eqn:Hds.
    + intros id r Hl. apply Hstore; [done|by right].
    + apply IH; [|done]. intros x Hx. apply Hsub. by apply list_elem_of_further.
Qed.

Lemma readRows_resolves (collections : list GeoSpatialCollection)
  (scans : list (featureTable * Go.error)) :
  forall (acc result : gmap string featureTable) (err : Go.error),
  (forall id r, acc !! id = Some r -> resolves collections id r) ->
  readRows collections scans acc = (Some result, err) ->
  forall id r, result !! id = Some r -> resolves collections id r.
Proof.
  induction scans as [|[row [e|]] scans IH]; intros acc result err Hinv H.
  - cbn in H. by injection H as <- _.
  - done.
  - cbn [readRows] in H. case_bool_decide as Hname; [done|].
    eapply IH; [|exact H]. clear H IH.
    destruct collections as [|c collections].
    + cbn [length Nat.eqb]. intros id r Hl. rewrite lookup_insert in Hl.
      case_decide as Hid; [|by apply Hinv]. injection Hl as <-.
      split; [done|]. split; [done|]. by intros [].
    + cbn [length Nat.eqb]. by apply matchCollections_resolves.
Qed.

(** X19.  What readGpkgContents hands to the datasource: when it succeeds
    the mapping is not empty, and every entry id -> table is resolved as
    intended: the table has a name, and either no collection is configured
    and id is the table's identifier, or id is the id of a configured
    collection that the table matches by identifier or by the collection's
    datasource id. *)
Theorem readGpkgContents_resolves (collections : list GeoSpatialCollection)
  (queryErr : Go.error) (scans : list (featureTable * Go.error)) (rowsErr : Go.error)
  (result : gmap string featureTable) :
  readGpkgContents collections queryErr scans rowsErr = (Some result, None) ->
  result <> ∅ /\
  forall id row, result !! id = Some row -> resolves collections id row.
Proof.
  unfold readGpkgContents. destruct queryErr; [done|].
  destruct (readRows collections scans ∅) as [[res|] err] eqn:Hr; [|done].
  destruct rowsErr; [done|].
  destruct (Nat.eqb_spec (size res) 0) as [|Hsize]; [done|].
  intros [= <-]. split.
  - intros ->. by rewrite map_size_empty in Hsize.
  - eapply readRows_resolves; [|exact Hr]. intros id r. by rewrite lookup_empty.
Qed.

Lemma readGpkgContents_resolves_witness :
  let addresses := mkFeatureTable "addresses_tbl" "features" "bag_addresses" ""
                     "geom" "POINT" 28992 in
  let collections :=
    [mkGeoSpatialCollection "parcels" None;
     mkGeoSpatialCollection "addresses"
       (Some (mkCollectionEntryFeatures (Some "bag_addresses"%string)))] in
  resolves collections "addresses" addresses.
Proof.
  intros addresses collections.
  refine (proj2 (readGpkgContents_resolves collections None [(addresses, None)] None
                   {[ "addresses"%string := addresses ]} _) "addresses"%string addresses _).
  - reflexivity.
  - reflexivity.
Defined.

End GeoPackageProps.

(* ===================================================================== *)
(** * Pagination: what the default statement returns *)
(* ===================================================================== *)

Module PaginationProps.
Import Sql GeoPackage.

#[local] Instance fid_le_total : Total fid_le.
Proof. intros x y. unfold fid_le. lia. Qed.
#[local] Instance fid_le_trans : Transitive fid_le.
Proof. intros x y z. unfold fid_le. lia. Qed.
#[local] Instance fid_ge_total : Total fid_ge.
Proof. intros x y. unfold fid_ge. lia. Qed.
#[local] Instance fid_ge_trans : Transitive fid_ge.
Proof. intros x y z. unfold fid_ge. lia. Qed.

(** Rows of a table whose fids are distinct are told apart by their fid. *)
Lemma same_fid (rows : list TableRow) (x y : TableRow) :
  NoDup (row_fid <$> rows) -> x ∈ rows -> y ∈ rows -> row_fid x = row_fid y -> x = y.
Proof.
  induction rows as [|a rows IH]; intros Hnd Hx Hy Heq; [by apply elem_of_nil in Hx|].
  cbn [fmap list_fmap] in Hnd. apply NoDup_cons in Hnd as [Hnot Hnd].
  apply elem_of_cons in Hx as [->|Hx]; apply elem_of_cons in Hy as [->|Hy].
  - done.
  - destruct Hnot. rewrite Heq. by apply list_elem_of_fmap_2.
  - destruct Hnot. rewrite <- Heq. by apply list_elem_of_fmap_2.
  - by apply IH.
Qed.

Lemma sql_limit_take {A} (limit : Z) (l : list A) :
  0 <= limit -> sql_limit limit l = take (Z.to_nat limit) l.
Proof. intros H. unfold sql_limit. by rewrite (proj2 (Z.ltb_ge limit 0)). Qed.

Lemma StronglySorted_take {A} (R : relation A) (n : nat) (l : list A) :
  StronglySorted R l -> StronglySorted R (take n l).
Proof.
  intros H. rewrite <- (take_drop n l) in H. by apply StronglySorted_app_1_l in H.
Qed.

Lemma StronglySorted_drop {A} (R : relation A) (n : nat) (l : list A) :
  StronglySorted R l -> StronglySorted R (drop n l).
Proof.
  intros H. rewrite <- (take_drop n l) in H. by apply StronglySorted_app_1_r in H.
Qed.

Section Page.

Variable t : Table.
Variable fid limit : Z.
Hypothesis fids_distinct : NoDup (row_fid <$> table_rows t).
Hypothesis limit_nonneg : 0 <= limit.

Let n := Z.to_nat limit.
Let next := take (S n) (rows_from t fid).
Let prev := take n (order_desc (filter (fun r => row_fid r < fid) (table_rows t))).

Lemma in_rows_from (r : TableRow) :
  r ∈ rows_from t fid <-> fid <= row_fid r /\ r ∈ table_rows t.
Proof.
  unfold rows_from, order_asc. rewrite merge_sort_Permutation.
  by rewrite list_elem_of_filter.
Qed.

Lemma in_next (r : TableRow) : r ∈ next -> fid <= row_fid r /\ r ∈ table_rows t.
Proof. intros H. apply in_rows_from. by apply (subseteq_take (S n)). Qed.

Lemma in_prev (r : TableRow) : r ∈ prev -> row_fid r < fid /\ r ∈ table_rows t.
Proof.
  intros H. apply (subseteq_take n) in H. unfold order_desc in H.
  rewrite merge_sort_Permutation in H. by rewrite list_elem_of_filter in H.
Qed.

Lemma rows_from_sorted : StronglySorted fid_le (rows_from t fid).
Proof. apply StronglySorted_merge_sort; apply _. Qed.

(** Ordering [next ∪ prev] by fid puts the preceding rows first and leaves
    the rows of [next] as they are. *)
Lemma nextprev_sorted : order_asc (next ++ prev) = order_asc prev ++ next.
Proof.
  apply (StronglySorted_unique_strong fid_le).
  - intros x1 x2 H1 H2 Hle Hge.
    apply (same_fid (table_rows t)); [done| | |unfold fid_le in *; lia].
    + unfold order_asc in H1. rewrite merge_sort_Permutation in H1.
      apply elem_of_app in H1 as [H1|H1]; [by apply in_next|by apply in_prev].
    + apply elem_of_app in H2 as [H2|H2]; [|by apply in_next].
      unfold order_asc in H2. rewrite merge_sort_Permutation in H2. by apply in_prev.
  - apply StronglySorted_merge_sort; apply _.
  - apply StronglySorted_app. split; [|split].
    + intros x1 x2 H1 H2. unfold order_asc in H1. rewrite merge_sort_Permutation in H1.
      apply in_prev in H1 as [H1 _]. apply in_next in H2 as [H2 _].
      unfold fid_le. lia.
    + apply StronglySorted_merge_sort; apply _.
    + apply StronglySorted_take, rows_from_sorted.
  - unfold order_asc. rewrite !merge_sort_Permutation. apply Permutation_app_comm.
Qed.

Lemma filter_imap_all {A B} (P : B -> Prop) `{!forall x, Decision (P x)}
  (l : list A) : forall (g : nat -> A -> B),
  (forall i r, r ∈ l -> P (g i r)) -> filter P (imap g l) = imap g l.
Proof.
  induction l as [|a l IH]; intros g Hg; [done|].
  rewrite imap_cons, filter_cons_True by (apply Hg; apply list_elem_of_here).
  f_equal. apply IH. intros i r Hr. apply Hg. by apply list_elem_of_further.
Qed.

Lemma filter_imap_none {A B} (P : B -> Prop) `{!forall x, Decision (P x)}
  (l : list A) : forall (g : nat -> A -> B),
  (forall i r, r ∈ l -> ~ P (g i r)) -> filter P (imap g l) = [].
Proof.
  induction l as [|a l IH]; intros g Hg; [done|].
  rewrite imap_cons, filter_cons_False by (apply Hg; apply list_elem_of_here).
  apply IH. intros i r Hr. apply Hg. by apply list_elem_of_further.
Qed.

(** The rows the statement returns, with their window columns: the first
    [limit] rows of [next], each with the lag and lead taken in the ordered
    union, where it stands after the preceding rows. *)
Lemma run_default_eq :
  let sorted := order_asc prev ++ next in
  run_default t fid limit =
    take n (imap (fun i r => (r, lag sorted limit (length (order_asc prev) + i),
                                 lead sorted limit (length (order_asc prev) + i)))
                 next).
Proof.
  intros sorted. unfold run_default.
  rewrite !sql_limit_take by lia.
  replace (Z.to_nat (limit + 1)) with (S n) by (subst n; lia).
  fold (rows_from t fid). fold next. fold n. fold prev.
  unfold nextprevfeat. rewrite nextprev_sorted. fold sorted.
  unfold sorted at 3. rewrite imap_app, filter_app.
  rewrite filter_imap_none, filter_imap_all; [done| |].
  - intros i r Hr. cbn. by apply in_next in Hr as [? _].
  - intros i r Hr. cbn. unfold order_asc in Hr. rewrite merge_sort_Permutation in Hr.
    apply in_prev in Hr as [? _]. lia.
Qed.

(** The rows of a page, without their window columns. *)
Lemma run_default_rows :
  (fun x => x.1.1) <$> run_default t fid limit = take n (rows_from t fid).
Proof.
  rewrite run_default_eq. cbn zeta. rewrite fmap_take, fmap_imap.
  rewrite (imap_ext _ (const id)) by done.
  rewrite imap_const, list_fmap_id. unfold next. rewrite take_take.
  f_equal. lia.
Qed.


(** The lead of the first row looks [limit] rows ahead, into [next]. *)
Lemma run_default_lead (x : TableRow * value * value) :
  0 < limit ->
  run_default t fid limit !! 0%nat = Some x ->
  x.2 = match rows_from t fid !! n with
        | Some r => VInt64 (row_fid r)
        | None => VNil
        end.
Proof.
  intros Hpos. rewrite run_default_eq. cbn zeta.
  rewrite lookup_take_lt by (subst n; lia).
  rewrite list_lookup_imap. destruct (next !! 0%nat) as [r|]; [|done].
  cbn. intros [= <-]. cbn [snd]. unfold lead, fid_at.
  rewrite Nat.add_0_r.
  replace (Z.of_nat (length (order_asc prev)) + limit <? 0) with false
    by (symmetry; apply Z.ltb_ge; lia).
  replace (Z.to_nat (Z.of_nat (length (order_asc prev)) + limit))
    with (length (order_asc prev) + n)%nat by (subst n; lia).
  rewrite lookup_app_r by lia.
  replace (length (order_asc prev) + n - length (order_asc prev))%nat with n by lia.
  unfold next. by rewrite lookup_take_lt by lia.
Qed.

(** X21.  The next fid.  The first row of a page carries as [nextfid] the
    fid of the row that follows the page, that is the row at position
    [limit] among the rows at or after the cursor; it is null when no row
    follows. *)
Theorem run_default_nextfid (x : TableRow * value * value) :
  0 < limit ->
  run_default t fid limit !! 0%nat = Some x ->
  x.2 = match rows_from t fid !! Z.to_nat limit with
        | Some r => VInt64 (row_fid r)
        | None => VNil
        end.
Proof. exact (run_default_lead x). Qed.

Lemma NoDup_fmap_filter {A B} (f : A -> B) (P : A -> Prop) `{!forall x, Decision (P x)}
  (l : list A) : NoDup (f <$> l) -> NoDup (f <$> filter P l).
Proof.
  induction l as [|a l IH]; [done|]. cbn [fmap list_fmap]. rewrite NoDup_cons.
  intros [Hnot Hnd]. rewrite filter_cons. destruct (decide (P a)); [|by apply IH].
  cbn [fmap list_fmap]. apply NoDup_cons. split; [|by apply IH].
  intros Hin. apply Hnot. apply list_elem_of_fmap in Hin as (x & -> & Hx).
  apply list_elem_of_filter in Hx as [_ Hx]. by apply list_elem_of_fmap_2.
Qed.

Lemma rows_from_NoDup : NoDup (row_fid <$> rows_from t fid).
Proof.
  unfold rows_from, order_asc. rewrite merge_sort_Permutation.
  by apply NoDup_fmap_filter.
Qed.

Lemma filter_none {A} (P : A -> Prop) `{!forall x, Decision (P x)} (l : list A) :
  Forall (fun x => ~ P x) l -> filter P l = [].
Proof.
  induction 1 as [|a l Ha _ IH]; [done|]. by rewrite filter_cons_False.
Qed.

Lemma filter_all {A} (P : A -> Prop) `{!forall x, Decision (P x)} (l : list A) :
  Forall P l -> filter P l = l.
Proof.
  induction 1 as [|a l Ha _ IH]; [done|]. rewrite filter_cons_True by done. by f_equal.
Qed.

(** In a list ordered by fid, with distinct fids, the rows at or after the
    fid of the row at position [k] are the rows from position [k] on. *)
Lemma filter_from_position (l : list TableRow) (k : nat) (r : TableRow) :
  StronglySorted fid_le l -> NoDup (row_fid <$> l) -> l !! k = Some r ->
  filter (fun x => row_fid r <= row_fid x) l = drop k l.
Proof.
  intros Hs Hnd Hk.
  rewrite <- (take_drop_middle l k r Hk) in Hs, Hnd |- *.
  rewrite fmap_app in Hnd. apply NoDup_app in Hnd as (_ & Hdisj & _).
  apply StronglySorted_app in Hs as (Hle & _ & Hs2).
  apply StronglySorted_cons in Hs2 as [Hge _].
  assert (Hlen : length (take k l) = k).
  { rewrite length_take. apply lookup_lt_Some in Hk. lia. }
  rewrite filter_app, drop_app_length' by done.
  rewrite filter_none.
  - cbn [app]. rewrite filter_cons_True by done. f_equal. by apply filter_all.
  - apply Forall_forall. intros a Ha Hra.
    specialize (Hle a r Ha (list_elem_of_here _ _)). unfold fid_le in Hle.
    apply (Hdisj (row_fid a)); [by apply list_elem_of_fmap_2|].
    replace (row_fid a) with (row_fid r) by lia. apply list_elem_of_here.
Qed.

(** The rows that remain after a page are the rows at or after the fid of
    the row that follows the page. *)
Lemma rows_from_next (r : TableRow) :
  rows_from t fid !! n = Some r ->
  rows_from t (row_fid r) = drop n (rows_from t fid).
Proof.
  intros Hr.
  assert (Hin : fid <= row_fid r /\ r ∈ table_rows t)
    by (apply in_rows_from; by eapply list_elem_of_lookup_2).
  rewrite <- (filter_from_position _ n r rows_from_sorted rows_from_NoDup Hr).
  apply (StronglySorted_unique_strong fid_le).
  - intros x1 x2 H1 H2 Hle Hge.
    apply (same_fid (table_rows t)); [done| | |unfold fid_le in *; lia].
    + unfold rows_from, order_asc in H1. rewrite merge_sort_Permutation in H1.
      by apply list_elem_of_filter in H1 as [_ ?].
    + apply list_elem_of_filter in H2 as [_ H2]. by apply in_rows_from in H2 as [_ ?].
  - apply StronglySorted_merge_sort; apply _.
  - rewrite (filter_from_position _ n r rows_from_sorted rows_from_NoDup Hr).
    apply StronglySorted_drop, rows_from_sorted.
  - unfold rows_from, order_asc. rewrite !merge_sort_Permutation.
    rewrite list_filter_filter.
    rewrite (list_filter_iff (fun x => row_fid r <= row_fid x)
               (fun x => row_fid r <= row_fid x /\ fid <= row_fid x)); [done|].
    intros x. lia.
Qed.

End Page.

(** X22.  Following [nextfid].  On a table whose fids are distinct and for
    a positive limit: when the first row of the page at [fid] carries a
    [nextfid], the page requested at that fid holds exactly the [limit]
    rows that follow the first page among the rows at or after [fid]; no
    row is skipped and none is repeated. *)
Theorem next_page_follows (t : Table) (fid limit fid' : Z)
  (x : TableRow * value * value) :
  NoDup (row_fid <$> table_rows t) ->
  0 < limit ->
  run_default t fid limit !! 0%nat = Some x ->
  x.2 = VInt64 fid' ->
  (fun x => x.1.1) <$> run_default t fid' limit
  = take (Z.to_nat limit) (drop (Z.to_nat limit) (rows_from t fid)).
Proof.
  intros Hnd Hpos Hx Hnext.
  rewrite (run_default_lead t fid limit Hnd ltac:(lia) x Hpos Hx) in Hnext.
  destruct (rows_from t fid !! Z.to_nat limit) as [r|] eqn:Hr; [|done].
  injection Hnext as <-.
  rewrite (run_default_rows t (row_fid r) limit Hnd ltac:(lia)).
  by rewrite (rows_from_next t fid limit Hnd r Hr).
Qed.

Lemma addresses_fids_distinct : NoDup (row_fid <$> table_rows Fixtures.addresses).
Proof. apply (bool_decide_unpack _). by vm_compute. Qed.


Lemma run_default_nextfid_witness :
  VInt64 5 = match rows_from Fixtures.addresses 3 !! 2%nat with
             | Some r => VInt64 (row_fid r)
             | None => VNil
             end.
Proof.
  apply (run_default_nextfid Fixtures.addresses 3 2 addresses_fids_distinct ltac:(lia)
           (mkTableRow 3 [VBytes [Byte.x01]; VString "Dam"], VInt64 1, VInt64 5)).
  - lia.
  - by vm_compute.
Defined.

Lemma next_page_follows_witness :
  (fun x => x.1.1) <$> run_default Fixtures.addresses 5 2
  = take 2 (drop 2 (rows_from Fixtures.addresses 3)).
Proof.
  apply (next_page_follows Fixtures.addresses 3 2 5
           (mkTableRow 3 [VBytes [Byte.x01]; VString "Dam"], VInt64 1, VInt64 5)
           addresses_fids_distinct).
  - lia.
  - by vm_compute.
  - reflexivity.
Defined.

(** The integer read from a column that comes last and whose name occurs
    nowhere before. *)
Lemma columnInt64_last (columns : list string) (values : list value)
  (name : string) (v : value) :
  length columns = length values -> name ∉ columns ->
  Mapper.columnInt64 (columns ++ [name]) (values ++ [v]) name
  = match v with VInt64 z => z | _ => 0 end.
Proof.
  intros Hlen Hnot. unfold Mapper.columnInt64.
  assert (Hfind : list_find (fun c => c = name) (columns ++ [name])
                  = Some (length columns, name)).
  { apply list_find_Some. split; [|split; [done|]].
    - by rewrite lookup_app_r, Nat.sub_diag by lia.
    - intros j y Hj Hlt ->. rewrite lookup_app_l in Hj by lia.
      by apply list_elem_of_lookup_2 in Hj. }
  rewrite Hfind, Hlen. by rewrite lookup_app_r, Nat.sub_diag by lia.
Qed.

Section Datasource.

Context {Geometry Extent : Type}.
Variable readGpkgGeometry : list byte -> Geometry * Go.error.
Variable wktEncodeString : Extent -> string * Go.error.
Variable MinX MinY MaxX MaxY : Extent -> Z.

(** X23.  What GetFeatures returns for a page.  On a SQLite backend, for a
    table with one id column, distinct fids and rows as long as the column
    list, a request without bounding box and with a positive limit: when
    GetFeatures returns a collection, its features are, in order, the first
    [limit] rows at or after the cursor's fid (so at most [limit] of them),
    NumberReturned is their number, and the Next cursor encodes, under the
    request's checksum, the fid of the row that follows the page (0, and
    HasNext false, when none follows). *)
Theorem GetFeatures_page (db : gmap string Table)
  (bbox_rows : Query -> gmap string value -> Rows * Go.error)
  (tables : gmap string featureTable) (collection : string)
  (cursor : Cursor.DecodedCursor) (limit crs : Z)
  (table : featureTable) (t : Table)
  (fc : Mapper.FeatureCollection Geometry) (cursors : Cursor.Cursors) :
  tables !! collection = Some table ->
  db !! TableName table = Some t ->
  NoDup (row_fid <$> table_rows t) ->
  NoDup (fid_column t :: rest_columns t ++ ["prevfid"; "nextfid"]%string) ->
  Forall (fun r => length (row_rest r) = length (rest_columns t)) (table_rows t) ->
  0 < limit ->
  GetFeatures readGpkgGeometry wktEncodeString MinX MinY MaxX MaxY
    {| backend := sqlite db bbox_rows; fidColumn := fid_column t;
       featureTableByCollectionID := tables |}
    collection {| OCursor := cursor; Limit := limit; Bbox := None; BboxCrs := crs |}
  = Go.Ok (Some fc, cursors, None) ->
  let page := take (Z.to_nat limit) (rows_from t (Cursor.FID cursor)) in
  let nextfid := match rows_from t (Cursor.FID cursor) !! Z.to_nat limit with
                 | Some r => row_fid r
                 | None => 0
                 end in
  Mapper.ID <$> Mapper.Features fc = row_fid <$> page /\
  Mapper.NumberReturned fc = Z.of_nat (length page) /\
  Mapper.NumberReturned fc <= limit /\
  Cursor.CNext cursors = Cursor.encodeCursor nextfid (Cursor.FiltersChecksum cursor) /\
  Cursor.HasNext cursors = (0 <? nextfid).
Proof.
  intros Ht Hdb Hnd Hcols Hwf Hpos. unfold GeoPackage.GetFeatures.
  cbn [featureTableByCollectionID backend fidColumn]. rewrite Ht.
  unfold makeFeaturesQuery, makeDefaultQuery. cbn [Bbox Limit OCursor fidColumn].
  cbn [sqlite PrepareNamed Queryx]. rewrite Hdb. rewrite bool_decide_true by done.
  unfold int_arg. rewrite lookup_insert_eq.
  rewrite lookup_insert_ne by done. rewrite lookup_singleton_eq.
  set (res := run_default t (Cursor.FID cursor) limit).
  set (rows := rows_of_default t res).
  unfold Mapper.MapRowsToFeatures3. unfold mbind, result_bind.
  destruct (Mapper.MapRowsToFeatures (fid_column t) (GeometryColumnName table)
              readGpkgGeometry rows) as [[features [err|]]|msg] eqn:Hmap;
    cbn [Go.bind]; [done| |done].
  destruct (Mapper.prevNextOf rows) as [nextPrev|] eqn:Hpn; [|done].
  intros [= <- <-]. cbn zeta. cbn [Mapper.Features Mapper.NumberReturned].
  apply MapperProps.MapRowsToFeatures_rows in Hmap as [Hlen Hall].
  assert (Hres : (fun x => x.1.1) <$> res
                 = take (Z.to_nat limit) (rows_from t (Cursor.FID cursor))).
  { subst res. apply run_default_rows; [done|lia]. }
  apply NoDup_cons in Hcols as [Hfid Hcols].
  assert (Hids : Mapper.ID <$> features = row_fid <$> ((fun x => x.1.1) <$> res)).
  { subst rows. cbn [Scans Columns rows_of_default] in Hall.
    clear -Hall Hfid. revert features Hall.
    induction res as [|x res IH]; intros features Hall.
    - by apply Forall2_nil_inv_r in Hall as ->.
    - cbn [map] in Hall. apply Forall2_cons_inv_r in Hall as (f & fs & Hf & Hfs & ->).
      cbn [fmap list_fmap]. f_equal; [|by apply IH].
      cbn [fst] in Hf. by apply MapperProps.mapColumnsToFeature_ID in Hf. }
  rewrite Hids, Hres. split; [done|].
  assert (Hnum : length features = length (take (Z.to_nat limit)
                                     (rows_from t (Cursor.FID cursor)))).
  { rewrite <- Hres, length_fmap, Hlen. subst rows. cbn [Scans rows_of_default].
    by rewrite length_map. }
  rewrite Hnum. split; [done|]. split; [rewrite length_take; lia|].
  assert (Hnext : Cursor.Next nextPrev
                  = match rows_from t (Cursor.FID cursor) !! Z.to_nat limit with
                    | Some r => row_fid r
                    | None => 0
                    end).
  { unfold Mapper.prevNextOf in Hpn. subst rows. cbn [Scans Columns rows_of_default] in Hpn.
    destruct res as [|x res'] eqn:Hr; [done|]. cbn [map] in Hpn.
    injection Hpn as <-. cbn [Cursor.Next].
    assert (Hrow : x.1.1 ∈ table_rows t).
    { assert (Hin : x.1.1 ∈ take (Z.to_nat limit) (rows_from t (Cursor.FID cursor)))
        by (rewrite <- Hres; apply list_elem_of_here).
      apply (subseteq_take (Z.to_nat limit)) in Hin.
      by apply in_rows_from in Hin as [_ ?]. }
    rewrite Forall_forall in Hwf. specialize (Hwf _ Hrow).
    replace (fid_column t :: rest_columns t ++ ["prevfid"; "nextfid"]%string)
      with ((fid_column t :: rest_columns t ++ ["prevfid"%string]) ++ ["nextfid"%string])
      by (cbn [app]; by rewrite <- app_assoc).
    replace (VInt64 (row_fid x.1.1) :: row_rest x.1.1 ++ [x.1.2; x.2])
      with ((VInt64 (row_fid x.1.1) :: row_rest x.1.1 ++ [x.1.2]) ++ [x.2])
      by (cbn [app]; by rewrite <- app_assoc).
    rewrite columnInt64_last.
    - assert (Hx0 : run_default t (Cursor.FID cursor) limit !! 0%nat = Some x)
        by (change (res !! 0%nat = Some x); by rewrite Hr).
      rewrite (run_default_lead t (Cursor.FID cursor) limit Hnd ltac:(lia) x Hpos Hx0).
      by destruct (rows_from t (Cursor.FID cursor) !! Z.to_nat limit).
    - cbn [length]. rewrite !length_app. cbn [length]. lia.
    - intros Hin. apply elem_of_cons in Hin as [Heq|Hin].
      + apply Hfid. rewrite <- Heq. apply elem_of_app. right.
        apply list_elem_of_further, list_elem_of_here.
      + apply NoDup_app in Hcols as (_ & Hdisj & _).
        apply elem_of_app in Hin as [Hin|Hin].
        * apply (Hdisj _ Hin). apply list_elem_of_further, list_elem_of_here.
        * apply elem_of_cons in Hin as [Hin|Hin]; [discriminate|].
          by apply elem_of_nil in Hin. }
  unfold Cursor.NewCursors. cbn [Cursor.CNext Cursor.HasNext]. by rewrite Hnext.
Qed.

(** X24.  GetFeature returns the feature that was asked for: on a SQLite
    backend, for a table with one id column, a feature returned for
    [featureID] has that id. *)
Theorem GetFeature_returns_requested (db : gmap string Table)
  (bbox_rows : Query -> gmap string value -> Rows * Go.error)
  (tables : gmap string featureTable) (collection : string) (featureID : Z)
  (table : featureTable) (t : Table) (feature : Mapper.Feature Geometry) :
  tables !! collection = Some table ->
  db !! TableName table = Some t ->
  fid_column t ∉ rest_columns t ->
  GetFeature readGpkgGeometry
    {| backend := sqlite db bbox_rows; fidColumn := fid_column t;
       featureTableByCollectionID := tables |}
    collection featureID
  = Go.Ok (Some feature, None) ->
  Mapper.ID feature = featureID.
Proof.
  intros Ht Hdb Hfid. unfold GeoPackage.GetFeature.
  cbn [featureTableByCollectionID backend fidColumn sqlite PrepareNamed Queryx].
  rewrite Ht, Hdb. rewrite bool_decide_true by done.
  unfold int_arg. rewrite lookup_singleton_eq.
  set (res := run_feature t featureID).
  assert (Hres : Forall (fun r => row_fid r = featureID) res).
  { subst res. unfold run_feature, sql_limit. cbn [Z.ltb Z.compare].
    apply Forall_take. apply Forall_forall. intros r Hr.
    by apply list_elem_of_filter in Hr as [? _]. }
  unfold Mapper.MapRowsToFeatures3. unfold mbind, result_bind.
  destruct (Mapper.MapRowsToFeatures (fid_column t) (GeometryColumnName table)
              readGpkgGeometry (rows_of_table t res)) as [[features [err|]]|msg] eqn:Hmap;
    cbn [Go.bind]; [done| |done].
  apply MapperProps.MapRowsToFeatures_rows in Hmap as [_ Hall].
  cbn [Scans Columns rows_of_table] in Hall.
  destruct features as [|f [|f' fs]]; cbn [length Nat.eqb negb]; [done| |done].
  unfold Go.index. cbn [lookup list_lookup Go.bind]. intros [= <-].
  destruct res as [|r res']; [by apply Forall2_nil_inv_r in Hall|].
  cbn [map] in Hall. apply Forall2_cons_1 in Hall as [Hf _]. cbn [fst] in Hf.
  apply MapperProps.mapColumnsToFeature_ID in Hf; [|done].
  apply Forall_cons in Hres as [Hr _]. congruence.
Qed.

End Datasource.

Lemma GetFeatures_page_witness :
  let cs := list_byte_of_string "limit=2" in
  exists fc cursors,
    Fixtures.GetFeatures Fixtures.gpkg "addresses"
      {| OCursor := Cursor.mkDecodedCursor 3 cs; Limit := 2; Bbox := None;
         BboxCrs := 28992 |}
    = Go.Ok (Some fc, cursors, None) /\
    Mapper.ID <$> Mapper.Features fc = [3; 4] /\
    Mapper.NumberReturned fc = 2 /\
    Cursor.CNext cursors = Cursor.encodeCursor 5 cs /\
    Cursor.HasNext cursors = true.
Proof.
  intros cs. eexists _, _. split; [by vm_compute|].
  refine (match GetFeatures_page Fixtures.readGpkgGeometry Fixtures.wktEncodeString
                  (fun e => e.1.1.1) (fun e => e.1.1.2) (fun e => e.1.2) (fun e => e.2)
                  Fixtures.db Fixtures.no_spatialite
                  (featureTableByCollectionID Fixtures.gpkg) "addresses"
                  (Cursor.mkDecodedCursor 3 cs) 2 28992
                  (mkFeatureTable "addresses_tbl" "features" "addresses" "" "geom"
                     "POINT" 28992)
                  Fixtures.addresses _ _ _ _ _ _ _ _ _ with
          | conj Hids (conj Hnum (conj _ (conj Hnext Hhas))) =>
              conj Hids (conj Hnum (conj Hnext Hhas))
          end).
  - reflexivity.
  - reflexivity.
  - exact addresses_fids_distinct.
  - apply (bool_decide_unpack _). by vm_compute.
  - apply (bool_decide_unpack _). by vm_compute.
  - lia.
  - by vm_compute.
Defined.

Lemma GetFeature_returns_requested_witness :
  exists feature,
    Fixtures.GetFeature Fixtures.gpkg "addresses" 4 = Go.Ok (Some feature, None) /\
    Mapper.ID feature = 4.
Proof.
  eexists. split; [by vm_compute|].
  refine (GetFeature_returns_requested Fixtures.readGpkgGeometry
            Fixtures.db Fixtures.no_spatialite
            (featureTableByCollectionID Fixtures.gpkg) "addresses" 4
            (mkFeatureTable "addresses_tbl" "features" "addresses" "" "geom"
               "POINT" 28992)
            Fixtures.addresses _ _ _ _ _).
  - reflexivity.
  - reflexivity.
  - apply (bool_decide_unpack _). by vm_compute.
  - by vm_compute.
Defined.

(** The statement on the table of ten addresses, each row as its fid with
    [prevfid] and [nextfid]: a page in the middle, the last page, and what
    SQLite returns for the negative limits -1 and -2. *)
Example default_statement_rows :
  let rows fid limit :=
    (fun x => (row_fid x.1.1, x.1.2, x.2)) <$> run_default Fixtures.addresses fid limit in
  rows 8 2 = [(8, VInt64 6, VInt64 10); (9, VInt64 7, VNil)] /\
  rows 9 2 = [(9, VInt64 7, VNil); (10, VInt64 8, VNil)] /\
  rows 8 (-1) = [] /\
  rows 8 (-2) = [(8, VNil, VInt64 6); (9, VNil, VInt64 7); (10, VNil, VInt64 8)].
Proof. by vm_compute. Qed.

End PaginationProps.

Module FeaturesProps.
Import Features.

Section Handler.

Context {Geometry Extent Metadata : Type}.
Variable cfg : LimitConfig.
Variable collectionsMetadata : gmap string Metadata.
Variable checksum : gmap string (list string) -> list byte.
Variable validateNoUnknownParams : gmap string (list string) -> Go.error.
Variable NegotiateFormat : Request -> string.
Variable ParseFloat : string -> Z * Go.error.
Variable mkExtent : Z -> Z -> Z -> Z -> Extent.

Variable readGpkgGeometry : list byte -> Geometry * Go.error.
Variable wktEncodeString : Extent -> string * Go.error.
Variable MinX MinY MaxX MaxY : Extent -> Z.

Local Abbreviation GetFeatures :=
  (GeoPackage.GetFeatures readGpkgGeometry wktEncodeString MinX MinY MaxX MaxY).
Local Abbreviation CollectionContent :=
  (CollectionContent cfg collectionsMetadata checksum validateNoUnknownParams
     NegotiateFormat ParseFloat mkExtent).

(** What the request parser returns for [limit=0] and neither [bbox] nor
    [datetime], under a maximum that is not negative. *)
Lemma parse_limit_0 (r : Request) :
  Url.Get (Query r) limitParam = "0"%string ->
  Url.Get (Query r) bboxParam = ""%string ->
  Url.Get (Query r) dateTimeParam = ""%string ->
  0 <= Max cfg ->
  parseFeatureCollectionRequest cfg ParseFloat mkExtent r
  = (collectionId r, Url.Get (Query r) cursorParam, 0, None, None).
Proof.
  intros Hl Hb Hd Hmax. unfold parseFeatureCollectionRequest.
  rewrite (LimitProps.parseLimit_present cfg (Query r) 0 None)
    by (rewrite Hl; done).
  cbn zeta. rewrite (proj2 (Z.ltb_ge (Max cfg) 0)) by lia. cbn [Z.ltb Z.compare].
  unfold parseBbox, parseDateTime. rewrite Hb, Hd. reflexivity.
Qed.

(** C3, as the code behaves.  A feature-collection request with limit = 0
    and no bounding box, otherwise acceptable (known parameters, no
    datetime, a configured collection whose table is in the GeoPackage), is
    answered 404 Not Found: the statement is run with limit 0 and yields
    no row, the mapper has no prev/next pair, the datasource returns no
    collection and no error.  No page and no cursor are produced, whatever
    the table holds. *)
Theorem C3_limit_0_is_not_found
  (db : gmap string GeoPackage.Table)
  (bbox_rows : GeoPackage.Query -> gmap string Sql.value -> Sql.Rows * Go.error)
  (fidCol : string) (tables : gmap string GeoPackage.featureTable)
  (r : Request) (m : Metadata) (table : GeoPackage.featureTable) (t : GeoPackage.Table) :
  Url.Get (Query r) limitParam = "0"%string ->
  Url.Get (Query r) bboxParam = ""%string ->
  Url.Get (Query r) dateTimeParam = ""%string ->
  0 <= Max cfg ->
  validateNoUnknownParams (Query r) = None ->
  collectionsMetadata !! collectionId r = Some m ->
  tables !! collectionId r = Some table ->
  db !! GeoPackage.TableName table = Some t ->
  GeoPackage.fid_column t = fidCol ->
  CollectionContent
    (GetFeatures {| GeoPackage.backend := GeoPackage.sqlite db bbox_rows;
                    GeoPackage.fidColumn := fidCol;
                    GeoPackage.featureTableByCollectionID := tables |})
    r
  = Go.Ok NotFound.
Proof.
  intros Hl Hb Hd Hmax Hv Hm Ht Hdb Hfid. unfold Features.CollectionContent.
  rewrite parse_limit_0 by done. rewrite Hv, Hm.
  destruct (CursorProps.Decode_shape (Url.Get (Query r) cursorParam) (checksum (Query r)))
    as (fid & -> & _).
  unfold mbind, result_bind. cbn [Go.bind].
  destruct (GeoPackageProps.GetFeatures_limit_0 readGpkgGeometry wktEncodeString
              MinX MinY MaxX MaxY db bbox_rows fidCol tables (collectionId r)
              (Cursor.mkDecodedCursor fid (checksum (Query r))) 28992)
    as (err & -> & Herr).
  by rewrite (Herr table t Ht Hdb Hfid).
Qed.

Lemma errors_Join_Some (errs : list Go.error) (e : string) :
  Some e ∈ errs -> errors_Join errs <> None.
Proof.
  intros Hin. unfold errors_Join.
  destruct (omap id errs) as [|x xs] eqn:Ho; [|done].
  assert (e ∈ omap id errs) as Hx by (apply list_elem_of_omap; by exists (Some e)).
  rewrite Ho in Hx. by apply elem_of_nil in Hx.
Qed.

Lemma Split_length (s : list byte) (sep : byte) :
  length (Bytes.Split s sep) = S (length (filter (fun b => b = sep) s)).
Proof.
  induction s as [|b s IH]; [done|]. cbn [Bytes.Split]. rewrite filter_cons.
  destruct (decide (b = sep)) as [->|Hne].
  - rewrite BytesProps.byte_eqb_refl. cbn [length]. by rewrite IH.
  - rewrite BytesProps.byte_eqb_neq by done.
    destruct (Bytes.Split s sep) as [|p ps] eqn:Hs; cbn [length] in *; lia.
Qed.

(** The handler answers 400 as soon as one of the three parsers reports an
    error; nothing else is looked at. *)
Lemma parse_error_is_bad_request
  (ds : string -> GeoPackage.FeatureOptions Extent ->
        Go.result (option (Mapper.FeatureCollection Geometry) * Cursor.Cursors * Go.error))
  (r : Request) (e : string) :
  Some e ∈ [(parseLimit cfg (Query r)).2; (parseBbox ParseFloat mkExtent (Query r)).2;
            parseDateTime (Query r)] ->
  exists msg, CollectionContent ds r = Go.Ok (Error msg Http.StatusBadRequest).
Proof.
  intros Hin. unfold Features.CollectionContent, parseFeatureCollectionRequest.
  destruct (parseLimit cfg (Query r)) as [limit limitErr].
  destruct (parseBbox ParseFloat mkExtent (Query r)) as [bbox bboxErr].
  cbn [snd] in Hin. apply errors_Join_Some in Hin.
  destruct (errors_Join _) as [msg|]; [by eauto|done].
Qed.

(** X6.  The datetime parameter is not supported: a request that carries a
    non-empty datetime is answered 400, whatever its other parameters, its
    collection and the datasource. *)
Theorem datetime_is_bad_request
  (ds : string -> GeoPackage.FeatureOptions Extent ->
        Go.result (option (Mapper.FeatureCollection Geometry) * Cursor.Cursors * Go.error))
  (r : Request) :
  Url.Get (Query r) dateTimeParam <> ""%string ->
  exists msg, CollectionContent ds r = Go.Ok (Error msg Http.StatusBadRequest).
Proof.
  intros Hd. apply parse_error_is_bad_request
    with (e := "datetime param is currently not supported"%string).
  unfold parseDateTime. rewrite bool_decide_false by done. cbn [negb].
  do 2 apply list_elem_of_further. apply list_elem_of_here.
Qed.

(** X7.  A bbox needs exactly four comma-separated values: a non-empty
    bbox parameter whose number of commas is not three is answered 400,
    before the collection is looked up or the datasource is called. *)
Theorem bbox_arity_is_bad_request
  (ds : string -> GeoPackage.FeatureOptions Extent ->
        Go.result (option (Mapper.FeatureCollection Geometry) * Cursor.Cursors * Go.error))
  (r : Request) :
  Url.Get (Query r) bboxParam <> ""%string ->
  length (filter (fun b => b = Byte.x2c)
            (list_byte_of_string (Url.Get (Query r) bboxParam))) <> 3%nat ->
  exists msg, CollectionContent ds r = Go.Ok (Error msg Http.StatusBadRequest).
Proof.
  intros Hb Hn. eapply parse_error_is_bad_request.
  unfold parseBbox. rewrite bool_decide_false by done.
  unfold split_commas. rewrite length_map, Split_length.
  destruct (Nat.eqb_spec (S (length (filter (fun b => b = Byte.x2c)
              (list_byte_of_string (Url.Get (Query r) bboxParam))))) 4) as [He|_];
    [lia|]. cbn [negb snd]. apply list_elem_of_further, list_elem_of_here.
Qed.

(** X8.  An extent is returned only for a parameter made of exactly four
    comma-separated values that [ParseFloat] all accepts; its coordinates
    are the four values in the order given (minx, miny, maxx, maxy). *)
Theorem parseBbox_extent (params : gmap string (list string)) (extent : Extent) :
  parseBbox ParseFloat mkExtent params = (Some extent, None) ->
  exists s0 s1 s2 s3 a b c d,
    split_commas (Url.Get params bboxParam) = [s0; s1; s2; s3] /\
    ParseFloat s0 = (a, None) /\ ParseFloat s1 = (b, None) /\
    ParseFloat s2 = (c, None) /\ ParseFloat s3 = (d, None) /\
    extent = mkExtent a b c d.
Proof.
  unfold parseBbox. case_bool_decide; [done|].
  destruct (split_commas (Url.Get params bboxParam)) as [|s0 [|s1 [|s2 [|s3 [|s4 l]]]]];
    try done.
  cbn [length Nat.eqb negb parseFloats].
  destruct (ParseFloat s0) as [a [e0|]] eqn:Hf0; [done|].
  destruct (ParseFloat s1) as [b [e1|]] eqn:Hf1; [done|].
  destruct (ParseFloat s2) as [c [e2|]] eqn:Hf2; [done|].
  destruct (ParseFloat s3) as [d [e3|]] eqn:Hf3; [done|].
  intros [= <-]. by exists s0, s1, s2, s3, a, b, c, d.
Qed.

(** X9.  A collection that is not configured is answered 404 without the
    datasource being asked: for a request that parses and has no unknown
    parameter, the response is Not Found for every datasource. *)
Theorem unknown_collection_is_not_found
  (ds : string -> GeoPackage.FeatureOptions Extent ->
        Go.result (option (Mapper.FeatureCollection Geometry) * Cursor.Cursors * Go.error))
  (r : Request) :
  (parseFeatureCollectionRequest cfg ParseFloat mkExtent r).2 = None ->
  validateNoUnknownParams (Query r) = None ->
  collectionsMetadata !! collectionId r = None ->
  CollectionContent ds r = Go.Ok NotFound.
Proof.
  intros Hp Hv Hm. unfold Features.CollectionContent.
  destruct (parseFeatureCollectionRequest cfg ParseFloat mkExtent r)
    as [[[[collectionID encodedCursor] limit] bbox] err] eqn:Hparse.
  cbn [snd] in Hp. subst err. rewrite Hv.
  assert (collectionID = collectionId r) as ->.
  { unfold parseFeatureCollectionRequest in Hparse.
    destruct (parseLimit cfg (Query r)), (parseBbox ParseFloat mkExtent (Query r)).
    by injection Hparse as <- _ _ _ _. }
  by rewrite Hm.
Qed.

(** X10.  An error of the datasource never reaches the client: for an
    acceptable request on a configured collection, a datasource that
    returns an error is answered 500 with the fixed message "failed to
    retrieve feature collection <id>", whatever the error says. *)
Theorem datasource_error_is_sanitized
  (ds : string -> GeoPackage.FeatureOptions Extent ->
        Go.result (option (Mapper.FeatureCollection Geometry) * Cursor.Cursors * Go.error))
  (r : Request) (m : Metadata) :
  (parseFeatureCollectionRequest cfg ParseFloat mkExtent r).2 = None ->
  validateNoUnknownParams (Query r) = None ->
  collectionsMetadata !! collectionId r = Some m ->
  (forall opts, exists fc cursors err,
     ds (collectionId r) opts = Go.Ok (fc, cursors, Some err)) ->
  CollectionContent ds r
  = Go.Ok (Error ("failed to retrieve feature collection " ++ collectionId r)%string
                 Http.StatusInternalServerError).
Proof.
  intros Hp Hv Hm Hds. unfold Features.CollectionContent.
  destruct (parseFeatureCollectionRequest cfg ParseFloat mkExtent r)
    as [[[[collectionID encodedCursor] limit] bbox] err] eqn:Hparse.
  cbn [snd] in Hp. subst err. rewrite Hv.
  assert (collectionID = collectionId r) as ->.
  { unfold parseFeatureCollectionRequest in Hparse.
    destruct (parseLimit cfg (Query r)), (parseBbox ParseFloat mkExtent (Query r)).
    by injection Hparse as <- _ _ _ _. }
  rewrite Hm.
  destruct (CursorProps.Decode_shape encodedCursor (checksum (Query r))) as (fid & -> & _).
  unfold mbind, result_bind. cbn [Go.bind].
  destruct (Hds {| GeoPackage.OCursor := Cursor.mkDecodedCursor fid (checksum (Query r));
                   GeoPackage.Limit := limit; GeoPackage.Bbox := bbox;
                   GeoPackage.BboxCrs := 28992 |}) as (fc & cursors & e & ->).
  by destruct fc.
Qed.

(** Once the request has been accepted and the collection is configured,
    the handler asks the datasource, with some options, and what the
    datasource does decides the answer: its panic is the handler's, its
    error is answered 500 with the fixed message. *)
Lemma CollectionContent_reaches_datasource
  (ds : string -> GeoPackage.FeatureOptions Extent ->
        Go.result (option (Mapper.FeatureCollection Geometry) * Cursor.Cursors * Go.error))
  (r : Request) (m : Metadata) :
  (parseFeatureCollectionRequest cfg ParseFloat mkExtent r).2 = None ->
  validateNoUnknownParams (Query r) = None ->
  collectionsMetadata !! collectionId r = Some m ->
  exists opts,
    (forall msg, ds (collectionId r) opts = Go.Panic msg ->
       CollectionContent ds r = Go.Panic msg) /\
    (forall fc cursors err, ds (collectionId r) opts = Go.Ok (fc, cursors, Some err) ->
       CollectionContent ds r
       = Go.Ok (Error ("failed to retrieve feature collection " ++ collectionId r)%string
                      Http.StatusInternalServerError)).
Proof.
  intros Hp Hv Hm. unfold Features.CollectionContent.
  destruct (parseFeatureCollectionRequest cfg ParseFloat mkExtent r)
    as [[[[collectionID encodedCursor] limit] bbox] err] eqn:Hparse.
  cbn [snd] in Hp. subst err. rewrite Hv.
  assert (collectionID = collectionId r) as ->.
  { unfold parseFeatureCollectionRequest in Hparse.
    destruct (parseLimit cfg (Query r)), (parseBbox ParseFloat mkExtent (Query r)).
    by injection Hparse as <- _ _ _ _. }
  rewrite Hm.
  destruct (CursorProps.Decode_shape encodedCursor (checksum (Query r))) as (fid & -> & _).
  unfold mbind, result_bind. cbn [Go.bind].
  eexists. split.
  - by intros msg ->.
  - intros fc cursors e ->. cbn [Go.bind]. by destruct fc.
Qed.

(** C9, as the code behaves.  The id column is converted with an unchecked
    type assertion.  In a row whose id column holds a value that is neither
    nil nor an int64, mapColumnsToFeature panics when the columns before
    the id column are mapped without error; when one of them fails to map
    (a geometry column that holds no blob, a value of an unexpected type)
    it returns that error and the assertion is not reached.  For a request
    that reaches the datasource, on a backend that prepares the statement
    and answers with rows among which such a row comes after rows that are
    mapped without error: in the first case the panic goes through
    MapRowsToFeatures and GetFeatures and ends the handler, no response is
    produced; in the second case the request is answered 500 with the
    sanitized message. *)
Theorem C9_fid_type_assertion :
  (forall (fidColumn geomColumn : string) (feature feature' : Mapper.Feature Geometry)
          (pre post : list string) (values : list Sql.value) (v : Sql.value),
     values !! length pre = Some v ->
     v <> Sql.VNil -> (forall z, v <> Sql.VInt64 z) ->
     (Mapper.mapColumnsToFeature fidColumn geomColumn readGpkgGeometry feature pre values
      = Go.Ok (feature', None) ->
      Mapper.mapColumnsToFeature fidColumn geomColumn readGpkgGeometry feature
        (pre ++ fidColumn :: post) values
      = Go.Panic "interface conversion: interface {} is not int64") /\
     (forall err,
      Mapper.mapColumnsToFeature fidColumn geomColumn readGpkgGeometry feature pre values
      = Go.Ok (feature', Some err) ->
      Mapper.mapColumnsToFeature fidColumn geomColumn readGpkgGeometry feature
        (pre ++ fidColumn :: post) values
      = Go.Ok (feature', Some err))) /\
  (forall (g : GeoPackage.GeoPackage) (r : Request) (m : Metadata)
          (table : GeoPackage.featureTable) (rows : Sql.Rows)
          (before more : list (list Sql.value * Go.error))
          (fs : list (Mapper.Feature Geometry)) (feature' : Mapper.Feature Geometry)
          (pre post : list string) (values : list Sql.value) (v : Sql.value),
     (parseFeatureCollectionRequest cfg ParseFloat mkExtent r).2 = None ->
     validateNoUnknownParams (Query r) = None ->
     collectionsMetadata !! collectionId r = Some m ->
     GeoPackage.featureTableByCollectionID g !! collectionId r = Some table ->
     (forall bbox, (wktEncodeString bbox).2 = None) ->
     (forall q, GeoPackage.PrepareNamed (GeoPackage.backend g) q = None) ->
     (forall q args, GeoPackage.Queryx (GeoPackage.backend g) q args = (rows, None)) ->
     Sql.ColumnsErr rows = None ->
     Sql.Columns rows = pre ++ GeoPackage.fidColumn g :: post ->
     Sql.Scans rows = before ++ (values, None) :: more ->
     Mapper.mapRowsLoop (GeoPackage.fidColumn g) (GeoPackage.GeometryColumnName table)
       readGpkgGeometry (Sql.Columns rows) before [] = Go.Ok (fs, None) ->
     values !! length pre = Some v ->
     v <> Sql.VNil -> (forall z, v <> Sql.VInt64 z) ->
     (Mapper.mapColumnsToFeature (GeoPackage.fidColumn g)
        (GeoPackage.GeometryColumnName table) readGpkgGeometry Mapper.newFeature pre values
      = Go.Ok (feature', None) ->
      Mapper.MapRowsToFeatures (GeoPackage.fidColumn g)
        (GeoPackage.GeometryColumnName table) readGpkgGeometry rows
      = Go.Panic "interface conversion: interface {} is not int64" /\
      (forall options,
         GetFeatures g (collectionId r) options
         = Go.Panic "interface conversion: interface {} is not int64") /\
      CollectionContent (GetFeatures g) r
      = Go.Panic "interface conversion: interface {} is not int64") /\
     (forall err,
      Mapper.mapColumnsToFeature (GeoPackage.fidColumn g)
        (GeoPackage.GeometryColumnName table) readGpkgGeometry Mapper.newFeature pre values
      = Go.Ok (feature', Some err) ->
      CollectionContent (GetFeatures g) r
      = Go.Ok (Error ("failed to retrieve feature collection " ++ collectionId r)%string
                     Http.StatusInternalServerError))).
Proof.
  split.
  - intros fidColumn geomColumn feature feature' pre post values v Hv Hnil Hint. split.
    + intros Hpre. by eapply MapperProps.mapColumnsToFeature_fid_panics.
    + intros err Hpre. by apply MapperProps.mapColumnsToFeature_pre_error.
  - intros g r m table rows before more fs feature' pre post values v
      Hp Hval Hm Ht Hwkt Hprep Hq Hce Hcols Hscans Hbefore Hv Hnil Hint.
    destruct (CollectionContent_reaches_datasource (GetFeatures g) r m Hp Hval Hm)
      as (opts & Hpanic & Herror).
    split.
    + intros Hpre.
      assert (Hrow : Mapper.mapColumnsToFeature (GeoPackage.fidColumn g)
                (GeoPackage.GeometryColumnName table) readGpkgGeometry Mapper.newFeature
                (Sql.Columns rows) values
              = Go.Panic "interface conversion: interface {} is not int64").
      { rewrite Hcols. by eapply MapperProps.mapColumnsToFeature_fid_panics. }
      assert (Hrows : Mapper.MapRowsToFeatures (GeoPackage.fidColumn g)
                (GeoPackage.GeometryColumnName table) readGpkgGeometry rows
              = Go.Panic "interface conversion: interface {} is not int64")
        by (by eapply MapperProps.MapRowsToFeatures_row_panics).
      assert (Hds : forall options, GetFeatures g (collectionId r) options
                = Go.Panic "interface conversion: interface {} is not int64").
      { intros options.
        exact (proj1 (GeoPackageProps.GetFeatures_mapper_endings readGpkgGeometry
                        wktEncodeString MinX MinY MaxX MaxY g (collectionId r) options
                        table rows Ht Hwkt Hprep Hq) _ Hrows). }
      split; [done|]. split; [done|]. by apply Hpanic.
    + intros err Hpre.
      assert (Hrow : Mapper.mapColumnsToFeature (GeoPackage.fidColumn g)
                (GeoPackage.GeometryColumnName table) readGpkgGeometry Mapper.newFeature
                (Sql.Columns rows) values
              = Go.Ok (feature', Some err)).
      { rewrite Hcols. by apply MapperProps.mapColumnsToFeature_pre_error. }
      assert (Hrows : Mapper.MapRowsToFeatures (GeoPackage.fidColumn g)
                (GeoPackage.GeometryColumnName table) readGpkgGeometry rows
              = Go.Ok (fs, Some err))
        by (by eapply MapperProps.MapRowsToFeatures_row_error).
      eapply Herror.
      exact (proj2 (GeoPackageProps.GetFeatures_mapper_endings readGpkgGeometry
                      wktEncodeString MinX MinY MaxX MaxY g (collectionId r) opts
                      table rows Ht Hwkt Hprep Hq) fs err Hrows).
Qed.

End Handler.

Lemma datetime_is_bad_request_witness :
  exists msg,
    Fixtures.CollectionContent
      (Fixtures.items {[ dateTimeParam := ["2023-01-01T00:00:00Z"%string] ]})
    = Go.Ok (Error msg Http.StatusBadRequest).
Proof.
  unfold Fixtures.CollectionContent. apply datetime_is_bad_request.
  by vm_compute.
Defined.

Lemma bbox_arity_is_bad_request_witness :
  exists msg,
    Fixtures.CollectionContent (Fixtures.items {[ bboxParam := ["1,2,3"%string] ]})
    = Go.Ok (Error msg Http.StatusBadRequest).
Proof.
  unfold Fixtures.CollectionContent. apply bbox_arity_is_bad_request; by vm_compute.
Defined.

Lemma parseBbox_extent_witness :
  exists s0 s1 s2 s3 a b c d,
    split_commas
      (Url.Get ({[ bboxParam := ["1,22,333,4444"%string] ]} : gmap string (list string))
         bboxParam) = [s0; s1; s2; s3] /\
    (Z.of_nat (String.length s0), @None string) = (a, None) /\
    (Z.of_nat (String.length s1), @None string) = (b, None) /\
    (Z.of_nat (String.length s2), @None string) = (c, None) /\
    (Z.of_nat (String.length s3), @None string) = (d, None) /\
    (1, 2, 3, 4) = (a, b, c, d).
Proof.
  exact (parseBbox_extent (Extent := Z * Z * Z * Z)
           (fun s => (Z.of_nat (String.length s), None))
           (fun a b c d => (a, b, c, d))
           {[ bboxParam := ["1,22,333,4444"%string] ]} (1, 2, 3, 4) eq_refl).
Defined.

Lemma unknown_collection_is_not_found_witness :
  Fixtures.CollectionContent
    {| collectionId := "parcels"; Query := {[ limitParam := ["2"%string] ]} |}
  = Go.Ok NotFound.
Proof.
  unfold Fixtures.CollectionContent. apply unknown_collection_is_not_found; by vm_compute.
Defined.

Lemma datasource_error_is_sanitized_witness :
  Features.CollectionContent (Geometry := list byte) (Extent := Z * Z * Z * Z)
    Fixtures.limits Fixtures.metadata (fun _ => []) (fun _ => None)
    (fun _ => FormatJSON) (fun _ => (0, Some "invalid syntax"%string))
    (fun a b c d => (a, b, c, d))
    (fun _ _ => Go.Ok (None, GeoPackage.noCursors, Some "disk I/O error: /data/addresses.gpkg"%string))
    (Fixtures.items ∅)
  = Go.Ok (Error "failed to retrieve feature collection addresses"
                 Http.StatusInternalServerError).
Proof.
  apply (datasource_error_is_sanitized (Geometry := list byte) (Extent := Z * Z * Z * Z)
           Fixtures.limits Fixtures.metadata) with (m := tt); try by vm_compute.
  intros opts. by eexists _, _, _.
Defined.

Section ItemHandler.

Context {Geometry : Type}.
Variable validateNoUnknownParams : gmap string (list string) -> Go.error.
Variable NegotiateFormat : Request -> string.
Variable readGpkgGeometry : list byte -> Geometry * Go.error.

Local Abbreviation Feature := (Feature validateNoUnknownParams NegotiateFormat).

(** X11.  A feature id that Atoi does not accept is answered 400 "feature
    ID must be a number", for every datasource: the datasource is not
    asked. *)
Theorem Feature_id_must_be_a_number
  (ds : string -> Z -> Go.result (option (Mapper.Feature Geometry) * Go.error))
  (r : Request) (featureId : string) :
  (Strconv.Atoi featureId).2 <> None ->
  Feature ds r featureId
  = Go.Ok (ItemError "feature ID must be a number" Http.StatusBadRequest).
Proof.
  intros Ha. unfold Features.Feature.
  destruct (Strconv.Atoi featureId) as [n [e|]]; [done|]. by destruct Ha.
Qed.

(** X12.  A feature that is not in the table is answered 404: for a
    numeric id that no row of the collection's table carries, on a SQLite
    backend, the single-feature handler returns Not Found. *)
Theorem Feature_absent_is_not_found
  (db : gmap string GeoPackage.Table)
  (bbox_rows : GeoPackage.Query -> gmap string Sql.value -> Sql.Rows * Go.error)
  (fidCol : string) (tables : gmap string GeoPackage.featureTable)
  (r : Request) (featureId : string) (n : Z)
  (table : GeoPackage.featureTable) (t : GeoPackage.Table) :
  Strconv.Atoi featureId = (n, None) ->
  validateNoUnknownParams (Query r) = None ->
  tables !! collectionId r = Some table ->
  db !! GeoPackage.TableName table = Some t ->
  GeoPackage.fid_column t = fidCol ->
  (forall row, row ∈ GeoPackage.table_rows t -> GeoPackage.row_fid row <> n) ->
  Feature
    (GeoPackage.GetFeature readGpkgGeometry
       {| GeoPackage.backend := GeoPackage.sqlite db bbox_rows;
          GeoPackage.fidColumn := fidCol;
          GeoPackage.featureTableByCollectionID := tables |})
    r featureId
  = Go.Ok ItemNotFound.
Proof.
  intros Ha Hv Ht Hdb Hfid Habs. unfold Features.Feature. rewrite Ha, Hv.
  rewrite (GeoPackageProps.GetFeature_absent readGpkgGeometry db bbox_rows fidCol tables
             (collectionId r) n table t) by done.
  reflexivity.
Qed.

End ItemHandler.

Lemma Feature_id_must_be_a_number_witness :
  Features.Feature (fun _ => None) (fun _ => FormatJSON)
    (Fixtures.GetFeature Fixtures.gpkg) (Fixtures.items ∅) "4a"
  = Go.Ok (ItemError "feature ID must be a number" Http.StatusBadRequest).
Proof. apply Feature_id_must_be_a_number. by vm_compute. Defined.

Lemma Feature_absent_is_not_found_witness :
  Features.Feature (fun _ => None) (fun _ => FormatJSON)
    (Fixtures.GetFeature Fixtures.gpkg) (Fixtures.items ∅) "40"
  = Go.Ok ItemNotFound.
Proof.
  apply (Feature_absent_is_not_found (fun _ => None) (fun _ => FormatJSON)
           Fixtures.readGpkgGeometry Fixtures.db Fixtures.no_spatialite "fid" _
           (Fixtures.items ∅) "40" 40
           (GeoPackage.mkFeatureTable "addresses_tbl" "features" "addresses" ""
              "geom" "POINT" 28992)
           Fixtures.addresses); try by vm_compute.
  intros row Hrow. apply (bool_decide_unpack _).
  revert row Hrow. apply Forall_forall. apply (bool_decide_unpack _). by vm_compute.
Defined.

Lemma C3_witness :
  Fixtures.CollectionContent (Fixtures.items {[ limitParam := ["0"%string] ]})
  = Go.Ok NotFound.
Proof.
  apply (C3_limit_0_is_not_found (Metadata := unit)) with
    (m := tt)
    (table := GeoPackage.mkFeatureTable "addresses_tbl" "features" "addresses" ""
                "geom" "POINT" 28992)
    (t := Fixtures.addresses); by vm_compute.
Defined.

(** C3 as stated fails on the table of ten addresses: the request
    [limit=0] is answered Not Found although features exist, while
    [limit=2] gets the first two features and a next cursor. *)
Lemma C3_counterexample :
  (exists row, row ∈ GeoPackage.table_rows Fixtures.addresses) /\
  Fixtures.CollectionContent (Fixtures.items {[ limitParam := ["0"%string] ]})
  = Go.Ok NotFound /\
  ~ (exists id cursors fc,
       Fixtures.CollectionContent (Fixtures.items {[ limitParam := ["0"%string] ]})
       = Go.Ok (GeoJSONFeatures id cursors fc)
       /\ Mapper.Features fc = [] /\ Cursor.HasNext cursors = true).
Proof.
  split; [|split].
  - eexists. apply list_elem_of_here.
  - by vm_compute.
  - intros (id & cursors & fc & H & _). vm_compute in H. discriminate.
Qed.

Lemma C9_witness :
  let bad := [Sql.VString "Kade"; Sql.VString "7"; Sql.VBytes [Byte.x01]] in
  let rows := Sql.mkRows None ["street"; "fid"; "geom"]%string
                [([Sql.VString "Dam"; Sql.VInt64 1; Sql.VBytes [Byte.x01]], None);
                 (bad, None)] in
  Mapper.mapColumnsToFeature "fid" "geom" Fixtures.readGpkgGeometry Mapper.newFeature
    ["street"; "fid"; "geom"]%string bad
  = Go.Panic "interface conversion: interface {} is not int64" /\
  Fixtures.CollectionContent_on (Fixtures.gpkg_answering rows) (Fixtures.items ∅)
  = Go.Panic "interface conversion: interface {} is not int64".
Proof.
  intros bad rows.
  destruct (C9_fid_type_assertion (Metadata := unit)
              Fixtures.limits Fixtures.metadata
              (fun q => list_byte_of_string (Url.Get q limitParam))
              (fun _ => None) (fun _ => FormatJSON)
              (fun _ => (0, Some "strconv.ParseFloat: invalid syntax"%string))
              (fun a b c d => (a, b, c, d))
              Fixtures.readGpkgGeometry Fixtures.wktEncodeString
              (fun e => e.1.1.1) (fun e => e.1.1.2) (fun e => e.1.2) (fun e => e.2))
    as [Hmapper Hrequest].
  pose (named := {| Mapper.ID := 0; Mapper.FGeometry := @None (list byte);
                    Mapper.Properties := {[ "street"%string := Sql.VString "Kade" ]} |}).
  split.
  - apply (proj1 (Hmapper "fid"%string "geom"%string Mapper.newFeature named
                    ["street"%string] ["geom"%string] bad (Sql.VString "7")
                    eq_refl ltac:(discriminate) ltac:(discriminate))).
    reflexivity.
  - destruct (Hrequest (Fixtures.gpkg_answering rows) (Fixtures.items ∅) tt
                (GeoPackage.mkFeatureTable "addresses_tbl" "features" "addresses" ""
                   "geom" "POINT" 28992)
                rows
                [([Sql.VString "Dam"; Sql.VInt64 1; Sql.VBytes [Byte.x01]], None)] []
                [{| Mapper.ID := 1; Mapper.FGeometry := Some [Byte.x01];
                    Mapper.Properties := {[ "street"%string := Sql.VString "Dam" ]} |}]
                named ["street"%string] ["geom"%string] bad (Sql.VString "7"))
      as [Hpanic _]; [done || by vm_compute ..|].
    exact (proj2 (proj2 (Hpanic eq_refl))).
Defined.

(** C9 as stated fails for a row whose geometry column comes before the id
    column and holds no blob: the id column holds the text "7", yet the
    mapper returns the geometry error before the type assertion is
    reached, and the request is answered 500 with the sanitized message. *)
Lemma C9_counterexample :
  let bad := [Sql.VString "POINT (1 2)"; Sql.VString "7"] in
  let rows := Sql.mkRows None ["geom"; "fid"]%string [(bad, None)] in
  Mapper.mapColumnsToFeature "fid" "geom" Fixtures.readGpkgGeometry Mapper.newFeature
    ["geom"; "fid"]%string bad
  = Go.Ok (Mapper.newFeature,
           Some "failed to read geometry from geom column in datastore"%string) /\
  Fixtures.CollectionContent_on (Fixtures.gpkg_answering rows) (Fixtures.items ∅)
  = Go.Ok (Error "failed to retrieve feature collection addresses"
                 Http.StatusInternalServerError).
Proof. by vm_compute. Qed.

(** The handler on the table of ten addresses: the first page of two, the
    page reached through its next cursor, and a cursor made under another
    checksum. *)
Example first_page :
  Fixtures.page_of (list_byte_of_string "2")
    (Fixtures.CollectionContent (Fixtures.items {[ limitParam := ["2"%string] ]}))
  = Some ([1; 2], None, Some 3).
Proof. by vm_compute. Qed.

Example second_page :
  Fixtures.page_of (list_byte_of_string "2")
    (Fixtures.CollectionContent
       (Fixtures.items {[ limitParam := ["2"%string];
                          cursorParam := [Cursor.encodeCursor 3 (list_byte_of_string "2")] ]}))
  = Some ([3; 4], Some 1, Some 5).
Proof. by vm_compute. Qed.

Example stale_cursor :
  Fixtures.page_of (list_byte_of_string "2")
    (Fixtures.CollectionContent
       (Fixtures.items {[ limitParam := ["2"%string];
                          cursorParam := [Cursor.encodeCursor 7 (list_byte_of_string "5")] ]}))
  = Some ([1; 2], None, Some 3).
Proof. by vm_compute. Qed.

End FeaturesProps.

(* ===================================================================== *)
(** * Properties of the engine *)
(* ===================================================================== *)

Module EngineProps.
Import Http Engine.

Lemma canonical_content_type : CanonicalMIMEHeaderKey "Content-Type" = "Content-Type"%string.
Proof. by vm_compute. Qed.

Lemma canonical_content_length :
  CanonicalMIMEHeaderKey "Content-Length" = "Content-Length"%string.
Proof. by vm_compute. Qed.

Lemma Values_removeBody (proxyRes : Response) :
  StatusCode (removeBody proxyRes) = StatusCode proxyRes /\
  Body (removeBody proxyRes) = [] /\
  Header_Values (Header (removeBody proxyRes)) "Content-Length" = ["0"%string] /\
  Header_Values (Header (removeBody proxyRes)) "Content-Type" = [].
Proof.
  unfold Header_Values, removeBody. cbn [StatusCode Body Header].
  rewrite canonical_content_type, canonical_content_length.
  rewrite lookup_insert_ne by done. by rewrite !lookup_insert_eq.
Qed.

(** C4, as the code behaves.  With prefer204 = true, an upstream 404
    becomes status 204 with an empty body and Content-Length 0; it has no
    Content-Type when no content-type override is supplied; and a non-empty
    override, which is applied after the rewrite, makes Content-Type the
    override, on the rewritten response as on any other. *)
Theorem C4_prefer204_rewrite (proxyRes : Response) (contentTypeOverwrite : string) :
  let res := modifyResponse true contentTypeOverwrite proxyRes in
  (StatusCode proxyRes = StatusNotFound ->
     StatusCode res = StatusNoContent /\ Body res = [] /\
     Header_Values (Header res) "Content-Length" = ["0"%string] /\
     (contentTypeOverwrite = ""%string ->
        Header_Values (Header res) "Content-Type" = [] /\
        Header_Get (Header res) "Content-Type" = ""%string)) /\
  (contentTypeOverwrite <> ""%string ->
     Header_Values (Header res) "Content-Type" = [contentTypeOverwrite]).
Proof.
  intros res. subst res. unfold modifyResponse. split.
  - intros H404. rewrite H404. cbn [Z.eqb StatusNotFound Pos.eqb].
    destruct (Values_removeBody
                {| StatusCode := StatusNoContent; Header := Header proxyRes;
                   Body := Body proxyRes |}) as (Hs & Hb & Hcl & Hct).
    case_bool_decide as Ho; cbn [negb StatusCode Body Header].
    + repeat split; try done. unfold Header_Get. by rewrite Hct.
    + repeat split; try done.
      unfold Header_Values, Header_Set in *.
      rewrite canonical_content_type, canonical_content_length in *.
      by rewrite lookup_insert_ne.
  - intros Ho. rewrite bool_decide_false by done. cbn [negb Header].
    unfold Header_Values, Header_Set. by rewrite lookup_insert_eq.
Qed.

Lemma C4_witness :
  let upstream := {| StatusCode := 404;
                     Header := {[ "Content-Type"%string := ["text/plain"%string] ]};
                     Body := list_byte_of_string "tile not found" |} in
  (StatusCode (modifyResponse true "" upstream) = 204 /\
   Header_Values (Header (modifyResponse true "" upstream)) "Content-Type" = []) /\
  Header_Values (Header (modifyResponse true "application/json" upstream)) "Content-Type"
  = ["application/json"%string].
Proof.
  intros upstream. split; [split|].
  - exact (proj1 (proj1 (C4_prefer204_rewrite upstream "") eq_refl)).
  - exact (proj1 (proj2 (proj2 (proj2 (proj1 (C4_prefer204_rewrite upstream "") eq_refl)))
                    eq_refl)).
  - apply (proj2 (C4_prefer204_rewrite upstream "application/json")). discriminate.
Defined.

(** C4 as stated fails when an override is supplied: the upstream 404 is
    delivered as a 204 that does carry a Content-Type, the override. *)
Lemma C4_counterexample :
  let upstream := {| StatusCode := 404;
                     Header := {[ "Content-Type"%string := ["text/plain"%string] ]};
                     Body := list_byte_of_string "tile not found" |} in
  let res := modifyResponse true "application/vnd.mapbox-vector-tile" upstream in
  StatusCode res = 204 /\
  Header_Values (Header res) "Content-Type" = ["application/vnd.mapbox-vector-tile"%string] /\
  Header_Values (Header res) "Content-Type" <> [].
Proof. by vm_compute. Qed.

(** X16.  What the response hook leaves alone: it changes the status only
    from 404 to 204 and only under prefer204, empties the body only then,
    and never touches a header other than Content-Type and Content-Length;
    without prefer204 the response is returned as it came, even when a
    content-type override is given. *)
Theorem modifyResponse_frame (prefer204 : bool) (contentTypeOverwrite : string)
  (proxyRes : Response) :
  let res := modifyResponse prefer204 contentTypeOverwrite proxyRes in
  let rewritten := prefer204 && (StatusCode proxyRes =? StatusNotFound) in
  StatusCode res = (if rewritten then StatusNoContent else StatusCode proxyRes) /\
  Body res = (if rewritten then [] else Body proxyRes) /\
  (forall key, key <> "Content-Type"%string -> key <> "Content-Length"%string ->
     Header res !! key = Header proxyRes !! key) /\
  (prefer204 = false -> res = proxyRes).
Proof.
  intros res rewritten. subst res rewritten. unfold modifyResponse.
  destruct prefer204; [|done]. cbn [andb].
  destruct (StatusCode proxyRes =? StatusNotFound);
    case_bool_decide; cbn [negb StatusCode Body Header removeBody];
    (split; [done|split; [done|split; [|done]]]); intros key H1 H2;
    unfold Header_Set; rewrite ?canonical_content_type;
    by rewrite ?lookup_insert_ne by done.
Qed.

Lemma modifyResponse_frame_witness :
  let upstream := {| StatusCode := 404;
                     Header := {[ "Content-Type"%string := ["text/plain"%string];
                                  "Etag"%string := ["abc"%string] ]};
                     Body := list_byte_of_string "tile not found" |} in
  Header (modifyResponse true "application/json" upstream) !! "Etag"%string
  = Some ["abc"%string] /\
  modifyResponse false "application/json" upstream = upstream.
Proof.
  intros upstream. split.
  - rewrite (proj1 (proj2 (proj2 (modifyResponse_frame true "application/json" upstream)))
               "Etag"%string); done.
  - exact (proj2 (proj2 (proj2 (modifyResponse_frame false "application/json" upstream)))
             eq_refl).
Defined.

Section Render.

Context {Request Template Params Breadcrumbs : Type}.
Variable validateRequest : Request -> Go.error.
Variable getParsedTemplate : TemplateKey -> option (parsed (Template := Template)) * Go.error.
Variable renderHTMLTemplate : Template -> Params -> Breadcrumbs -> list byte.
Variable renderNonHTMLTemplate : Template -> Params -> TemplateKey -> list byte.
Variable formatToMediaType : string -> string.
Variable validateResponse : string -> list byte -> Request -> Go.error.

Local Abbreviation RenderAndServePage :=
  (RenderAndServePage validateRequest getParsedTemplate renderHTMLTemplate
     renderNonHTMLTemplate formatToMediaType validateResponse).

(** C10.  When the request is valid and the lookup of the parsed template
    fails (an error and the nil template), RenderAndServePage writes the
    500 response and goes on: the type assertion on the nil template
    panics.  The handler ends in a panic after the error has been emitted,
    for an HTML key as for any other. *)
Theorem C10_missing_template_panics (r : Request) (key : TemplateKey) (params : Params)
  (breadcrumbs : Breadcrumbs) (e : string) :
  validateRequest r = None ->
  getParsedTemplate key = (None, Some e) ->
  RenderAndServePage r key params breadcrumbs
  = ([LogPrintf e; HttpError e StatusInternalServerError],
     Go.Panic "interface conversion: interface {} is not *template.Template").
Proof.
  intros Hv Hg. unfold Engine.RenderAndServePage. rewrite Hv, Hg.
  by case_bool_decide.
Qed.

(** X17.  When RenderAndServePage panics: exactly when the request is valid
    and the parsed template is not of the kind the format of the key asks
    for (an HTML template for the format "html", a text template for any
    other format); a missing template is the case of the nil value. *)
Theorem RenderAndServePage_panics_iff (r : Request) (key : TemplateKey) (params : Params)
  (breadcrumbs : Breadcrumbs) :
  (exists msg, (RenderAndServePage r key params breadcrumbs).2 = Go.Panic msg) <->
  validateRequest r = None /\ template_matches key (getParsedTemplate key).1 = false.
Proof.
  unfold Engine.RenderAndServePage, template_matches.
  destruct (validateRequest r) as [e|].
  { cbn. split; [by intros [msg ?]|by intros [? _]]. }
  destruct (getParsedTemplate key) as [[[t|t]|] err]; cbn [fst];
    case_bool_decide; cbn [negb]; repeat destruct (validateResponse _ _ _);
    cbn [snd]; split; try (by intros [msg ?]); try (by intros [_ ?]);
    try (intros _; by eexists); try (intros _; by split).
Qed.

(** Membership of an event in a list of events that is written out,
    against a description by cases. *)
Local Ltac solve_events :=
  intros; rewrite !elem_of_cons, elem_of_nil;
  split; intros; destruct_or?; destruct_and?; simplify_eq;
  first [ done
        | by repeat split
        | by left; repeat split
        | by right; left; repeat split
        | by right; right; repeat split
        | by right; right; left; repeat split ].

(** X18.  ServePage answers once, and each failure has its status.  The
    call returns normally and sends exactly one response, an error or the
    body.  An error 400 is sent exactly when the request is invalid, and
    carries the validation error; an error 404 exactly when the request is
    valid and the template was not pre-rendered; an error 500 exactly when
    the pre-rendered output does not pass the response validation, and
    carries that error.  The pre-rendered output is written exactly when
    the three checks pass, and Content-Type is set only then, to the media
    type of the key's format when that is not empty. *)
Theorem ServePage_answers_once (getRenderedTemplate : TemplateKey -> list byte * Go.error)
  (r : Request) (templateKey : TemplateKey) :
  let res := ServePage validateRequest formatToMediaType validateResponse
               getRenderedTemplate r templateKey in
  let output := (getRenderedTemplate templateKey).1 in
  let contentType := formatToMediaType (Format templateKey) in
  res.2 = Go.Ok tt /\
  length (filter is_response res.1) = 1%nat /\
  (forall msg code, HttpError msg code ∈ res.1 <->
     (code = StatusBadRequest /\ validateRequest r = Some msg) \/
     (code = StatusNotFound /\ msg = "404 page not found"%string /\
      validateRequest r = None /\ (getRenderedTemplate templateKey).2 <> None) \/
     (code = StatusInternalServerError /\ validateRequest r = None /\
      (getRenderedTemplate templateKey).2 = None /\
      validateResponse contentType output r = Some msg)) /\
  (forall body, Write body ∈ res.1 <->
     body = output /\ validateRequest r = None /\
     (getRenderedTemplate templateKey).2 = None /\
     validateResponse contentType output r = None) /\
  (forall key value, SetHeader key value ∈ res.1 <->
     key = "Content-Type"%string /\ value = contentType /\ contentType <> ""%string /\
     validateRequest r = None /\ (getRenderedTemplate templateKey).2 = None /\
     validateResponse contentType output r = None).
Proof.
  clear getParsedTemplate renderHTMLTemplate renderNonHTMLTemplate.
  unfold ServePage. cbn zeta.
  destruct (validateRequest r) as [e|].
  { cbn [fst snd]. split; [done|]. split; [done|].
    split; [|split]; solve_events. }
  destruct (getRenderedTemplate templateKey) as [output [e|]]; cbn [fst snd].
  { split; [done|]. split; [done|].
    split; [|split]; solve_events. }
  destruct (validateResponse _ output r) as [e|]; cbn [fst snd].
  { split; [done|]. split; [done|].
    split; [|split]; solve_events. }
  case_bool_decide as Hct; cbn [negb app fst snd].
  - split; [done|]. split; [done|].
    split; [|split]; solve_events.
  - split; [done|]. split; [done|].
    split; [|split]; solve_events.
Qed.

End Render.

Lemma C10_witness :
  RenderAndServePage (Request := unit) (Template := string) (Params := unit)
    (Breadcrumbs := unit)
    (fun _ => None)
    (fun key => (None, Some ("no parsed template with name " ++ Name key)%string))
    (fun t _ _ => list_byte_of_string t) (fun t _ _ => list_byte_of_string t)
    (fun _ => "text/html"%string) (fun _ _ _ => None)
    tt (mkTemplateKey "features.go.html" "ogc/features/templates/" "html" "" "nl") tt tt
  = ([LogPrintf "no parsed template with name features.go.html";
      HttpError "no parsed template with name features.go.html" 500],
     Go.Panic "interface conversion: interface {} is not *template.Template").
Proof.
  apply (C10_missing_template_panics (Request := unit) (Template := string)
           (Params := unit) (Breadcrumbs := unit)); reflexivity.
Defined.

Lemma RenderAndServePage_panics_iff_witness :
  exists msg,
    (RenderAndServePage (Request := unit) (Template := string) (Params := unit)
       (Breadcrumbs := unit)
       (fun _ => None)
       (fun key => (Some (TextTemplate "{}"), None))
       (fun t _ _ => list_byte_of_string t) (fun t _ _ => list_byte_of_string t)
       (fun _ => "text/html"%string) (fun _ _ _ => None)
       tt (mkTemplateKey "features.go.html" "ogc/features/templates/" "html" "" "nl")
       tt tt).2 = Go.Panic msg.
Proof.
  apply (proj2 (RenderAndServePage_panics_iff (Request := unit) (Template := string)
                  (Params := unit) (Breadcrumbs := unit) _ _ _ _ _ _ tt _ tt tt)).
  by split.
Defined.

Lemma ServePage_answers_once_witness :
  let key := mkTemplateKey "landing-page.go.html" "ogc/common/core/templates/" "html" "" "nl" in
  HttpError "404 page not found" StatusNotFound
  ∈ (ServePage (Request := unit) (fun _ => None) (fun _ => "text/html"%string)
       (fun _ _ _ => None)
       (fun key => ([], Some ("no rendered output for template " ++ Name key)%string))
       tt key).1.
Proof.
  intros key.
  apply (proj2 (proj1 (proj2 (proj2 (ServePage_answers_once (Request := unit)
                  (fun _ => None) (fun _ => "text/html"%string) (fun _ _ _ => None)
                  (fun key => ([], Some ("no rendered output for template "
                                         ++ Name key)%string))
                  tt key)))
                  "404 page not found"%string StatusNotFound)).
  right; left. by repeat split.
Defined.

End EngineProps.
